(** * A conversational query router with tools: ledger, extraction, routing

    Shallow embedding of the routing core of the assistant:
    - [assistant/memory.py]   the bounded conversation ledger,
    - [assistant/router.py]   tool-call extraction and the routing cycle,
    - [assistant/prompts.py]  the two prompt builders,
    - [tools/base.py], [tools/weather.py], [tools/stock.py]  the capabilities.

    Python values are restricted to the JSON fragment the program handles.
    A Python [str] is modelled as a sequence of characters whose code points
    lie below 256 (one [ascii] per character). *)

From Stdlib Require Import ZArith Lia Ascii.
From Stdlib Require Import Floats.SpecFloat.
From stdpp Require Import base gmap strings list pretty.

Set Warnings "-register-all".

(** ** Python values *)

(** The values [json.loads] produces: [None], [bool], [int], [float], [str],
    [list] and [dict] with string keys.  A dict keeps insertion order. *)
Inductive pyval : Type :=
  | PNone
  | PBool (b : bool)
  | PInt (z : Z)
  | PFloat (f : spec_float)
  | PStr (s : string)
  | PList (items : list pyval)
  | PDict (fields : list (string * pyval)).

(** Exception classes met in the program.  [JSONDecodeError] derives from
    [ValueError]; every class derives from [Exception]. *)
Inductive exn_class : Type :=
  | Exception
  | ValueError
  | JSONDecodeError
  | TypeError
  | KeyError
  | IndexError
  | AttributeError
  | ClientError.

(** An exception object: its class and the text [str(e)] gives. *)
Record exn : Type := Exn { exn_cls : exn_class; exn_msg : string }.

(** [isinstance(e, cls)] on the class hierarchy above. *)
Definition isinstance (e : exn) (cls : exn_class) : bool :=
  match cls, exn_cls e with
  | Exception, _ => true
  | ValueError, (ValueError | JSONDecodeError) => true
  | JSONDecodeError, JSONDecodeError => true
  | TypeError, TypeError => true
  | KeyError, KeyError => true
  | IndexError, IndexError => true
  | AttributeError, AttributeError => true
  | ClientError, ClientError => true
  | _, _ => false
  end.

(** The outcome of a call: a raised exception or a returned value. *)
Definition result (A : Type) : Type := exn + A.

(** Python truthiness, [bool(v)]. *)
Definition truthy (v : pyval) : bool :=
  match v with
  | PNone => false
  | PBool b => b
  | PInt z => negb (z =? 0)%Z
  | PFloat (S754_zero _) => false
  | PFloat _ => true
  | PStr s => negb (String.eqb s "")
  | PList l => match l with [] => false | _ => true end
  | PDict d => match d with [] => false | _ => true end
  end.

(** [d.get(key)] on a dict given by its items. *)
Fixpoint dict_lookup (d : list (string * pyval)) (key : string) : option pyval :=
  match d with
  | [] => None
  | (k, v) :: rest => if String.eqb k key then Some v else dict_lookup rest key
  end.

(** [d.get(key, default)]. *)
Definition dict_get (d : list (string * pyval)) (key : string) (default : pyval) : pyval :=
  match dict_lookup d key with
  | Some v => v
  | None => default
  end.

(** [key in d]. *)
Definition dict_contains (d : list (string * pyval)) (key : string) : bool :=
  match dict_lookup d key with
  | Some _ => true
  | None => false
  end.

(** ** Python slicing *)

Definition py_len {A : Type} (l : list A) : Z := Z.of_nat (length l).

(** The position a slice bound [i] denotes in a sequence of length [n]:
    negative bounds count from the end, and every bound is clamped. *)
Definition slice_bound (n i : Z) : nat :=
  Z.to_nat (if (i <? 0)%Z then Z.max (n + i) 0 else Z.min i n).

(** [l[:i]] *)
Definition slice_to {A : Type} (l : list A) (i : Z) : list A :=
  take (slice_bound (py_len l) i) l.

(** [l[i:]] *)
Definition slice_from {A : Type} (l : list A) (i : Z) : list A :=
  drop (slice_bound (py_len l) i) l.

(** ** The bounded conversation ledger ([assistant/memory.py]) *)

(** One entry of [ConversationMemory.messages]: the dict with keys [role],
    [content] and, for tool entries only, [tool_name]. *)
Record Message : Type := {
  msg_role : string;
  msg_content : string;
  msg_tool_name : option string
}.

Record ConversationMemory : Type := {
  max_turns : Z;
  messages : list Message
}.

(** [ConversationMemory(max_turns)] *)
Definition new_memory (max_turns : Z) : ConversationMemory :=
  {| max_turns := max_turns; messages := [] |}.

(** The list computed by [_truncate_history], for any kind of entry whose
    role can be tested for being [system]. *)
Definition truncate_entries {A : Type} (is_system : A -> bool)
    (max_turns : Z) (msgs : list A) : list A :=
  if (py_len msgs <=? max_turns * 2)%Z then msgs
  else
    let has_system :=
      match msgs with
      | [] => false
      | m :: _ => is_system m
      end in
    let start_idx := (if has_system then 1 else 0)%Z in
    let num_to_remove :=
      (py_len msgs - max_turns * 2 - (if has_system then 1 else 0))%Z in
    slice_to msgs start_idx ++ slice_from msgs (start_idx + num_to_remove).

Definition is_system_message (m : Message) : bool :=
  String.eqb (msg_role m) "system".

Definition _truncate_history (self : ConversationMemory) : ConversationMemory :=
  {| max_turns := max_turns self;
     messages := truncate_entries is_system_message (max_turns self) (messages self) |}.

(** [self.messages.append(m)] followed by [self._truncate_history()]. *)
Definition append_and_truncate (self : ConversationMemory) (m : Message)
    : ConversationMemory :=
  _truncate_history
    {| max_turns := max_turns self; messages := messages self ++ [m] |}.

Definition user_message (content : string) : Message :=
  {| msg_role := "user"; msg_content := content; msg_tool_name := None |}.

Definition assistant_message (content : string) : Message :=
  {| msg_role := "assistant"; msg_content := content; msg_tool_name := None |}.

Definition add_user_message (self : ConversationMemory) (content : string)
    : ConversationMemory :=
  append_and_truncate self (user_message content).

Definition add_assistant_message (self : ConversationMemory) (content : string)
    : ConversationMemory :=
  append_and_truncate self (assistant_message content).

(** [get_messages]: a new list holding the same entries. *)
Definition get_messages (self : ConversationMemory) : list Message :=
  messages self.

(** [clear] *)
Definition clear (self : ConversationMemory) : ConversationMemory :=
  {| max_turns := max_turns self; messages := [] |}.

(** The last [n] entries of a list, in their order. *)
Definition last_n {A : Type} (n : nat) (l : list A) : list A :=
  drop (length l - n) l.

(** ** The Python runtime the program relies on

    Library functions the program calls but does not define.  They are left
    abstract: every fact below holds for any implementation of them. *)
Class Runtime : Type := {
  (** [json.loads(s)]: the decoded value, or the exception it raises. *)
  json_loads : string -> result pyval;
  (** [json.dumps(v, indent=i)]; [None] is the default, no indentation. *)
  json_dumps : option Z -> pyval -> string;
  (** [repr(v)], used by [str] on floats, lists and dicts. *)
  py_repr : pyval -> string;
  (** [traceback.format_exc()] inside the handler of [e]. *)
  format_exc : exn -> string;
  (** [s.strip()] and [s.upper()]. *)
  str_strip : string -> string;
  str_upper : string -> string;
  (** [float(v)] and [int(v)]. *)
  py_float : pyval -> result spec_float;
  py_int : pyval -> result Z;
  (** [datetime.now().isoformat()]. *)
  isoformat_now : string
}.

(** The double quote character and a one-character string. *)
Definition dquote : ascii := "034"%char.
Definition dq : string := String dquote "".

(** [quoted s] is [s] with every [~] replaced by a double quote, to write
    Python literals that contain double quotes. *)
Fixpoint quoted (s : string) : string :=
  match s with
  | "" => ""
  | String c rest =>
      String (if Ascii.eqb c "~"%char then dquote else c) (quoted rest)
  end.

(** [str(v)] *)
Definition py_str `{Runtime} (v : pyval) : string :=
  match v with
  | PNone => "None"
  | PBool true => "True"
  | PBool false => "False"
  | PInt z => pretty z
  | PStr s => s
  | _ => py_repr v
  end.

(** [add_tool_message]: the payload is stored serialized. *)
Definition tool_message `{Runtime} (tool_name : string) (content : pyval) : Message :=
  {| msg_role := "tool";
     msg_content := json_dumps None content;
     msg_tool_name := Some tool_name |}.

Definition add_tool_message `{Runtime} (self : ConversationMemory)
    (tool_name : string) (content : pyval) : ConversationMemory :=
  append_and_truncate self (tool_message tool_name content).

(** ** Prompt builders ([assistant/prompts.py]) *)

Definition system_prompt_head : string := quoted
"You are an intelligent Q&A Assistant designed to help users by answering questions and performing actions.

Your capabilities:
1. Answer general knowledge questions directly using your built-in knowledge
2. Call external tools to fetch real-time or specialized information when needed

AVAILABLE TOOLS:
".

Definition system_prompt_tail : string := quoted (
"

INSTRUCTIONS:
- For general knowledge questions that don't require real-time data (like ~Who is Albert Einstein?~), answer directly.
- For questions about real-time information (like weather, stock prices) or specialized data, use the appropriate tool.
- Analyze each query carefully to determine if it requires a tool or can be answered with general knowledge.

HOW TO USE TOOLS:
If a query requires a tool, respond in the following format:

```json
{
  ~use_tool~: true,
  ~tool_name~: ~[name of the tool]~,
  ~tool_parameters~: {
    ~[parameter name]~: ~[parameter value]~,
    ...
  }
}
```

EXAMPLES:

" +:+ "Example 1 (General Knowledge):
User: ~What is the capital of France?~
Assistant: ~The capital of France is Paris.~

" +:+ "Example 2 (Weather Tool):
User: ~What's the weather in New York right now?~
Assistant: ```json
{
  ~use_tool~: true,
  ~tool_name~: ~get_weather~,
  ~tool_parameters~: {
    ~location~: ~New York~
  }
}

" +:+ "Example 3 (General Knowledge):
User: ~What is the season in Delhi if current month is March?~
Assistant: ~It is spring season.~
```

" +:+ "Example 4 (Stock Tool):
User: ~What's the current price of Apple stock?~
Assistant: ```json
{
  ~use_tool~: true,
  ~tool_name~: ~get_stock_price~,
  ~tool_parameters~: {
    ~symbol~: ~AAPL~
  }
}
```

IMPORTANT:
- Always format tool calls as valid JSON.
- Only use the tools that are listed above.
- If a question is ambiguous, ask for clarification instead of using a tool. Better to clarify than to answer wrongly.
").

Definition get_system_prompt `{Runtime} (tools : list pyval) : string :=
  let tools_json := json_dumps (Some 2%Z) (PList tools) in
  system_prompt_head +:+ tools_json +:+ system_prompt_tail.

Definition get_tool_response_prompt `{Runtime} (tool_name : string)
    (tool_response : pyval) (user_query : string) : string :=
  let response_json := json_dumps (Some 2%Z) tool_response in
  "The user asked: " +:+ dq +:+ user_query +:+ dq +:+ "

You used the " +:+ dq +:+ tool_name +:+ dq +:+ " tool, which returned the following information:

" +:+ response_json +:+ "

Please format this information into a natural, helpful response that directly answers the user's question.
If there was an error in the tool response, explain what went wrong in a friendly manner and suggest alternatives if possible.
".

(** ** Regular-expression matching for the fenced blocks

    A backtracking matcher in continuation-passing style: each combinator
    takes the matcher [k] for the rest of the pattern and the text still to
    be read, and tries its alternatives in the priority order of [re]. *)

(** [\s] on characters below 256: the characters [str.isspace] accepts. *)
Definition is_space (c : ascii) : bool :=
  let n := nat_of_ascii c in
  ((9 <=? n) && (n <=? 13)) || ((28 <=? n) && (n <=? 32))
  || (n =? 133) || (n =? 160).

(** [s] without its prefix [p], when it starts with [p]. *)
Fixpoint strip_prefix (p s : string) : option string :=
  match p, s with
  | "", _ => Some s
  | String a p', String b s' =>
      if Ascii.eqb a b then strip_prefix p' s' else None
  | String _ _, "" => None
  end.

Section Regex.
Context {R : Type}.

(** A literal. *)
Definition re_lit (p : string) (k : string -> option R) (s : string)
    : option R :=
  match strip_prefix p s with
  | Some rest => k rest
  | None => None
  end.

(** [(?:x)?]: with [x] first, then without. *)
Definition re_opt (x : (string -> option R) -> string -> option R)
    (k : string -> option R) (s : string) : option R :=
  match x k s with
  | Some r => Some r
  | None => k s
  end.

(** [\s*]: the longest run of white space first, then shorter ones. *)
Fixpoint re_spaces (k : string -> option R) (s : string) : option R :=
  match s with
  | String c rest =>
      if is_space c then
        match re_spaces k rest with
        | Some r => Some r
        | None => k s
        end
      else k s
  | "" => k s
  end.

(** [([\s\S]*?)]: the shortest text first; [k] receives the text captured
    and what follows it. *)
Fixpoint re_lazy_any (k : string -> string -> option R) (captured s : string)
    : option R :=
  match k captured s with
  | Some r => Some r
  | None =>
      match s with
      | String c rest => re_lazy_any k (captured +:+ String c "") rest
      | "" => None
      end
  end.
End Regex.

Definition fence : string := "```".

(** A match of [```(?:json)?\s*([\s\S]*?)\s*```] at the start of [s]: the
    text of group 1 and the text left after the match. *)
Definition fence_match (s : string) : option (string * string) :=
  re_lit fence
    (re_opt (re_lit "json")
      (re_spaces
        (re_lazy_any
          (fun captured => re_spaces (re_lit fence (fun rest => Some (captured, rest))))
          "")))
    s.

(** The scan of [re.findall]: matches are looked for from left to right and
    do not overlap; [skip] characters of the last match are still to be
    passed over. *)
Fixpoint findall_from (skip : nat) (s : string) {struct s} : list string :=
  match s with
  | "" => []
  | String _ rest =>
      match skip with
      | S n => findall_from n rest
      | O =>
          match fence_match s with
          | Some (captured, after) =>
              captured ::
                findall_from (String.length s - String.length after - 1) rest
          | None => findall_from 0 rest
          end
      end
  end.

(** [re.findall(r'```(?:json)?\s*([\s\S]*?)\s*```', text)] *)
Definition findall (text : string) : list string := findall_from 0 text.

(** ** Tool-call extraction ([QueryRouter._extract_tool_call]) *)

(** The loop over the candidates. *)
Fixpoint first_tool_call `{Runtime} (json_matches : list string)
    : result (option (list (string * pyval))) :=
  match json_matches with
  | [] => inr None
  | potential_json :: rest =>
      match json_loads potential_json with
      | inr (PDict data) =>
          if dict_contains data "use_tool" then inr (Some data)
          else first_tool_call rest
      | inr _ => first_tool_call rest
      | inl e =>
          if isinstance e JSONDecodeError then first_tool_call rest
          else inl e
      end
  end.

(** The candidates: the fenced blocks, or the whole text when there is none. *)
Definition candidates (text : string) : list string :=
  match findall text with
  | [] => [text]
  | json_matches => json_matches
  end.

Definition _extract_tool_call `{Runtime} (text : string)
    : result (option (list (string * pyval))) :=
  first_tool_call (candidates text).

(** ** Operations on Python values that may raise *)

(** Sequencing of calls that may raise. *)
Definition rbind {A B : Type} (c : result A) (k : A -> result B) : result B :=
  match c with
  | inl e => inl e
  | inr a => k a
  end.

Notation "'let?' x := c 'in' k" := (rbind c (fun x => k))
  (at level 10, x name, c at level 100, k at level 200).

(** [type(v).__name__] *)
Definition type_name (v : pyval) : string :=
  match v with
  | PNone => "NoneType"
  | PBool _ => "bool"
  | PInt _ => "int"
  | PFloat _ => "float"
  | PStr _ => "str"
  | PList _ => "list"
  | PDict _ => "dict"
  end.

(** [v[key]] for a string [key]. *)
Definition getitem_str (v : pyval) (key : string) : result pyval :=
  match v with
  | PDict d =>
      match dict_lookup d key with
      | Some x => inr x
      | None => inl (Exn KeyError ("'" +:+ key +:+ "'"))
      end
  | PList _ => inl (Exn TypeError "list indices must be integers or slices, not str")
  | PStr _ => inl (Exn TypeError "string indices must be integers, not 'str'")
  | _ => inl (Exn TypeError ("'" +:+ type_name v +:+ "' object is not subscriptable"))
  end.

(** [v[0]] *)
Definition getitem_0 (v : pyval) : result pyval :=
  match v with
  | PList (x :: _) => inr x
  | PList [] => inl (Exn IndexError "list index out of range")
  | PStr (String c _) => inr (PStr (String c ""))
  | PStr "" => inl (Exn IndexError "string index out of range")
  | PDict d => inl (Exn KeyError "0")
  | _ => inl (Exn TypeError ("'" +:+ type_name v +:+ "' object is not subscriptable"))
  end.

(** [v.get(key, default)]: only a dict has the method. *)
Definition method_get (v : pyval) (key : string) (default : pyval) : result pyval :=
  match v with
  | PDict d => inr (dict_get d key default)
  | _ => inl (Exn AttributeError
                ("'" +:+ type_name v +:+ "' object has no attribute 'get'"))
  end.

(** [v == s] for a string [s]. *)
Definition eq_str (v : pyval) (s : string) : bool :=
  match v with
  | PStr t => String.eqb t s
  | _ => false
  end.

(** [needle in hay] for two strings. *)
Fixpoint is_substring (needle hay : string) : bool :=
  match strip_prefix needle hay with
  | Some _ => true
  | None =>
      match hay with
      | String _ rest => is_substring needle rest
      | "" => false
      end
  end.

(** [key in v] for a string [key]. *)
Definition contains_str (v : pyval) (key : string) : result bool :=
  match v with
  | PDict d => inr (dict_contains d key)
  | PList l => inr (existsb (fun x => eq_str x key) l)
  | PStr s => inr (is_substring key s)
  | _ => inl (Exn TypeError
                ("argument of type '" +:+ type_name v +:+ "' is not iterable"))
  end.

(** [not api_key] for the optional key of a tool. *)
Definition key_missing (api_key : option string) : bool :=
  match api_key with
  | None => true
  | Some k => String.eqb k ""
  end.

(** The text of a key that is present. *)
Definition key_text (api_key : option string) : string :=
  match api_key with
  | None => ""
  | Some k => k
  end.

(** ** The capability contract ([tools/base.py]) *)

(** A tool: its three descriptive properties and [execute], which takes the
    keyword arguments and returns a payload or raises.  [execute] is a method
    of the tool's class: [execute_module] and [execute_qualname] are its
    [__module__] and [__qualname__], which the interpreter prints when a call
    of it cannot be made. *)
Record BaseTool : Type := {
  tool_name : string;
  description : string;
  parameters : pyval;
  execute : list (string * pyval) -> result pyval;
  execute_module : string;
  execute_qualname : string
}.

Definition to_dict (self : BaseTool) : pyval :=
  PDict [("name", PStr (tool_name self));
         ("description", PStr (description self));
         ("parameters", parameters self)].

(** The structured failure payload [{"error": ..., "details": ...}]. *)
Definition error_payload (error details : string) : pyval :=
  PDict [("error", PStr error); ("details", PStr details)].

(** A payload that has the keys [error] and [details]. *)
Definition is_failure_payload (payload : pyval) : bool :=
  match payload with
  | PDict d => dict_contains d "error" && dict_contains d "details"
  | _ => false
  end.

(** What the program sees of an HTTP exchange: the status, and what
    [response.text()] and [response.json()] give or raise. *)
Record http_response : Type := {
  resp_status : Z;
  resp_text : result string;
  resp_json : result pyval
}.

(** [session.get(url, params=params)] inside a client session: a response,
    or the exception raised on the way. *)
Definition http_get : Type :=
  string -> list (string * pyval) -> result http_response.

(** ** The weather capability ([tools/weather.py]) *)

Definition degree : string := String "176"%char "".

Definition param_schema (type description : string) (required : bool) : pyval :=
  PDict [("type", PStr type); ("description", PStr description);
         ("required", PBool required)].

Definition weather_parameters : pyval :=
  PDict [("location",
          param_schema "string"
            "The city name or location to get weather for (e.g., 'New York', 'London, UK')"
            true);
         ("units",
          param_schema "string"
            "Units of measurement. Options: 'metric' (Celsius), 'imperial' (Fahrenheit), 'standard' (Kelvin)"
            false)].

(** The body of the [try] block of [WeatherTool.execute]. *)
Definition weather_request `{Runtime} (api_key : string) (session_get : http_get)
    (location units : pyval) : result pyval :=
  let url := "https://api.openweathermap.org/data/2.5/weather" in
  let params := [("q", location); ("units", units); ("appid", PStr api_key)] in
  let? response := session_get url params in
  let status_code := resp_status response in
  if negb (status_code =? 200)%Z then
    let? error_data := resp_text response in
    inr (error_payload ("Weather API error: " +:+ pretty status_code) error_data)
  else
    let? data := resp_json response in
    let temp_unit :=
      if eq_str units "metric" then degree +:+ "C"
      else if eq_str units "imperial" then degree +:+ "F" else "K" in
    let wind_unit :=
      if eq_str units "metric" then "m/s"
      else if eq_str units "imperial" then "mph" else "m/s" in
    let? name := getitem_str data "name" in
    let? sys := method_get data "sys" (PDict []) in
    let? country := method_get sys "country" (PStr "") in
    let? main1 := getitem_str data "main" in
    let? temp := getitem_str main1 "temp" in
    let? main2 := getitem_str data "main" in
    let? feels_like := getitem_str main2 "feels_like" in
    let? weather1 := getitem_str data "weather" in
    let? first1 := getitem_0 weather1 in
    let? condition := getitem_str first1 "main" in
    let? weather2 := getitem_str data "weather" in
    let? first2 := getitem_0 weather2 in
    let? descr := getitem_str first2 "description" in
    let? main3 := getitem_str data "main" in
    let? humidity := getitem_str main3 "humidity" in
    let? wind := getitem_str data "wind" in
    let? speed := getitem_str wind "speed" in
    let? main4 := getitem_str data "main" in
    let? pressure := getitem_str main4 "pressure" in
    let? dt := getitem_str data "dt" in
    inr (PDict [
      ("location", PStr (py_str name +:+ ", " +:+ py_str country));
      ("temperature", PStr (py_str temp +:+ temp_unit));
      ("feels_like", PStr (py_str feels_like +:+ temp_unit));
      ("condition", condition);
      ("description", descr);
      ("humidity", PStr (py_str humidity +:+ "%"));
      ("wind_speed", PStr (py_str speed +:+ " " +:+ wind_unit));
      ("pressure", PStr (py_str pressure +:+ " hPa"));
      ("timestamp", dt)]).

(** The validation of [units]: an unknown value is replaced by [metric]. *)
Definition valid_units (units : pyval) : pyval :=
  if eq_str units "metric" || eq_str units "imperial" || eq_str units "standard"
  then units else PStr "metric".

(** [WeatherTool.execute], applied to its keyword arguments. *)
Definition weather_execute `{Runtime} (api_key : option string)
    (session_get : http_get) (kwargs : list (string * pyval)) : result pyval :=
  let location := dict_get kwargs "location" PNone in
  let units := dict_get kwargs "units" (PStr "metric") in
  if negb (truthy location) then inl (Exn ValueError "Location is required")
  else
  if key_missing api_key then
    inr (error_payload "Weather API key is missing"
           "Please provide a valid OpenWeatherMap API key in the configuration")
  else
    let units := valid_units units in
    match weather_request (key_text api_key) session_get location units with
    | inr payload => inr payload
    | inl e =>
        if isinstance e ClientError then
          inr (error_payload
                 ("Network error connecting to weather API: " +:+ exn_msg e)
                 (format_exc e))
        else if isinstance e KeyError then
          inr (error_payload
                 ("Unexpected data format from weather API (missing key: "
                    +:+ exn_msg e +:+ ")")
                 (format_exc e))
        else
          inr (error_payload
                 ("Error fetching weather data: " +:+ exn_msg e)
                 (format_exc e))
    end.

Definition WeatherTool `{Runtime} (api_key : option string) (session_get : http_get)
    : BaseTool :=
  {| tool_name := "get_weather";
     description := "Get current weather information for a specified location";
     parameters := weather_parameters;
     execute := weather_execute api_key session_get;
     execute_module := "tools.weather";
     execute_qualname := "WeatherTool.execute" |}.

(** ** The stock capability ([tools/stock.py]) *)

Definition stock_parameters : pyval :=
  PDict [("symbol",
          param_schema "string"
            "The stock ticker symbol (e.g., 'AAPL' for Apple, 'MSFT' for Microsoft)"
            true)].

(** [symbol.strip().upper()]: only a string has the methods. *)
Definition strip_upper `{Runtime} (symbol : pyval) : result string :=
  match symbol with
  | PStr s => inr (str_upper (str_strip s))
  | _ => inl (Exn AttributeError
                ("'" +:+ type_name symbol +:+ "' object has no attribute 'strip'"))
  end.

(** The dict display that formats the quote, entries evaluated in order. *)
Definition stock_format `{Runtime} (quote : pyval) (symbol : string)
    : result (list (string * pyval)) :=
  let? sym := method_get quote "01. symbol" (PStr symbol) in
  let? price_v := method_get quote "05. price" (PInt 0) in
  let? price := py_float price_v in
  let? change_v := method_get quote "09. change" (PInt 0) in
  let? change := py_float change_v in
  let? change_percent := method_get quote "10. change percent" (PStr "0%") in
  let? volume_v := method_get quote "06. volume" (PInt 0) in
  let? volume := py_int volume_v in
  let? day := method_get quote "07. latest trading day" (PStr "N/A") in
  let? close_v := method_get quote "08. previous close" (PInt 0) in
  let? close := py_float close_v in
  inr [("symbol", sym);
       ("price", PFloat price);
       ("change", PFloat change);
       ("change_percent", change_percent);
       ("volume", PInt volume);
       ("latest_trading_day", day);
       ("previous_close", PFloat close)].

(** The body of the outer [try] block of [StockTool.execute]. *)
Definition stock_request `{Runtime} (api_key : string) (session_get : http_get)
    (symbol : string) : result pyval :=
  let url := "https://www.alphavantage.co/query" in
  let params := [("function", PStr "GLOBAL_QUOTE"); ("symbol", PStr symbol);
                 ("apikey", PStr api_key)] in
  let? response := session_get url params in
  let status_code := resp_status response in
  if negb (status_code =? 200)%Z then
    let? error_data := resp_text response in
    inr (error_payload ("Stock API error: " +:+ pretty status_code) error_data)
  else
    let? data := resp_json response in
    let no_data :=
      inr (error_payload ("No data found for symbol: " +:+ symbol)
             "The requested stock symbol may be invalid or not available") in
    let? present := contains_str data "Global Quote" in
    if negb present then no_data
    else
      let? quote0 := getitem_str data "Global Quote" in
      if negb (truthy quote0) then no_data
      else
        let? quote := getitem_str data "Global Quote" in
        match stock_format quote symbol with
        | inr formatted_response =>
            inr (PDict (formatted_response ++ [("fetched_at", PStr isoformat_now)]))
        | inl e =>
            if isinstance e ValueError || isinstance e TypeError then
              inr (error_payload ("Error parsing stock data: " +:+ exn_msg e)
                     ("Raw data: " +:+ json_dumps None quote))
            else inl e
        end.

(** [StockTool.execute], applied to its keyword arguments. *)
Definition stock_execute `{Runtime} (api_key : option string)
    (session_get : http_get) (kwargs : list (string * pyval)) : result pyval :=
  let symbol := dict_get kwargs "symbol" PNone in
  if negb (truthy symbol) then inl (Exn ValueError "Stock symbol is required")
  else
  if key_missing api_key then
    inr (error_payload "Alpha Vantage API key is missing"
           "Please provide a valid Alpha Vantage API key in the configuration")
  else
    let? symbol := strip_upper symbol in
    match stock_request (key_text api_key) session_get symbol with
    | inr payload => inr payload
    | inl e =>
        if isinstance e ClientError then
          inr (error_payload
                 ("Network error connecting to stock API: " +:+ exn_msg e)
                 (format_exc e))
        else
          inr (error_payload
                 ("Error fetching stock data: " +:+ exn_msg e)
                 (format_exc e))
    end.

Definition StockTool `{Runtime} (api_key : option string) (session_get : http_get)
    : BaseTool :=
  {| tool_name := "get_stock_price";
     description := "Get current stock price information for a specified ticker symbol";
     parameters := stock_parameters;
     execute := stock_execute api_key session_get;
     execute_module := "tools.stock";
     execute_qualname := "StockTool.execute" |}.

(** ** The query router ([assistant/router.py]) *)

(** One entry of the [messages] argument of a model call. *)
Record chat_message : Type := {
  chat_role : string;
  chat_content : string
}.

(** What a streaming model call delivers: the [delta.content] of each chunk
    received ([None] when a chunk has no content) and, when the call or the
    iteration raises, the exception that ends it after those chunks. *)
Record stream : Type := {
  chunks : list (option string);
  stream_error : option exn
}.

Record llm_call : Type := {
  call_messages : list chat_message;
  call_response : stream
}.

(** The router: the model client, the tools and the name-keyed tool map.
    The client answers the call numbered [n] (counted from the start of the
    session) on the given messages; model, token limit and temperature are
    the same constants at every call. *)
Record QueryRouter : Type := {
  client : nat -> list chat_message -> stream;
  tools : list BaseTool;
  tool_map : gmap string BaseTool
}.

(** [{tool.tool_name: tool for tool in tools}] *)
Definition make_tool_map (tools : list BaseTool) : gmap string BaseTool :=
  foldl (fun m tool => <[tool_name tool := tool]> m) ∅ tools.

(** [QueryRouter(api_key, tools, memory)]; the ledger is part of the state. *)
Definition new_router (client : nat -> list chat_message -> stream)
    (tools : list BaseTool) : QueryRouter :=
  {| client := client; tools := tools; tool_map := make_tool_map tools |}.

(** The state a query runs in: the ledger, the fragments yielded to the
    caller so far, the model calls made and the tool executions started. *)
Record world : Type := {
  memory : ConversationMemory;
  yielded : list string;
  llm_calls : list llm_call;
  tool_runs : list (string * list (string * pyval))
}.

(** The four ways the state changes. *)
Definition say (w : world) (fragments : list string) : world :=
  {| memory := memory w; yielded := yielded w ++ fragments;
     llm_calls := llm_calls w; tool_runs := tool_runs w |}.

Definition remember (w : world) (f : ConversationMemory -> ConversationMemory)
    : world :=
  {| memory := f (memory w); yielded := yielded w;
     llm_calls := llm_calls w; tool_runs := tool_runs w |}.

Definition log_call (w : world) (c : llm_call) : world :=
  {| memory := memory w; yielded := yielded w;
     llm_calls := llm_calls w ++ [c]; tool_runs := tool_runs w |}.

Definition log_run (w : world) (tool_name : string) (kwargs : list (string * pyval))
    : world :=
  {| memory := memory w; yielded := yielded w;
     llm_calls := llm_calls w; tool_runs := tool_runs w ++ [(tool_name, kwargs)] |}.

(** Computations that change the state and may raise. *)
Definition M (A : Type) : Type := world -> result A * world.

Definition ret {A : Type} (a : A) : M A := fun w => (inr a, w).

Definition bind {A B : Type} (c : M A) (k : A -> M B) : M B :=
  fun w =>
    match c w with
    | (inl e, w') => (inl e, w')
    | (inr a, w') => k a w'
    end.

Notation "'do' x <- c ; k" := (bind c (fun x => k))
  (at level 10, x name, c at level 100, k at level 200).

Definition raise {A : Type} (e : exn) : M A := fun w => (inl e, w).

Definition lift {A : Type} (r : result A) : M A := fun w => (r, w).

(** [try: body except Exception as e: handler]; what [body] did to the state
    before raising stays done. *)
Definition try_except {A : Type} (body : M A) (handler : exn -> M A) : M A :=
  fun w =>
    match body w with
    | (inl e, w') => handler e w'
    | (inr a, w') => (inr a, w')
    end.

(** [yield s] *)
Definition yield (s : string) : M unit := fun w => (inr tt, say w [s]).

(** A method call on [self.memory]. *)
Definition update_memory (f : ConversationMemory -> ConversationMemory) : M unit :=
  fun w => (inr tt, remember w f).

Definition read_memory : M ConversationMemory := fun w => (inr (memory w), w).

(** [self.client.chat.stream_async(model, messages, max_tokens, temperature)] *)
Definition stream_async (self : QueryRouter) (messages : list chat_message)
    : M stream :=
  fun w =>
    let response := client self (length (llm_calls w)) messages in
    (inr response,
     log_call w {| call_messages := messages; call_response := response |}).

(** The [async for] loop over the chunks: contents are accumulated and, when
    [emit] is set, yielded as they arrive. *)
Fixpoint collect_chunks (emit : bool) (cs : list (option string)) (acc : string)
    : M string :=
  match cs with
  | [] => ret acc
  | Some content :: rest =>
      do _ <- (if emit then yield content else ret tt);
      collect_chunks emit rest (acc +:+ content)
  | None :: rest => collect_chunks emit rest acc
  end.

Definition read_stream (emit : bool) (response : stream) : M string :=
  do text <- collect_chunks emit (chunks response) "";
  match stream_error response with
  | Some e => raise e
  | None => ret text
  end.

(** The unpacking of [tool_parameters] into the keyword arguments of
    [tool.execute]: it needs a mapping, and a key named [self] collides with
    the bound argument.  The interpreter names the method in both messages,
    with its module in the first one only. *)
Definition bind_kwargs (tool : BaseTool) (tool_parameters : pyval)
    : result (list (string * pyval)) :=
  match tool_parameters with
  | PDict kwargs =>
      if dict_contains kwargs "self" then
        inl (Exn TypeError
               (execute_qualname tool
                  +:+ "() got multiple values for argument 'self'"))
      else inr kwargs
  | _ =>
      inl (Exn TypeError
             (execute_module tool +:+ "." +:+ execute_qualname tool
                +:+ "() argument after ** must be a mapping, not "
                +:+ type_name tool_parameters))
  end.

(** [await tool.execute] on the unpacked [tool_parameters]. *)
Definition call_execute (tool : BaseTool) (tool_parameters : pyval) : M pyval :=
  match bind_kwargs tool tool_parameters with
  | inl e => raise e
  | inr kwargs => fun w => (execute tool kwargs, log_run w (tool_name tool) kwargs)
  end.

(** [tool_name in self.tool_map], then [self.tool_map[tool_name]]: a list or
    a dict cannot be hashed; any other value that is not a string is no key
    of the map. *)
Definition lookup_tool (tool_map : gmap string BaseTool) (tool_name : pyval)
    : result (option (string * BaseTool)) :=
  match tool_name with
  | PStr name =>
      match tool_map !! name with
      | Some tool => inr (Some (name, tool))
      | None => inr None
      end
  | PList _ => inl (Exn TypeError "unhashable type: 'list'")
  | PDict _ => inl (Exn TypeError "unhashable type: 'dict'")
  | _ => inr None
  end.

Definition newline : string := String "010"%char "".

Definition system_message (content : string) : chat_message :=
  {| chat_role := "system"; chat_content := content |}.

Definition user_chat (content : string) : chat_message :=
  {| chat_role := "user"; chat_content := content |}.

(** The loop over [history[:-1]] that keeps user and assistant entries. *)
Definition history_messages (history : list Message) : list chat_message :=
  omap
    (fun msg =>
       if String.eqb (msg_role msg) "user" || String.eqb (msg_role msg) "assistant"
       then Some {| chat_role := msg_role msg; chat_content := msg_content msg |}
       else None)
    (slice_to history (-1)).

(** The messages of the routing call. *)
Definition routing_messages `{Runtime} (self : QueryRouter)
    (history : list Message) (query : string) : list chat_message :=
  [system_message (get_system_prompt (map to_dict (tools self)))]
  ++ history_messages history
  ++ [user_chat query].

(** The messages of the fallback call of [_answer_with_llm]. *)
Definition fallback_messages (query : string) : list chat_message :=
  [system_message
     "You are a helpful AI assistant. Answer the user's question based on your general knowledge.";
   user_chat query].

(** The messages of the call that formats a tool result. *)
Definition formatting_messages `{Runtime} (tool_name : string)
    (tool_response : pyval) (query : string) : list chat_message :=
  [user_chat (get_tool_response_prompt tool_name tool_response query)].

(** The two error messages, [str(e)] spliced in. *)
Definition routing_apology (e : exn) : string :=
  "I encountered an error: " +:+ exn_msg e.

Definition fallback_apology (e : exn) : string :=
  "I encountered an error providing a general knowledge answer: " +:+ exn_msg e.

Definition _answer_with_llm (self : QueryRouter) (query : string) : M unit :=
  let messages := fallback_messages query in
  try_except
    (do response <- stream_async self messages;
     do full_response <- read_stream true response;
     update_memory (fun m => add_assistant_message m full_response))
    (fun e => yield (fallback_apology e)).

(** [tool_call and tool_call.get("use_tool", False)] as a condition. *)
Definition wants_tool (tool_call : option (list (string * pyval))) : bool :=
  match tool_call with
  | None => false
  | Some d => truthy (PDict d) && truthy (dict_get d "use_tool" (PBool false))
  end.

(** The payload the router builds when [execute] raises [e]. *)
Definition execution_error `{Runtime} (tool_name : string) (e : exn) : pyval :=
  error_payload ("Error executing tool " +:+ tool_name +:+ ": " +:+ exn_msg e)
    (format_exc e).

Definition indicator_msg (tool_name : string) : string :=
  "I'll check that for you using " +:+ tool_name +:+ "..." +:+ newline +:+ newline.

Definition not_available_msg `{Runtime} (tool_name : pyval) : string :=
  "I attempted to use a tool called '" +:+ py_str tool_name
    +:+ "', but it's not available. Let me answer based on what I know.".

(** The branch of [process_query] taken on a tool call. *)
Definition dispatch_tool `{Runtime} (self : QueryRouter) (query : string)
    (tool_call : list (string * pyval)) : M unit :=
  let tool_name := dict_get tool_call "tool_name" PNone in
  let tool_parameters := dict_get tool_call "tool_parameters" (PDict []) in
  do found <- lift (lookup_tool (tool_map self) tool_name);
  match found with
  | Some (tool_name, tool) =>
      do _ <- yield (indicator_msg tool_name);
      do tool_response <-
        try_except (call_execute tool tool_parameters)
          (fun e => ret (execution_error tool_name e));
      do _ <- update_memory (fun m => add_tool_message m tool_name tool_response);
      do response <-
        stream_async self (formatting_messages tool_name tool_response query);
      do formatted_response <- read_stream true response;
      update_memory (fun m => add_assistant_message m formatted_response)
  | None =>
      do _ <- yield (not_available_msg tool_name);
      _answer_with_llm self query
  end.

(** The body of the [try] block of [process_query]. *)
Definition route `{Runtime} (self : QueryRouter) (query : string)
    (messages : list chat_message) : M unit :=
  do response <- stream_async self messages;
  do full_response <- read_stream false response;
  do tool_call <- lift (_extract_tool_call full_response);
  if wants_tool tool_call then
    match tool_call with
    | Some d => dispatch_tool self query d
    | None => ret tt
    end
  else
    do _ <- yield full_response;
    update_memory (fun m => add_assistant_message m full_response).

Definition process_query `{Runtime} (self : QueryRouter) (query : string) : M unit :=
  do _ <- update_memory (fun m => add_user_message m query);
  do mem <- read_memory;
  let history := get_messages mem in
  let messages := routing_messages self history query in
  try_except (route self query messages)
    (fun e => yield (routing_apology e)).

(** ** The ledger as Python objects: identity and sharing

    [get_messages] returns [self.messages.copy()], a new list whose items are
    the very dicts the ledger holds.  To speak of what a caller can do with
    that list, the ledger is modelled a second time, over a store of objects:
    a location is the index of an object in the store, lists hold locations,
    and the entries are dict objects. *)

Module Heap.

Abbreviation loc := nat (only parsing).

Inductive object : Type :=
  | ListObj (items : list loc)
  | DictObj (fields : list (string * pyval)).

Abbreviation store := (list object) (only parsing).

(** The ledger object: [self.messages] is a reference to a list object. *)
Record ConversationMemory : Type := {
  max_turns : Z;
  messages : loc
}.

(** A new object, placed after all existing ones. *)
Definition alloc (h : store) (o : object) : loc * store :=
  (length h, h ++ [o]).

(** [ConversationMemory(max_turns)]: [self.messages = []]. *)
Definition new_memory (h : store) (max_turns : Z) : ConversationMemory * store :=
  let (l, h') := alloc h (ListObj []) in
  ({| max_turns := max_turns; messages := l |}, h').

(** [d[key] = v] on the items of a dict. *)
Fixpoint dict_set (d : list (string * pyval)) (key : string) (v : pyval)
    : list (string * pyval) :=
  match d with
  | [] => [(key, v)]
  | (k, x) :: rest =>
      if String.eqb k key then (k, v) :: rest
      else (k, x) :: dict_set rest key v
  end.

(** [del d[key]] *)
Fixpoint dict_del (d : list (string * pyval)) (key : string)
    : list (string * pyval) :=
  match d with
  | [] => []
  | (k, x) :: rest =>
      if String.eqb k key then rest else (k, x) :: dict_del rest key
  end.

(** [h[l]["role"] == "system"]; [None] when the lookup raises. *)
Definition is_system (h : store) (l : loc) : option bool :=
  match h !! l with
  | Some (DictObj d) =>
      match dict_lookup d "role" with
      | Some role => Some (eq_str role "system")
      | None => None
      end
  | _ => None
  end.

(** [_truncate_history]: when entries are dropped, [self.messages] is bound
    to a newly built list.  [None] when an exception is raised. *)
Definition _truncate_history (h : store) (self : ConversationMemory)
    : option (ConversationMemory * store) :=
  match h !! messages self with
  | Some (ListObj msgs) =>
      if (py_len msgs <=? max_turns self * 2)%Z then Some (self, h)
      else
        let has_system :=
          match msgs with
          | [] => Some false
          | m :: _ => is_system h m
          end in
        match has_system with
        | Some b =>
            let kept := truncate_entries (fun _ => b) (max_turns self) msgs in
            let (l, h') := alloc h (ListObj kept) in
            Some ({| max_turns := max_turns self; messages := l |}, h')
        | None => None
        end
  | _ => None
  end.

(** [self.messages.append(entry)] for a new dict, then the truncation. *)
Definition append_entry (h : store) (self : ConversationMemory)
    (entry : list (string * pyval)) : option (ConversationMemory * store) :=
  let (l, h1) := alloc h (DictObj entry) in
  match h1 !! messages self with
  | Some (ListObj msgs) =>
      _truncate_history (<[messages self := ListObj (msgs ++ [l])]> h1) self
  | _ => None
  end.

Definition add_user_message (h : store) (self : ConversationMemory)
    (content : string) : option (ConversationMemory * store) :=
  append_entry h self [("role", PStr "user"); ("content", PStr content)].

Definition add_assistant_message (h : store) (self : ConversationMemory)
    (content : string) : option (ConversationMemory * store) :=
  append_entry h self [("role", PStr "assistant"); ("content", PStr content)].

Definition add_tool_message `{Runtime} (h : store) (self : ConversationMemory)
    (tool_name : string) (content : pyval) : option (ConversationMemory * store) :=
  append_entry h self
    [("role", PStr "tool"); ("tool_name", PStr tool_name);
     ("content", PStr (json_dumps None content))].

(** [get_messages]: [self.messages.copy()], a new list object with the
    same items. *)
Definition get_messages (h : store) (self : ConversationMemory)
    : option (loc * store) :=
  match h !! messages self with
  | Some (ListObj msgs) => Some (alloc h (ListObj msgs))
  | _ => None
  end.

(** What a holder of the list [snap] can do to it and through it. *)
Inductive mutation : Type :=
  | ListAppend (x : loc)                              (* snap.append(x) *)
  | ListSetItem (i : nat) (x : loc)                   (* snap[i] = x *)
  | ListDelItem (i : nat)                             (* del snap[i] *)
  | ListClear                                         (* snap.clear() *)
  | EntrySetItem (i : nat) (key : string) (v : pyval) (* snap[i][key] = v *)
  | EntryDelItem (i : nat) (key : string).            (* del snap[i][key] *)

(** The mutations of the list itself. *)
Definition on_list (m : mutation) : bool :=
  match m with
  | ListAppend _ | ListSetItem _ _ | ListDelItem _ | ListClear => true
  | EntrySetItem _ _ _ | EntryDelItem _ _ => false
  end.

(** The store after a mutation; one that raises leaves it as it is. *)
Definition mutate (snap : loc) (h : store) (m : mutation) : store :=
  match h !! snap with
  | Some (ListObj items) =>
      match m with
      | ListAppend x => <[snap := ListObj (items ++ [x])]> h
      | ListSetItem i x => <[snap := ListObj (<[i := x]> items)]> h
      | ListDelItem i => <[snap := ListObj (delete i items)]> h
      | ListClear => <[snap := ListObj []]> h
      | EntrySetItem i key v =>
          match items !! i with
          | Some l =>
              match h !! l with
              | Some (DictObj d) => <[l := DictObj (dict_set d key v)]> h
              | _ => h
              end
          | None => h
          end
      | EntryDelItem i key =>
          match items !! i with
          | Some l =>
              match h !! l with
              | Some (DictObj d) => <[l := DictObj (dict_del d key)]> h
              | _ => h
              end
          | None => h
          end
      end
  | _ => h
  end.

(** The entries of the ledger as values: the fields of each dict, in
    order; [None] when a reference does not lead to an object of the
    expected kind. *)
Definition entry_fields (h : store) (l : loc) : option (list (string * pyval)) :=
  match h !! l with
  | Some (DictObj d) => Some d
  | _ => None
  end.

Definition view (h : store) (self : ConversationMemory)
    : option (list (list (string * pyval))) :=
  match h !! messages self with
  | Some (ListObj msgs) => mapM (entry_fields h) msgs
  | _ => None
  end.

End Heap.

(** The dict of a ledger entry, as [Heap] stores it. *)
Definition message_fields (m : Message) : list (string * pyval) :=
  match msg_tool_name m with
  | Some name =>
      [("role", PStr (msg_role m)); ("tool_name", PStr name);
       ("content", PStr (msg_content m))]
  | None => [("role", PStr (msg_role m)); ("content", PStr (msg_content m))]
  end.

(** ** Sequences of appends *)

(** The three ways to add an entry to the ledger. *)
Inductive append_op : Type :=
  | AppendUser (content : string)
  | AppendAssistant (content : string)
  | AppendTool (tool_name : string) (content : pyval).

(** The entry an append adds. *)
Definition turn_of `{Runtime} (a : append_op) : Message :=
  match a with
  | AppendUser content => user_message content
  | AppendAssistant content => assistant_message content
  | AppendTool tool_name content => tool_message tool_name content
  end.

Definition apply_append `{Runtime} (self : ConversationMemory) (a : append_op)
    : ConversationMemory :=
  match a with
  | AppendUser content => add_user_message self content
  | AppendAssistant content => add_assistant_message self content
  | AppendTool tool_name content => add_tool_message self tool_name content
  end.

Definition run_appends `{Runtime} (self : ConversationMemory)
    (ops : list append_op) : ConversationMemory :=
  foldl apply_append self ops.

(** ** Describing a run of [process_query] *)

(** The contents a stream delivers, and their concatenation. *)
Definition stream_contents (r : stream) : list string := omap id (chunks r).

Definition stream_text (r : stream) : string :=
  foldr String.append "" (stream_contents r).

(** The routing call of the query [query] started in state [w]. *)
Definition routing_call `{Runtime} (self : QueryRouter) (query : string) (w : world)
    : llm_call :=
  let messages :=
    routing_messages self (get_messages (add_user_message (memory w) query)) query in
  {| call_messages := messages;
     call_response := client self (length (llm_calls w)) messages |}.

(** The second call of that query, made on [messages]. *)
Definition second_call (self : QueryRouter) (messages : list chat_message) (w : world)
    : llm_call :=
  {| call_messages := messages;
     call_response := client self (S (length (llm_calls w))) messages |}.

(** The state once the user entry is appended and the routing call made. *)
Definition after_routing `{Runtime} (self : QueryRouter) (query : string) (w : world)
    : world :=
  log_call (remember w (fun m => add_user_message m query))
    (routing_call self query w).

(** What invoking a tool on [tool_parameters] gives: the payload returned,
    or the exception raised by the call or inside [execute]. *)
Definition invoke (tool : BaseTool) (tool_parameters : pyval) : result pyval :=
  let? kwargs := bind_kwargs tool tool_parameters in
  execute tool kwargs.

(** What the call site of [execute] leaves in [tool_response], and the
    execution it starts, if any. *)
Definition tool_response_of `{Runtime} (tool_name : string) (tool : BaseTool)
    (tool_parameters : pyval) : pyval :=
  match invoke tool tool_parameters with
  | inr payload => payload
  | inl e => execution_error tool_name e
  end.

Definition tool_runs_of (tool : BaseTool) (tool_parameters : pyval)
    : list (string * list (string * pyval)) :=
  match bind_kwargs tool tool_parameters with
  | inr kwargs => [(tool_name tool, kwargs)]
  | inl _ => []
  end.

(** The ways a query can go, each with the state it ends in. *)
Inductive query_path `{Runtime} (self : QueryRouter) (query : string) (w : world)
    : world -> Prop :=
  | RoutingFails (e : exn) :
      stream_error (call_response (routing_call self query w)) = Some e ->
      query_path self query w
        (say (after_routing self query w) [routing_apology e])
  | ExtractionRaises (e : exn) :
      stream_error (call_response (routing_call self query w)) = None ->
      _extract_tool_call (stream_text (call_response (routing_call self query w)))
      = inl e ->
      query_path self query w
        (say (after_routing self query w) [routing_apology e])
  | DirectAnswer (tool_call : option (list (string * pyval))) :
      stream_error (call_response (routing_call self query w)) = None ->
      _extract_tool_call (stream_text (call_response (routing_call self query w)))
      = inr tool_call ->
      wants_tool tool_call = false ->
      query_path self query w
        (remember
           (say (after_routing self query w)
              [stream_text (call_response (routing_call self query w))])
           (fun m =>
              add_assistant_message m
                (stream_text (call_response (routing_call self query w)))))
  | LookupRaises (d : list (string * pyval)) (e : exn) :
      stream_error (call_response (routing_call self query w)) = None ->
      _extract_tool_call (stream_text (call_response (routing_call self query w)))
      = inr (Some d) ->
      wants_tool (Some d) = true ->
      lookup_tool (tool_map self) (dict_get d "tool_name" PNone) = inl e ->
      query_path self query w
        (say (after_routing self query w) [routing_apology e])
  | UnknownTool (d : list (string * pyval)) :
      stream_error (call_response (routing_call self query w)) = None ->
      _extract_tool_call (stream_text (call_response (routing_call self query w)))
      = inr (Some d) ->
      wants_tool (Some d) = true ->
      lookup_tool (tool_map self) (dict_get d "tool_name" PNone) = inr None ->
      let c2 := second_call self (fallback_messages query) w in
      let w2 :=
        say (log_call
               (say (after_routing self query w)
                  [not_available_msg (dict_get d "tool_name" PNone)])
               c2)
          (stream_contents (call_response c2)) in
      query_path self query w
        match stream_error (call_response c2) with
        | None =>
            remember w2
              (fun m => add_assistant_message m (stream_text (call_response c2)))
        | Some e => say w2 [fallback_apology e]
        end
  | ToolCalled (d : list (string * pyval)) (name : string) (tool : BaseTool) :
      stream_error (call_response (routing_call self query w)) = None ->
      _extract_tool_call (stream_text (call_response (routing_call self query w)))
      = inr (Some d) ->
      wants_tool (Some d) = true ->
      lookup_tool (tool_map self) (dict_get d "tool_name" PNone)
      = inr (Some (name, tool)) ->
      let tool_parameters := dict_get d "tool_parameters" (PDict []) in
      let payload := tool_response_of name tool tool_parameters in
      let c2 := second_call self (formatting_messages name payload query) w in
      let w1 := after_routing self query w in
      let w2 :=
        {| memory := add_tool_message (memory w1) name payload;
           yielded := yielded w1 ++ [indicator_msg name]
                      ++ stream_contents (call_response c2);
           llm_calls := llm_calls w1 ++ [c2];
           tool_runs := tool_runs w1 ++ tool_runs_of tool tool_parameters |} in
      query_path self query w
        match stream_error (call_response c2) with
        | None =>
            remember w2
              (fun m => add_assistant_message m (stream_text (call_response c2)))
        | Some e => say w2 [routing_apology e]
        end.

(** The model calls made, and the fragments yielded, between two states. *)
Definition new_calls (w w' : world) : list llm_call :=
  drop (length (llm_calls w)) (llm_calls w').

Definition new_output (w w' : world) : list string :=
  drop (length (yielded w)) (yielded w').

Definition new_tool_runs (w w' : world) : list (string * list (string * pyval)) :=
  drop (length (tool_runs w)) (tool_runs w').

Definition call_failed (c : llm_call) : bool :=
  match stream_error (call_response c) with
  | Some _ => true
  | None => false
  end.

(** [s.startswith(p)] *)
Definition starts_with (p s : string) : bool :=
  match strip_prefix p s with
  | Some _ => true
  | None => false
  end.

(** A candidate that is a tool-call intent: it parses as a JSON object that
    has the key [use_tool]. *)
Definition is_intent `{Runtime} (candidate : string) (d : list (string * pyval)) : Prop :=
  json_loads candidate = inr (PDict d) /\ dict_contains d "use_tool" = true.



(** ** A runtime and a session for the examples *)

Definition weather_call_text : string := quoted
  "{~use_tool~: true, ~tool_name~: ~get_weather~, ~tool_parameters~: {~location~: ~Paris~}}".

Definition weather_call : list (string * pyval) :=
  [("use_tool", PBool true); ("tool_name", PStr "get_weather");
   ("tool_parameters", PDict [("location", PStr "Paris")])].

Definition unicorn_call_text : string := quoted
  "{~use_tool~: true, ~tool_name~: ~get_unicorn_price~, ~tool_parameters~: {}}".

Definition unicorn_call : list (string * pyval) :=
  [("use_tool", PBool true); ("tool_name", PStr "get_unicorn_price");
   ("tool_parameters", PDict [])].

Definition note_text : string := quoted "{~note~: 1}".

(** [json.loads] for the examples: it knows the three documents above and
    rejects every other text. *)
Definition test_loads (s : string) : result pyval :=
  if String.eqb s weather_call_text then inr (PDict weather_call)
  else if String.eqb s unicorn_call_text then inr (PDict unicorn_call)
  else if String.eqb s note_text then inr (PDict [("note", PInt 1)])
  else inl (Exn JSONDecodeError "Expecting value: line 1 column 1 (char 0)").

(** The other library functions are simple stand-ins. *)
Definition test_runtime : Runtime :=
  {| json_loads := test_loads;
     json_dumps := fun _ v => "<" +:+ type_name v +:+ ">";
     py_repr := fun v => "<" +:+ type_name v +:+ ">";
     format_exc := fun e => "Traceback (most recent call last): " +:+ exn_msg e;
     str_strip := fun s => s;
     str_upper := fun s => s;
     py_float := fun _ => inr (S754_zero false);
     py_int := fun _ => inr 0%Z;
     isoformat_now := "2025-01-01T00:00:00" |}.






(** No network in the examples. *)
Definition offline : http_get :=
  fun _ _ => inl (Exn ClientError "Cannot connect to host").

Definition test_tools : list BaseTool :=
  [WeatherTool (H := test_runtime) (Some "secret") offline;
   StockTool (H := test_runtime) None offline].

Definition ok_stream (contents : list string) : stream :=
  {| chunks := map Some contents; stream_error := None |}.

Definition broken_stream (contents : list string) (e : exn) : stream :=
  {| chunks := map Some contents; stream_error := Some e |}.

Definition empty_world (max_turns : Z) : world :=
  {| memory := new_memory max_turns; yielded := []; llm_calls := [];
     tool_runs := [] |}.

(** A model client that plays back the given responses, one per call. *)
Definition scripted (responses : list stream) : nat -> list chat_message -> stream :=
  fun n _ => nth n responses (ok_stream []).

Definition test_router (responses : list stream) : QueryRouter :=
  new_router (scripted responses) test_tools.

Definition weather_query : string := "What is the weather in Paris?".

Definition unicorn_query : string := "How much is a unicorn?".

(** The model asks for the weather tool; the formatting call then fails. *)
Definition formatting_fails : QueryRouter :=
  test_router [ok_stream [weather_call_text];
               broken_stream [] (Exn Exception "Service unavailable")].

(** The model asks for a tool that is not registered, then answers. *)
Definition asks_for_unicorn : QueryRouter :=
  test_router [ok_stream [unicorn_call_text];
               ok_stream ["Unicorns are "; "priceless."]].

(** A tool whose [execute] always raises. *)
Definition failing_tool : BaseTool :=
  {| tool_name := "get_weather";
     description := "Always fails";
     parameters := PDict [];
     execute := fun _ => inl (Exn ClientError "Connection reset by peer");
     execute_module := "tests.stubs";
     execute_qualname := "FailingTool.execute" |}.

(** The model asks for the weather tool, registered as [failing_tool]. *)
Definition tool_raises : QueryRouter :=
  new_router
    (scripted [ok_stream [weather_call_text]; ok_stream ["Sorry, "; "no data."]])
    [failing_tool].

(** A network on which every exchange fails. *)
Definition network_fails (session_get : http_get) : Prop :=
  forall url params, exists e, session_get url params = inl e.

(** A ledger with one user entry, a snapshot of it, and the entries the
    ledger shows after the holder of the snapshot did [mutations] to it. *)
Definition view_after_snapshot (mutations : list Heap.mutation)
    : option (list (list (string * pyval))) :=
  let (self0, h0) := Heap.new_memory [] 10 in
  match Heap.add_user_message h0 self0 "hello" with
  | Some (self, h1) =>
      match Heap.get_messages h1 self with
      | Some (snap, h2) => Heap.view (foldl (Heap.mutate snap) h2 mutations) self
      | None => None
      end
  | None => None
  end.

(** The store [h'] is [h] with one more object, a list, and the objects of
    [h] as they were. *)
Definition extends_by_list (h h' : Heap.store) : Prop :=
  length h' = S (length h)
  /\ (forall l, l < length h -> h' !! l = h !! l)
  /\ exists items, h' !! length h = Some (Heap.ListObj items).

(** A reply with two fenced blocks, of which only the second is a tool call. *)
Definition two_blocks_text : string :=
  "Here is a note:" +:+ newline +:+ "```json" +:+ newline +:+ note_text
    +:+ newline +:+ "```" +:+ newline +:+ "and the call:" +:+ newline
    +:+ "```json" +:+ newline +:+ weather_call_text +:+ newline +:+ "```".

(** A reply with a tool-call object among prose, without fences. *)
Definition bare_call_text : string :=
  "Sure, I will use " +:+ weather_call_text +:+ " to find out.".

(** Three appends to a ledger that keeps one turn. *)
Definition three_appends : list append_op :=
  [AppendUser "a"; AppendAssistant "b"; AppendUser "c"].

(** A text with a fenced block: a fence and, after it, a second fence. *)
Definition has_fenced_block (text : string) : Prop :=
  exists before body rest, text = before +:+ fence +:+ body +:+ fence +:+ rest.

(** The ledger object [hself] in the store [h] stands for the ledger
    [self]: same bound, and the entries it shows are the dicts of the
    entries of [self]. *)
Definition represents (h : Heap.store) (hself : Heap.ConversationMemory)
    (self : ConversationMemory) : Prop :=
  Heap.max_turns hself = max_turns self
  /\ Heap.view h hself = Some (map message_fields (messages self)).

(** The entries at [locs] in [h] are the dicts of [msgs]. *)
Abbreviation entries_are h locs msgs :=
  (Forall2 (fun x m => Heap.entry_fields h x = Some (message_fields m)) locs msgs).

(** * Further definitions *)

(** ** Rendering the ledger ([ConversationMemory.get_formatted_history]) *)

(** [sep.join(parts)] *)
Fixpoint join (sep : string) (parts : list string) : string :=
  match parts with
  | [] => ""
  | [part] => part
  | part :: rest => part +:+ sep +:+ join sep rest
  end.

(** The block [get_formatted_history] appends for one entry, if any: a tool
    entry has its content decoded and printed again with indentation; an
    entry of another role than the three is passed over. *)
Definition format_entry `{Runtime} (msg : Message) : result (option string) :=
  if String.eqb (msg_role msg) "user" then
    inr (Some ("User: " +:+ msg_content msg))
  else if String.eqb (msg_role msg) "assistant" then
    inr (Some ("Assistant: " +:+ msg_content msg))
  else if String.eqb (msg_role msg) "tool" then
    let tool_name := default "unknown_tool" (msg_tool_name msg) in
    let? content := json_loads (msg_content msg) in
    inr (Some ("Tool (" +:+ tool_name +:+ "): " +:+ json_dumps (Some 2%Z) content))
  else inr None.

(** The loop that fills [formatted]. *)
Fixpoint formatted_blocks `{Runtime} (msgs : list Message) : result (list string) :=
  match msgs with
  | [] => inr []
  | msg :: rest =>
      let? block := format_entry msg in
      let? blocks := formatted_blocks rest in
      inr (match block with
           | Some b => b :: blocks
           | None => blocks
           end)
  end.

Definition get_formatted_history `{Runtime} (self : ConversationMemory)
    : result string :=
  let? formatted := formatted_blocks (messages self) in
  inr (join (newline +:+ newline) formatted).

(** The leading entry of a list is a system entry. *)
Definition leads_with_system (msgs : list Message) : bool :=
  match msgs with
  | [] => false
  | m :: _ => is_system_message m
  end.

(** [json.loads] accepts what [json.dumps] writes. *)
Definition dumps_loads `{Runtime} : Prop :=
  forall v, exists v', json_loads (json_dumps None v) = inr v'.

(** A runtime in which [json.dumps] writes one of the documents the test
    [json.loads] knows. *)
Definition canned_runtime : Runtime :=
  {| json_loads := test_loads;
     json_dumps := fun _ _ => note_text;
     py_repr := fun v => "<" +:+ type_name v +:+ ">";
     format_exc := fun e => "Traceback (most recent call last): " +:+ exn_msg e;
     str_strip := fun s => s;
     str_upper := fun s => s;
     py_float := fun _ => inr (S754_zero false);
     py_int := fun _ => inr 0%Z;
     isoformat_now := "2025-01-01T00:00:00" |}.

(** A short conversation with a tool entry. *)
Definition tool_conversation : list append_op :=
  [AppendUser "weather?"; AppendTool "get_weather" (PDict []);
   AppendAssistant "Sunny."].

(** An entry [get_formatted_history] can render: a user or assistant entry,
    or a tool entry whose content was written by [json.dumps]. *)
Definition renderable `{Runtime} (m : Message) : Prop :=
  msg_role m = "user" \/ msg_role m = "assistant"
  \/ (msg_role m = "tool" /\ exists v, msg_content m = json_dumps None v).

(** ** Describing what the router sends and keeps *)

(** A ledger entry the routing call passes on, and the message made of it. *)
Definition is_dialogue (m : Message) : bool :=
  String.eqb (msg_role m) "user" || String.eqb (msg_role m) "assistant".

Definition to_chat (m : Message) : chat_message :=
  {| chat_role := msg_role m; chat_content := msg_content m |}.

(** The appends a query makes after the user entry. *)
Inductive query_appends `{Runtime} : list append_op -> Prop :=
  | AppendsNothing : query_appends []
  | AppendsAnswer (text : string) : query_appends [AppendAssistant text]
  | AppendsToolOnly (name : string) (payload : pyval) :
      query_appends [AppendTool name payload]
  | AppendsToolAndAnswer (name : string) (payload : pyval) (text : string) :
      query_appends [AppendTool name payload; AppendAssistant text].

(** A session: the queries are processed one after the other. *)
Definition run_queries `{Runtime} (self : QueryRouter) (queries : list string)
    (w : world) : world :=
  foldl (fun w query => snd (process_query self query w)) w queries.

(** The appends the query [query] makes when started in state [w], in the
    order of the [add_..._message] calls of [process_query] and
    [_answer_with_llm] on the branch taken: the user entry; on a tool call
    for a registered tool the tool entry, and the assistant entry when the
    formatting call completes; for an unregistered tool the assistant entry
    when the fallback call completes; without a tool call the assistant
    entry with the reply; nothing more when the routing call, the extraction
    or the lookup raises. *)
Definition query_ops `{Runtime} (self : QueryRouter) (query : string) (w : world)
    : list append_op :=
  let r1 := call_response (routing_call self query w) in
  let answered (c2 : llm_call) :=
    match stream_error (call_response c2) with
    | None => [AppendAssistant (stream_text (call_response c2))]
    | Some _ => []
    end in
  AppendUser query ::
  match stream_error r1, _extract_tool_call (stream_text r1) with
  | None, inr tool_call =>
      if wants_tool tool_call then
        match tool_call with
        | Some d =>
            match lookup_tool (tool_map self) (dict_get d "tool_name" PNone) with
            | inr (Some (name, tool)) =>
                let payload :=
                  tool_response_of name tool
                    (dict_get d "tool_parameters" (PDict [])) in
                AppendTool name payload
                  :: answered
                       (second_call self (formatting_messages name payload query) w)
            | inr None => answered (second_call self (fallback_messages query) w)
            | inl _ => []
            end
        | None => []
        end
      else [AppendAssistant (stream_text r1)]
  | _, _ => []
  end.

(** The appends of a session, query after query. *)
Fixpoint session_ops `{Runtime} (self : QueryRouter) (queries : list string)
    (w : world) : list append_op :=
  match queries with
  | [] => []
  | query :: rest =>
      query_ops self query w
        ++ session_ops self rest (snd (process_query self query w))
  end.

(** The question of a user append. *)
Definition asked (a : append_op) : option string :=
  match a with
  | AppendUser content => Some content
  | _ => None
  end.

(** The model answers in plain prose. *)
Definition answers_plainly : QueryRouter :=
  test_router [ok_stream ["The capital of France "; "is Paris."]].

Definition capital_query : string := "What is the capital of France?".

(** The model asks for the weather tool with a list as its name. *)
Definition list_name_text : string := quoted
  "{~use_tool~: true, ~tool_name~: [~get_weather~]}".

Definition list_name_call : list (string * pyval) :=
  [("use_tool", PBool true); ("tool_name", PList [PStr "get_weather"])].

(** ** Describing texts with fences *)

Definition backtick : ascii := "`"%char.

(** The number of backticks in a text. *)
Fixpoint backticks (s : string) : nat :=
  match s with
  | "" => 0
  | String c rest => (if Ascii.eqb c backtick then 1 else 0) + backticks rest
  end.

(** A text of white space only. *)
Fixpoint all_spaces (s : string) : bool :=
  match s with
  | "" => true
  | String c rest => is_space c && all_spaces rest
  end.

Definition starts_with_space (s : string) : bool :=
  match s with
  | "" => false
  | String c _ => is_space c
  end.

Fixpoint ends_with_space (s : string) : bool :=
  match s with
  | "" => false
  | String c "" => is_space c
  | String _ rest => ends_with_space rest
  end.

(** A reply with a tool call fenced as the routing prompt asks. *)
Definition fenced_reply : string :=
  "Let me check." +:+ newline +:+ "```json" +:+ newline +:+ weather_call_text
    +:+ newline +:+ "```" +:+ newline +:+ "One moment.".

(** ** The command loop ([main] in [main.py])

    The loop of [main], from the first [input] on.  The fixed texts it
    prints hold characters outside the modelled range and are named, not
    spelled. *)

(** [c.lower()] for a character below 256: the letters [A]-[Z] and the
    accented capitals from 192 to 222, the multiplication sign apart. *)
Definition lower_char (c : ascii) : ascii :=
  let n := nat_of_ascii c in
  if ((65 <=? n) && (n <=? 90))
     || ((192 <=? n) && (n <=? 222) && negb (n =? 215))
  then ascii_of_nat (n + 32) else c.

(** [s.lower()] *)
Fixpoint py_lower (s : string) : string :=
  match s with
  | "" => ""
  | String c rest => String (lower_char c) (py_lower rest)
  end.

(** [s.lstrip()], [s.rstrip()] and [s.strip()] *)
Fixpoint py_lstrip (s : string) : string :=
  match s with
  | "" => ""
  | String c rest => if is_space c then py_lstrip rest else s
  end.

Fixpoint py_rstrip (s : string) : string :=
  match s with
  | "" => ""
  | String c rest =>
      match py_rstrip rest with
      | "" => if is_space c then "" else String c ""
      | kept => String c kept
      end
  end.

Definition py_strip (s : string) : string := py_rstrip (py_lstrip s).

(** [word in words] for a list of strings. *)
Definition in_words (word : string) (words : list string) : bool :=
  existsb (String.eqb word) words.

(** What [main] prints. *)
Inductive console : Type :=
  | Goodbye
  | MemoryCleared
  | PleaseEnterQuestion
  | AssistantPrefix
  | Chunk (fragment : string)
  | EndOfAnswer
  | ErrorShown (message : string).

Record session : Type := {
  session_world : world;
  printed : list console;
  running : bool
}.

(** [user_query.lower() in ['exit', 'quit', 'bye']] *)
Definition is_exit_command (user_query : string) : bool :=
  in_words (py_lower user_query) ["exit"; "quit"; "bye"].

(** [user_query.lower() in ['clear', 'reset']] *)
Definition is_clear_command (user_query : string) : bool :=
  in_words (py_lower user_query) ["clear"; "reset"].

(** One turn of the loop on the line [user_query]. *)
Definition main_turn `{Runtime} (router : QueryRouter) (st : session)
    (user_query : string) : session :=
  let w := session_world st in
  if is_exit_command user_query then
    {| session_world := w; printed := printed st ++ [Goodbye]; running := false |}
  else if is_clear_command user_query then
    {| session_world := remember w clear;
       printed := printed st ++ [MemoryCleared];
       running := true |}
  else if negb (truthy (PStr (py_strip user_query))) then
    {| session_world := w;
       printed := printed st ++ [PleaseEnterQuestion];
       running := true |}
  else
    let (outcome, w') := process_query router user_query w in
    {| session_world := w';
       printed :=
         printed st ++ [AssistantPrefix] ++ map Chunk (new_output w w')
         ++ match outcome with
            | inr _ => [EndOfAnswer]
            | inl e => [ErrorShown (exn_msg e)]
            end;
       running := true |}.

(** The loop over the lines typed, left at the first exit command. *)
Fixpoint main_loop `{Runtime} (router : QueryRouter) (st : session)
    (lines : list string) : session :=
  match lines with
  | [] => st
  | user_query :: rest =>
      let st' := main_turn router st user_query in
      if running st' then main_loop router st' rest else st'
  end.

Definition start_session (w : world) : session :=
  {| session_world := w; printed := []; running := true |}.

(** ** The ledger's operations, in the store *)

(** [clear] in the store: [self.messages] is bound to a new, empty list. *)
Definition heap_clear (h : list Heap.object) (self : Heap.ConversationMemory)
    : Heap.ConversationMemory * list Heap.object :=
  let (l, h') := Heap.alloc h (Heap.ListObj []) in
  ({| Heap.max_turns := Heap.max_turns self; Heap.messages := l |}, h').

(** What the holder of the ledger does to it. *)
Inductive ledger_op : Type :=
  | Append (a : append_op)
  | Clear.

Definition apply_op `{Runtime} (self : ConversationMemory) (op : ledger_op)
    : ConversationMemory :=
  match op with
  | Append a => apply_append self a
  | Clear => clear self
  end.

Definition run_ops `{Runtime} (self : ConversationMemory) (ops : list ledger_op)
    : ConversationMemory :=
  foldl apply_op self ops.

Definition heap_op `{Runtime} (h : list Heap.object) (self : Heap.ConversationMemory)
    (op : ledger_op) : option (Heap.ConversationMemory * list Heap.object) :=
  match op with
  | Append (AppendUser content) => Heap.add_user_message h self content
  | Append (AppendAssistant content) => Heap.add_assistant_message h self content
  | Append (AppendTool tool_name content) =>
      Heap.add_tool_message h self tool_name content
  | Clear => Some (heap_clear h self)
  end.

Fixpoint heap_ops `{Runtime} (h : list Heap.object) (self : Heap.ConversationMemory)
    (ops : list ledger_op) : option (Heap.ConversationMemory * list Heap.object) :=
  match ops with
  | [] => Some (self, h)
  | op :: rest =>
      match heap_op h self op with
      | Some (self', h') => heap_ops h' self' rest
      | None => None
      end
  end.

(** ** Further examples *)

(** The model asks for the weather tool with a text where the parameters
    should be. *)
Definition text_parameters_text : string := quoted
  "{~use_tool~: true, ~tool_name~: ~get_weather~, ~tool_parameters~: ~Paris~}".

Definition text_parameters_call : list (string * pyval) :=
  [("use_tool", PBool true); ("tool_name", PStr "get_weather");
   ("tool_parameters", PStr "Paris")].

(** The model asks for the weather tool and names no location. *)
Definition no_location_text : string := quoted
  "{~use_tool~: true, ~tool_name~: ~get_weather~, ~tool_parameters~: {}}".

Definition no_location_call : list (string * pyval) :=
  [("use_tool", PBool true); ("tool_name", PStr "get_weather");
   ("tool_parameters", PDict [])].

(** [json.loads] for these examples: it knows three more documents. *)
Definition more_loads (s : string) : result pyval :=
  if String.eqb s list_name_text then inr (PDict list_name_call)
  else if String.eqb s text_parameters_text then inr (PDict text_parameters_call)
  else if String.eqb s no_location_text then inr (PDict no_location_call)
  else test_loads s.

Definition wide_runtime : Runtime :=
  {| json_loads := more_loads;
     json_dumps := fun _ v => "<" +:+ type_name v +:+ ">";
     py_repr := fun v => "<" +:+ type_name v +:+ ">";
     format_exc := fun e => "Traceback (most recent call last): " +:+ exn_msg e;
     str_strip := fun s => s;
     str_upper := fun s => s;
     py_float := fun _ => inr (S754_zero false);
     py_int := fun _ => inr 0%Z;
     isoformat_now := "2025-01-01T00:00:00" |}.

Definition wide_router (responses : list stream) : QueryRouter :=
  new_router (scripted responses)
    [WeatherTool (H := wide_runtime) (Some "secret") offline;
     StockTool (H := wide_runtime) None offline].

(** The model asks for the weather tool, then words the result. *)
Definition weather_answered : QueryRouter :=
  test_router [ok_stream [weather_call_text]; ok_stream ["It is "; "sunny."]].

(** A service that answers every request with status 404. *)
Definition not_found : http_get :=
  fun _ _ =>
    inr {| resp_status := 404;
           resp_text := inr "city not found";
           resp_json := inl (Exn Exception "not JSON") |}.

(** A service that answers every request with status 200 and an empty
    object. *)
Definition empty_object : http_get :=
  fun _ _ =>
    inr {| resp_status := 200; resp_text := inr "{}"; resp_json := inr (PDict []) |}.

(** A tool entry whose content is no JSON document. *)
Definition broken_tool_entry : Message :=
  {| msg_role := "tool"; msg_content := "oops"; msg_tool_name := Some "get_weather" |}.

(** * Verification *)

(** ** Facts about the ledger *)

Lemma last_n_all {A : Type} (n : nat) (l : list A) :
  length l <= n -> last_n n l = l.
Proof.
  intros Hle. unfold last_n.
  replace (length l - n) with 0 by lia. reflexivity.
Qed.

Lemma last_n_length {A : Type} (n : nat) (l : list A) :
  length (last_n n l) = Nat.min (length l) n.
Proof. unfold last_n. rewrite length_drop. lia. Qed.

Lemma last_n_snoc {A : Type} (n : nat) (l : list A) (x : A) :
  last_n n (last_n n l ++ [x]) = last_n n (l ++ [x]).
Proof.
  unfold last_n. rewrite !length_app, length_drop. simpl.
  destruct (decide (length l <= n)) as [Hle | Hgt].
  - replace (length l - n) with 0 by lia.
    rewrite drop_0, Nat.sub_0_r. reflexivity.
  - rewrite !drop_app, length_drop, drop_drop.
    f_equal; f_equal; lia.
Qed.

Lemma slice_bound_nonneg (n i : Z) :
  (0 <= i)%Z -> (0 <= n)%Z -> slice_bound n i = Nat.min (Z.to_nat i) (Z.to_nat n).
Proof.
  intros Hi Hn. unfold slice_bound.
  destruct (Z.ltb_spec i 0); lia.
Qed.

Lemma slice_to_nonneg {A : Type} (l : list A) (i : nat) :
  slice_to l (Z.of_nat i) = take i l.
Proof.
  unfold slice_to, py_len. rewrite slice_bound_nonneg by lia.
  rewrite !Nat2Z.id. destruct (decide (i <= length l)) as [Hle | Hgt].
  - f_equal. lia.
  - rewrite (take_ge l i) by lia. apply take_ge. lia.
Qed.

Lemma slice_from_nonneg {A : Type} (l : list A) (i : nat) :
  slice_from l (Z.of_nat i) = drop i l.
Proof.
  unfold slice_from, py_len. rewrite slice_bound_nonneg by lia.
  rewrite !Nat2Z.id. destruct (decide (i <= length l)) as [Hle | Hgt].
  - f_equal. lia.
  - rewrite (drop_ge l i) by lia. apply drop_ge. lia.
Qed.

(** Truncation keeps a pinned system entry and the last entries after it. *)
Lemma truncate_entries_pinned (cap : Z) (pinned ys : list Message) :
  (0 <= cap)%Z ->
  (pinned = [] \/ exists s, pinned = [s] /\ is_system_message s = true) ->
  Forall (fun m => is_system_message m = false) ys ->
  truncate_entries is_system_message cap (pinned ++ ys)
  = pinned ++ last_n (Z.to_nat (2 * cap)) ys.
Proof.
  intros Hcap Hpin Hys. unfold truncate_entries, py_len.
  destruct Hpin as [-> | (s & -> & Hs)]; simpl app.
  - destruct (Z.leb_spec (Z.of_nat (length ys)) (cap * 2)) as [Hle | Hgt].
    + rewrite last_n_all by lia. reflexivity.
    + assert (Hhead : match ys with [] => false | m :: _ => is_system_message m end
                      = false).
      { destruct Hys; [reflexivity | assumption]. }
      rewrite Hhead.
      replace (0 + (Z.of_nat (length ys) - cap * 2 - 0))%Z
        with (Z.of_nat (length ys - Z.to_nat (2 * cap))) by lia.
      change 0%Z with (Z.of_nat 0).
      rewrite slice_to_nonneg, slice_from_nonneg. rewrite take_0. reflexivity.
  - rewrite Hs. simpl length.
    destruct (Z.leb_spec (Z.of_nat (S (length ys))) (cap * 2)) as [Hle | Hgt].
    + rewrite last_n_all by lia. reflexivity.
    + replace (1 + (Z.of_nat (S (length ys)) - cap * 2 - 1))%Z
        with (Z.of_nat (S (length ys - Z.to_nat (2 * cap)))) by lia.
      change 1%Z with (Z.of_nat 1).
      rewrite slice_to_nonneg, slice_from_nonneg. reflexivity.
Qed.

Lemma turn_of_not_system `{Runtime} (a : append_op) :
  is_system_message (turn_of a) = false.
Proof. destruct a; reflexivity. Qed.

Lemma apply_append_turn `{Runtime} (self : ConversationMemory) (a : append_op) :
  apply_append self a = append_and_truncate self (turn_of a).
Proof. destruct a; reflexivity. Qed.

Lemma Forall_last_n {A : Type} (P : A -> Prop) (n : nat) (l : list A) :
  Forall P l -> Forall P (last_n n l).
Proof. intros Hl. unfold last_n. apply Forall_drop. exact Hl. Qed.

Lemma run_appends_max_turns `{Runtime} (self : ConversationMemory) (ops : list append_op) :
  max_turns (run_appends self ops) = max_turns self.
Proof.
  revert self. induction ops as [| a ops IH]; intros self; [reflexivity |].
  unfold run_appends in *. simpl. rewrite IH. destruct a; reflexivity.
Qed.

Lemma run_appends_messages `{Runtime} (cap : Z) (pinned : list Message)
    (ops : list append_op) :
  (0 <= cap)%Z ->
  (pinned = [] \/ exists s, pinned = [s] /\ is_system_message s = true) ->
  messages (run_appends {| max_turns := cap; messages := pinned |} ops)
  = pinned ++ last_n (Z.to_nat (2 * cap)) (map turn_of ops).
Proof.
  intros Hcap Hpin. induction ops as [| a ops IH] using rev_ind.
  - simpl. unfold last_n. simpl. rewrite app_nil_r. reflexivity.
  - pose proof (run_appends_max_turns {| max_turns := cap; messages := pinned |} ops)
      as Hmax.
    unfold run_appends in *. rewrite foldl_app. simpl.
    rewrite apply_append_turn. unfold append_and_truncate, _truncate_history.
    simpl. rewrite Hmax, IH. simpl.
    rewrite <- app_assoc, truncate_entries_pinned; [| assumption .. |].
    + rewrite map_app. simpl. rewrite last_n_snoc. reflexivity.
    + apply Forall_app. split.
      * apply Forall_last_n, Forall_forall. intros m Hm.
        apply list_elem_of_fmap in Hm as (b & -> & _). apply turn_of_not_system.
      * constructor; [apply turn_of_not_system | constructor].
Qed.

(** C6. Retention exactness: starting from a ledger that holds nothing, or
    only a pinned leading system entry, after each append of a sequence (that
    is, after every prefix of it) the ledger holds the pinned entry, if any,
    followed by exactly the most recent [2 * max_turns] appended entries in
    their order; so its size, the pinned entry apart, is the minimum of the
    number of appends so far and [2 * max_turns], and entries leave from the
    oldest end only. *)
Theorem retention_exactness `{Runtime} (cap : Z) (pinned : list Message)
    (ops : list append_op) (k : nat) :
  (0 <= cap)%Z ->
  (pinned = [] \/ exists s, pinned = [s] /\ msg_role s = "system") ->
  let done := take k ops in
  let ledger := run_appends {| max_turns := cap; messages := pinned |} done in
  messages ledger = pinned ++ last_n (Z.to_nat (2 * cap)) (map turn_of done)
  /\ length (messages ledger)
     = length pinned + Nat.min (length done) (Z.to_nat (2 * cap))
  /\ exists evicted, map turn_of done = evicted ++ drop (length pinned) (messages ledger).
Proof.
  intros Hcap Hpin done ledger.
  assert (Hpin' : pinned = [] \/ exists s, pinned = [s] /\ is_system_message s = true).
  { destruct Hpin as [-> | (s & -> & Hs)]; [left; reflexivity | right].
    exists s. split; [reflexivity |]. unfold is_system_message. rewrite Hs.
    reflexivity. }
  assert (Hmsgs : messages ledger
                  = pinned ++ last_n (Z.to_nat (2 * cap)) (map turn_of done)).
  { apply run_appends_messages; assumption. }
  split; [exact Hmsgs |]. split.
  - rewrite Hmsgs, length_app, last_n_length, length_map. reflexivity.
  - exists (take (length (map turn_of done) - Z.to_nat (2 * cap)) (map turn_of done)).
    rewrite Hmsgs, drop_app_length. unfold last_n. rewrite take_drop. reflexivity.
Qed.

(** ** Facts about strings *)

Lemma string_app_nil_r (s : string) : s +:+ "" = s.
Proof.
  induction s as [| c s IH]; [reflexivity | exact (f_equal (String c) IH)].
Qed.

Lemma string_app_assoc (s1 s2 s3 : string) :
  (s1 +:+ s2) +:+ s3 = s1 +:+ (s2 +:+ s3).
Proof.
  induction s1 as [| c s1 IH]; [reflexivity | exact (f_equal (String c) IH)].
Qed.

(** ** Facts about the fenced-block pattern *)

Lemma strip_prefix_app (p rest : string) : strip_prefix p (p +:+ rest) = Some rest.
Proof.
  induction p as [| a p IH]; [destruct rest; reflexivity |].
  change (String a p +:+ rest) with (String a (p +:+ rest)).
  cbn [strip_prefix]. rewrite Ascii.eqb_refl. exact IH.
Qed.

Lemma strip_prefix_Some (p s rest : string) :
  strip_prefix p s = Some rest -> s = p +:+ rest.
Proof.
  revert s. induction p as [| a p IH]; intros s Hs.
  - destruct s; injection Hs as <-; reflexivity.
  - destruct s as [| b s]; [discriminate |]. cbn [strip_prefix] in Hs.
    destruct (Ascii.eqb_spec a b) as [-> | Hne]; [| discriminate].
    change (String b p +:+ rest) with (String b (p +:+ rest)).
    f_equal. apply IH. exact Hs.
Qed.

Section RegexFacts.
Context {R : Type}.

Lemma re_lit_sound (p : string) (k : string -> option R) (s : string) (r : R) :
  re_lit p k s = Some r -> exists rest, s = p +:+ rest /\ k rest = Some r.
Proof.
  unfold re_lit. destruct (strip_prefix p s) as [rest |] eqn:Hp; [| discriminate].
  intros Hk. exists rest. split; [apply strip_prefix_Some; exact Hp | exact Hk].
Qed.

Lemma re_spaces_sound (k : string -> option R) (s : string) (r : R) :
  re_spaces k s = Some r -> exists u v, s = u +:+ v /\ k v = Some r.
Proof.
  induction s as [| c s IH]; intros Hs.
  - exists "", "". split; [reflexivity | exact Hs].
  - cbn in Hs. destruct (is_space c).
    + destruct (re_spaces k s) as [r' |] eqn:Hrest.
      * injection Hs as ->. destruct (IH eq_refl) as (u & v & -> & Hk).
        exists (String c u), v. split; [reflexivity | exact Hk].
      * exists "", (String c s). split; [reflexivity | exact Hs].
    + exists "", (String c s). split; [reflexivity | exact Hs].
Qed.

Lemma re_spaces_complete (k : string -> option R) (s : string) :
  k s <> None -> re_spaces k s <> None.
Proof.
  intros Hk. destruct s as [| c s]; [exact Hk |].
  cbn. destruct (is_space c); [| exact Hk].
  destruct (re_spaces k s); [discriminate | exact Hk].
Qed.

Lemma re_lazy_any_sound (k : string -> string -> option R) (captured s : string)
    (r : R) :
  re_lazy_any k captured s = Some r ->
  exists u v, s = u +:+ v /\ k (captured +:+ u) v = Some r.
Proof.
  revert captured. induction s as [| c s IH]; intros captured Hs.
  - cbn in Hs. destruct (k captured "") eqn:Hk; [| discriminate].
    exists "", "". rewrite (string_app_nil_r captured).
    split; [reflexivity | congruence].
  - cbn in Hs. destruct (k captured (String c s)) eqn:Hk.
    + exists "", (String c s). rewrite (string_app_nil_r captured).
      split; [reflexivity | congruence].
    + destruct (IH _ Hs) as (u & v & -> & Hkv).
      exists (String c u), v. split; [reflexivity |].
      rewrite string_app_assoc in Hkv. exact Hkv.
Qed.

Lemma re_lazy_any_complete (k : string -> string -> option R) (captured u v : string) :
  (forall captured', k captured' v <> None) ->
  re_lazy_any k captured (u +:+ v) <> None.
Proof.
  intros Hk. revert captured. induction u as [| c u IH]; intros captured.
  - change ("" +:+ v) with v. destruct v as [| c v]; cbn.
    + specialize (Hk captured). destruct (k captured ""); [discriminate | contradiction].
    + specialize (Hk captured).
      destruct (k captured (String c v)); [discriminate | contradiction].
  - change (String c u +:+ v) with (String c (u +:+ v)). cbn.
    destruct (k captured (String c (u +:+ v))); [discriminate | apply IH].
Qed.
End RegexFacts.

(** A match starts with a fence and has a second fence after it. *)
Lemma fence_match_sound (s captured after : string) :
  fence_match s = Some (captured, after) ->
  exists body rest, s = fence +:+ body +:+ fence +:+ rest.
Proof.
  unfold fence_match. intros Hmatch.
  apply re_lit_sound in Hmatch as (r0 & -> & Hmatch).
  assert (Hbody : forall r,
            re_spaces
              (re_lazy_any
                 (fun captured =>
                    re_spaces (re_lit fence (fun rest => Some (captured, rest))))
                 "") r
            = Some (captured, after) ->
            exists body rest, r = body +:+ fence +:+ rest).
  { intros r Hr.
    apply re_spaces_sound in Hr as (u1 & v1 & -> & Hr).
    apply re_lazy_any_sound in Hr as (u2 & v2 & -> & Hr).
    apply re_spaces_sound in Hr as (u3 & v3 & -> & Hr).
    apply re_lit_sound in Hr as (rest & -> & _).
    exists (u1 +:+ u2 +:+ u3), rest. rewrite !string_app_assoc. reflexivity. }
  unfold re_opt in Hmatch.
  destruct (re_lit "json" _ r0) as [r |] eqn:Hjson.
  - injection Hmatch as ->.
    apply re_lit_sound in Hjson as (r1 & -> & Hr1).
    destruct (Hbody _ Hr1) as (body & rest & ->).
    exists ("json" +:+ body), rest. rewrite !string_app_assoc. reflexivity.
  - destruct (Hbody _ Hmatch) as (body & rest & ->).
    exists body, rest. reflexivity.
Qed.

(** A fence followed, somewhere, by a second fence is matched. *)
Lemma fence_match_complete (body rest : string) :
  fence_match (fence +:+ body +:+ fence +:+ rest) <> None.
Proof.
  unfold fence_match, re_lit at 1. rewrite strip_prefix_app.
  unfold re_opt.
  destruct (re_lit "json" _ (body +:+ fence +:+ rest)); [discriminate |].
  apply re_spaces_complete. apply re_lazy_any_complete.
  intros captured'. apply re_spaces_complete.
  unfold re_lit. rewrite strip_prefix_app. discriminate.
Qed.

Lemma findall_from_sound (skip : nat) (s : string) :
  findall_from skip s <> [] ->
  exists before body rest, s = before +:+ fence +:+ body +:+ fence +:+ rest.
Proof.
  revert skip. induction s as [| c s IH]; intros skip Hfound; [contradiction |].
  assert (Hrest : forall n, findall_from n s <> [] ->
            exists before body rest,
              String c s = before +:+ fence +:+ body +:+ fence +:+ rest).
  { intros n Hn. destruct (IH n Hn) as (before & body & rest & ->).
    exists (String c before), body, rest. reflexivity. }
  cbn in Hfound. destruct skip as [| n]; [| exact (Hrest n Hfound)].
  destruct (fence_match (String c s)) as [[captured after] |] eqn:Hmatch.
  - destruct (fence_match_sound _ _ _ Hmatch) as (body & rest & Heq).
    exists "", body, rest. exact Heq.
  - exact (Hrest 0 Hfound).
Qed.

Lemma findall_complete (before body rest : string) :
  findall (before +:+ fence +:+ body +:+ fence +:+ rest) <> [].
Proof.
  unfold findall. induction before as [| c before IH].
  - change ("" +:+ fence +:+ body +:+ fence +:+ rest)
      with (fence +:+ body +:+ fence +:+ rest).
    pose proof (fence_match_complete body rest) as Hmatch.
    destruct (fence +:+ body +:+ fence +:+ rest) as [| c s] eqn:Hs; [discriminate |].
    cbn. destruct (fence_match (String c s)) as [[captured after] |];
      [discriminate | contradiction].
  - change (String c before +:+ fence +:+ body +:+ fence +:+ rest)
      with (String c (before +:+ fence +:+ body +:+ fence +:+ rest)).
    cbn. destruct (fence_match _) as [[captured after] |]; [discriminate | exact IH].
Qed.

(** The pattern finds something exactly in the texts that have a fenced
    block: a fence and, after it, a second fence. *)
Lemma findall_nonempty_iff (text : string) :
  findall text <> [] <-> has_fenced_block text.
Proof.
  split.
  - apply findall_from_sound.
  - intros (before & body & rest & ->). apply findall_complete.
Qed.

(** ** Facts about tool-call extraction *)

Section Extraction.
Context `{Runtime}.




(** Candidates that [json.loads] rejects with [JSONDecodeError] are passed
    over. *)
Lemma first_tool_call_skip (c : string) (cs : list string) (e : exn) :
  json_loads c = inl e -> isinstance e JSONDecodeError = true ->
  first_tool_call (c :: cs) = first_tool_call cs.
Proof. intros Hload He. cbn [first_tool_call]. rewrite Hload, He. reflexivity. Qed.


End Extraction.

(** ** Facts about streams *)

Lemma collect_chunks_run (emit : bool) (cs : list (option string)) (acc : string)
    (w : world) :
  collect_chunks emit cs acc w
  = (inr (acc +:+ foldr String.append "" (omap id cs)),
     say w (if emit then omap id cs else [])).
Proof.
  revert acc w. induction cs as [| [content |] cs IH]; intros acc w.
  - simpl. rewrite string_app_nil_r. unfold say.
    destruct w, emit; simpl; rewrite ?app_nil_r; reflexivity.
  - cbn [collect_chunks]. unfold bind. destruct emit.
    + unfold yield. rewrite IH. unfold say. cbn.
      rewrite string_app_assoc, <- app_assoc. reflexivity.
    + unfold ret. rewrite IH. cbn. rewrite string_app_assoc. reflexivity.
  - cbn [collect_chunks]. rewrite IH. reflexivity.
Qed.

Lemma read_stream_run (emit : bool) (r : stream) (w : world) :
  read_stream emit r w
  = (match stream_error r with
     | Some e => inl e
     | None => inr (stream_text r)
     end,
     say w (if emit then stream_contents r else [])).
Proof.
  unfold read_stream, bind. rewrite collect_chunks_run. cbn.
  unfold stream_text, stream_contents.
  destruct (stream_error r); reflexivity.
Qed.

(** ** The paths of [process_query] *)

Lemma say_nil (w : world) : say w [] = w.
Proof. destruct w. unfold say. simpl. rewrite app_nil_r. reflexivity. Qed.

Lemma say_say (w : world) (l1 l2 : list string) :
  say (say w l1) l2 = say w (l1 ++ l2).
Proof. unfold say. simpl. rewrite app_assoc. reflexivity. Qed.

(** The call site of [execute], with the handler around it. *)
Lemma call_site_run `{Runtime} (name : string) (tool : BaseTool)
    (tool_parameters : pyval) (w : world) :
  try_except (call_execute tool tool_parameters)
    (fun e => ret (execution_error name e)) w
  = (inr (tool_response_of name tool tool_parameters),
     {| memory := memory w; yielded := yielded w; llm_calls := llm_calls w;
        tool_runs := tool_runs w ++ tool_runs_of tool tool_parameters |}).
Proof.
  assert (Hw : {| memory := memory w; yielded := yielded w;
                  llm_calls := llm_calls w; tool_runs := tool_runs w ++ [] |} = w).
  { destruct w. simpl. rewrite app_nil_r. reflexivity. }
  unfold try_except, call_execute, tool_response_of, tool_runs_of, invoke, rbind,
    raise, ret.
  destruct (bind_kwargs tool tool_parameters) as [e | kwargs];
    [rewrite Hw; reflexivity |].
  destruct (execute tool kwargs); reflexivity.
Qed.

Ltac run_query :=
  unfold process_query, route, dispatch_tool, _answer_with_llm, try_except, bind,
    stream_async, lift, update_memory, read_memory, yield, ret, raise;
  cbn beta iota;
  repeat (rewrite read_stream_run; cbn beta iota);
  rewrite ?say_nil.

Ltac name_routing r :=
  set (r := client _ (length (llm_calls (remember _ _))) (routing_messages _ _ _)) in *.

Section Paths.
Context `{Runtime} (self : QueryRouter) (query : string) (w : world).

Abbreviation w1 := (after_routing self query w) (only parsing).
Abbreviation r1 := (call_response (routing_call self query w)) (only parsing).

(** The routing call fails. *)
Lemma path_routing_fails (e : exn) :
  stream_error r1 = Some e ->
  process_query self query w = (inr tt, say w1 [routing_apology e]).
Proof.
  intros He. run_query. name_routing r.
  change (stream_error r = Some e) in He. rewrite He. reflexivity.
Qed.

(** Extraction raises. *)
Lemma path_extraction_raises (e : exn) :
  stream_error r1 = None ->
  _extract_tool_call (stream_text r1) = inl e ->
  process_query self query w = (inr tt, say w1 [routing_apology e]).
Proof.
  intros Hok He. run_query. name_routing r.
  change (stream_error r = None) in Hok. rewrite Hok.
  change (_extract_tool_call (stream_text r) = inl e) in He. rewrite He.
  reflexivity.
Qed.

(** No tool call: the routing text is the answer. *)
Lemma path_direct_answer (tool_call : option (list (string * pyval))) :
  stream_error r1 = None ->
  _extract_tool_call (stream_text r1) = inr tool_call ->
  wants_tool tool_call = false ->
  process_query self query w
  = (inr tt,
     remember (say w1 [stream_text r1])
       (fun m => add_assistant_message m (stream_text r1))).
Proof.
  intros Hok Hcall Hwants. run_query. name_routing r.
  change (stream_error r = None) in Hok. rewrite Hok.
  change (_extract_tool_call (stream_text r) = inr tool_call) in Hcall.
  rewrite Hcall, Hwants. reflexivity.
Qed.

(** The tool name cannot be looked up. *)
Lemma path_lookup_raises (d : list (string * pyval)) (e : exn) :
  stream_error r1 = None ->
  _extract_tool_call (stream_text r1) = inr (Some d) ->
  wants_tool (Some d) = true ->
  lookup_tool (tool_map self) (dict_get d "tool_name" PNone) = inl e ->
  process_query self query w = (inr tt, say w1 [routing_apology e]).
Proof.
  intros Hok Hcall Hwants Hlookup. run_query. name_routing r.
  change (stream_error r = None) in Hok. rewrite Hok.
  change (_extract_tool_call (stream_text r) = inr (Some d)) in Hcall.
  rewrite Hcall, Hwants, Hlookup. reflexivity.
Qed.

(** The tool is not registered: notice, then the fallback call. *)
Lemma path_unknown_tool (d : list (string * pyval)) :
  stream_error r1 = None ->
  _extract_tool_call (stream_text r1) = inr (Some d) ->
  wants_tool (Some d) = true ->
  lookup_tool (tool_map self) (dict_get d "tool_name" PNone) = inr None ->
  let c2 := second_call self (fallback_messages query) w in
  let w2 :=
    say (log_call (say w1 [not_available_msg (dict_get d "tool_name" PNone)]) c2)
      (stream_contents (call_response c2)) in
  process_query self query w
  = (inr tt,
     match stream_error (call_response c2) with
     | None =>
         remember w2
           (fun m => add_assistant_message m (stream_text (call_response c2)))
     | Some e => say w2 [fallback_apology e]
     end).
Proof.
  intros Hok Hcall Hwants Hlookup c2 w2. subst w2 c2.
  run_query. name_routing r.
  change (stream_error r = None) in Hok. rewrite Hok.
  change (_extract_tool_call (stream_text r) = inr (Some d)) in Hcall.
  rewrite Hcall, Hwants, Hlookup. cbn beta iota.
  rewrite read_stream_run. cbn beta iota.
  unfold second_call, after_routing. cbn [call_response].
  cbn [llm_calls log_call remember say length memory yielded tool_runs].
  rewrite length_app. cbn [length]. rewrite Nat.add_1_r.
  destruct (stream_error (client self (S (length (llm_calls w)))
                            (fallback_messages query))); reflexivity.
Qed.

(** The tool is registered: indicator, execution, tool entry, then the
    formatting call. *)
Lemma path_tool (d : list (string * pyval)) (name : string) (tool : BaseTool) :
  stream_error r1 = None ->
  _extract_tool_call (stream_text r1) = inr (Some d) ->
  wants_tool (Some d) = true ->
  lookup_tool (tool_map self) (dict_get d "tool_name" PNone)
  = inr (Some (name, tool)) ->
  let tool_parameters := dict_get d "tool_parameters" (PDict []) in
  let payload := tool_response_of name tool tool_parameters in
  let c2 := second_call self (formatting_messages name payload query) w in
  let w2 :=
    {| memory := add_tool_message (memory w1) name payload;
       yielded := yielded w1 ++ [indicator_msg name]
                  ++ stream_contents (call_response c2);
       llm_calls := llm_calls w1 ++ [c2];
       tool_runs := tool_runs w1 ++ tool_runs_of tool tool_parameters |} in
  process_query self query w
  = (inr tt,
     match stream_error (call_response c2) with
     | None =>
         remember w2
           (fun m => add_assistant_message m (stream_text (call_response c2)))
     | Some e => say w2 [routing_apology e]
     end).
Proof.
  intros Hok Hcall Hwants Hlookup tool_parameters payload c2 w2.
  subst w2 c2 payload tool_parameters.
  run_query. name_routing r.
  change (stream_error r = None) in Hok. rewrite Hok.
  change (_extract_tool_call (stream_text r) = inr (Some d)) in Hcall.
  rewrite Hcall, Hwants, Hlookup. cbn beta iota.
  pose proof call_site_run as Hsite.
  unfold try_except, ret in Hsite. rewrite Hsite. cbn beta iota.
  rewrite read_stream_run. cbn beta iota.
  unfold second_call, after_routing. cbn [call_response].
  cbn [llm_calls log_call remember say length memory yielded tool_runs].
  rewrite length_app. cbn [length]. rewrite Nat.add_1_r.
  destruct (stream_error (client self (S (length (llm_calls w))) _));
    unfold say, remember, log_call; cbn; rewrite <- ?app_assoc; reflexivity.
Qed.
End Paths.

(** ** Every query follows one of the paths *)

Lemma wants_tool_none : wants_tool None = false.
Proof. reflexivity. Qed.

(** [process_query] never raises, and ends in the state of one path. *)
Lemma process_query_path `{Runtime} (self : QueryRouter) (query : string) (w : world) :
  exists w', process_query self query w = (inr tt, w') /\ query_path self query w w'.
Proof.
  destruct (stream_error (call_response (routing_call self query w)))
    as [e |] eqn:Hstream.
  { eexists. split; [apply path_routing_fails; exact Hstream |].
    apply RoutingFails. exact Hstream. }
  destruct (_extract_tool_call
              (stream_text (call_response (routing_call self query w))))
    as [e | tool_call] eqn:Hcall.
  { eexists. split; [apply path_extraction_raises; eassumption |].
    apply ExtractionRaises; assumption. }
  destruct (wants_tool tool_call) eqn:Hwants.
  2: { eexists. split; [eapply path_direct_answer; eassumption |].
       eapply DirectAnswer; eassumption. }
  destruct tool_call as [d |]; [| discriminate].
  destruct (lookup_tool (tool_map self) (dict_get d "tool_name" PNone))
    as [e | [[name tool] |]] eqn:Hlookup.
  - eexists. split; [eapply path_lookup_raises; eassumption |].
    eapply LookupRaises; eassumption.
  - eexists. split; [eapply path_tool; eassumption |].
    eapply ToolCalled; eassumption.
  - eexists. split; [eapply path_unknown_tool; eassumption |].
    eapply UnknownTool; eassumption.
Qed.

Lemma process_query_returns `{Runtime} (self : QueryRouter) (query : string)
    (w : world) :
  fst (process_query self query w) = inr tt.
Proof.
  destruct (process_query_path self query w) as (w' & -> & _). reflexivity.
Qed.

Lemma starts_with_routing_apology (e : exn) :
  starts_with "I encountered an error" (routing_apology e) = true.
Proof. reflexivity. Qed.

Lemma starts_with_fallback_apology (e : exn) :
  starts_with "I encountered an error" (fallback_apology e) = true.
Proof. reflexivity. Qed.

Lemma last_say (w : world) (l : list string) (s : string) :
  last (yielded (say w (l ++ [s]))) = Some s.
Proof. unfold say. cbn [yielded]. rewrite app_assoc. apply last_snoc. Qed.

Lemma last_say1 (w : world) (s : string) :
  last (yielded (say w [s])) = Some s.
Proof. apply (last_say w [] s). Qed.

Lemma new_calls_after_routing `{Runtime} (self : QueryRouter) (query : string)
    (w : world) :
  new_calls w (after_routing self query w) = [routing_call self query w].
Proof.
  unfold new_calls, after_routing. cbn [llm_calls log_call remember].
  apply drop_app_length.
Qed.

(** ** The routing cycle: model calls *)

Ltac calls_of_path :=
  unfold new_calls, after_routing;
  cbn [llm_calls say remember log_call];
  rewrite <- ?app_assoc; rewrite drop_app_length; cbn [app].

(** C8. A query makes at most two model calls: the routing call, then at most
    one second call, which is either the call that formats a tool result or
    the fallback call, never both. *)
Theorem at_most_two_model_calls `{Runtime} (self : QueryRouter) (query : string)
    (w : world) :
  let w' := snd (process_query self query w) in
  length (new_calls w w') <= 2
  /\ (new_calls w w' = [routing_call self query w]
      \/ (exists name payload,
            new_calls w w'
            = [routing_call self query w;
               second_call self (formatting_messages name payload query) w])
      \/ new_calls w w'
         = [routing_call self query w;
            second_call self (fallback_messages query) w]).
Proof.
  destruct (process_query_path self query w) as (w' & Heq & Hpath).
  rewrite Heq. cbn [snd].
  destruct Hpath as [e He | e Hok He | tc Hok Hcall Hwants | d e Hok Hcall Hwants Hl
                    | d Hok Hcall Hwants Hl c2 w2
                    | d name tool Hok Hcall Hwants Hl tp payload c2 w1 w2].
  - calls_of_path. split; [simpl; lia | left; reflexivity].
  - calls_of_path. split; [simpl; lia | left; reflexivity].
  - calls_of_path. split; [simpl; lia | left; reflexivity].
  - calls_of_path. split; [simpl; lia | left; reflexivity].
  - subst w2. destruct (stream_error (call_response c2)); calls_of_path;
      (split; [simpl; lia | right; right; reflexivity]).
  - subst w2 w1. destruct (stream_error (call_response c2)); calls_of_path;
      (split; [simpl; lia | right; left; exists name, payload; reflexivity]).
Qed.

(** ** The routing cycle: an unregistered tool *)

Lemma lookup_tool_unregistered (tool_map : gmap string BaseTool) (name : string) :
  tool_map !! name = None -> lookup_tool tool_map (PStr name) = inr None.
Proof. intros Hnone. unfold lookup_tool. rewrite Hnone. reflexivity. Qed.

Ltac output_of_path :=
  unfold new_output, new_tool_runs, after_routing;
  cbn [yielded tool_runs memory say remember log_call];
  rewrite <- ?app_assoc; rewrite ?drop_app_length; cbn [app].

(** The state in which a query for an unregistered tool ends. *)
Lemma unknown_tool_state `{Runtime} (self : QueryRouter) (query : string) (w : world)
    (d : list (string * pyval)) :
  stream_error (call_response (routing_call self query w)) = None ->
  _extract_tool_call (stream_text (call_response (routing_call self query w)))
  = inr (Some d) ->
  wants_tool (Some d) = true ->
  lookup_tool (tool_map self) (dict_get d "tool_name" PNone) = inr None ->
  let c2 := second_call self (fallback_messages query) w in
  let w' := snd (process_query self query w) in
  new_calls w w' = [routing_call self query w; c2]
  /\ new_tool_runs w w' = []
  /\ new_output w w'
     = not_available_msg (dict_get d "tool_name" PNone)
       :: stream_contents (call_response c2)
       ++ match stream_error (call_response c2) with
          | None => []
          | Some e => [fallback_apology e]
          end
  /\ memory w'
     = match stream_error (call_response c2) with
       | None =>
           add_assistant_message (add_user_message (memory w) query)
             (stream_text (call_response c2))
       | Some _ => add_user_message (memory w) query
       end.
Proof.
  intros Hok Hcall Hwants Hlookup c2 w'. subst w'.
  rewrite (path_unknown_tool self query w d Hok Hcall Hwants Hlookup). cbn [snd].
  fold c2. destruct (stream_error (call_response c2)) as [e |].
  - split; [calls_of_path; reflexivity |].
    output_of_path. rewrite drop_all. repeat split; reflexivity.
  - split; [calls_of_path; reflexivity |].
    output_of_path. rewrite drop_all, app_nil_r. repeat split; reflexivity.
Qed.

(** C5. When the intent asks for a tool (its [use_tool] is true) and the tool
    name is not a key of the tool map, the caller receives the notice that
    the tool is not available, followed by what the fallback call delivers;
    that call is a second, separate model call whose only messages are the
    generic helpful-assistant system prompt and the query; no tool is
    executed, and no further model call is made. *)
Theorem unknown_tool_fallback `{Runtime} (self : QueryRouter) (query : string)
    (w : world) (d : list (string * pyval)) :
  stream_error (call_response (routing_call self query w)) = None ->
  _extract_tool_call (stream_text (call_response (routing_call self query w)))
  = inr (Some d) ->
  wants_tool (Some d) = true ->
  lookup_tool (tool_map self) (dict_get d "tool_name" PNone) = inr None ->
  let c2 :=
    second_call self
      [system_message
         "You are a helpful AI assistant. Answer the user's question based on your general knowledge.";
       user_chat query] w in
  let w' := snd (process_query self query w) in
  new_calls w w' = [routing_call self query w; c2]
  /\ new_tool_runs w w' = []
  /\ new_output w w'
     = not_available_msg (dict_get d "tool_name" PNone)
       :: stream_contents (call_response c2)
       ++ match stream_error (call_response c2) with
          | None => []
          | Some e => [fallback_apology e]
          end.
Proof.
  intros Hok Hcall Hwants Hlookup c2 w'.
  destruct (unknown_tool_state self query w d Hok Hcall Hwants Hlookup)
    as (Hcalls & Hruns & Hout & _).
  repeat split; assumption.
Qed.

(** C10. On the path of an unregistered tool, the assistant entry appended to
    the ledger holds the text of the fallback answer and nothing else: the
    notice is yielded but not stored; and when the fallback call fails, an
    apology is yielded and no assistant entry is appended. *)
Theorem fallback_ledger_entry `{Runtime} (self : QueryRouter) (query : string)
    (w : world) (d : list (string * pyval)) :
  stream_error (call_response (routing_call self query w)) = None ->
  _extract_tool_call (stream_text (call_response (routing_call self query w)))
  = inr (Some d) ->
  wants_tool (Some d) = true ->
  lookup_tool (tool_map self) (dict_get d "tool_name" PNone) = inr None ->
  let r2 := call_response (second_call self (fallback_messages query) w) in
  let notice := not_available_msg (dict_get d "tool_name" PNone) in
  let w' := snd (process_query self query w) in
  match stream_error r2 with
  | None =>
      memory w'
      = add_assistant_message (add_user_message (memory w) query) (stream_text r2)
      /\ new_output w w' = notice :: stream_contents r2
  | Some e =>
      memory w' = add_user_message (memory w) query
      /\ new_output w w' = notice :: stream_contents r2 ++ [fallback_apology e]
  end.
Proof.
  intros Hok Hcall Hwants Hlookup r2 notice w'.
  destruct (unknown_tool_state self query w d Hok Hcall Hwants Hlookup)
    as (_ & _ & Hout & Hmem).
  fold r2 in Hout, Hmem. fold w' in Hout, Hmem. fold notice in Hout.
  destruct (stream_error r2) as [e |].
  - split; assumption.
  - rewrite app_nil_r in Hout. split; assumption.
Qed.

(** ** The routing cycle: a registered tool *)

(** The state in which a query that calls a registered tool ends. *)
Lemma tool_state `{Runtime} (self : QueryRouter) (query : string) (w : world)
    (d : list (string * pyval)) (name : string) (tool : BaseTool) :
  stream_error (call_response (routing_call self query w)) = None ->
  _extract_tool_call (stream_text (call_response (routing_call self query w)))
  = inr (Some d) ->
  wants_tool (Some d) = true ->
  lookup_tool (tool_map self) (dict_get d "tool_name" PNone)
  = inr (Some (name, tool)) ->
  let payload :=
    tool_response_of name tool (dict_get d "tool_parameters" (PDict [])) in
  let c2 := second_call self (formatting_messages name payload query) w in
  let w' := snd (process_query self query w) in
  new_calls w w' = [routing_call self query w; c2]
  /\ new_output w w'
     = indicator_msg name
       :: stream_contents (call_response c2)
       ++ match stream_error (call_response c2) with
          | None => []
          | Some e => [routing_apology e]
          end
  /\ memory w'
     = match stream_error (call_response c2) with
       | None =>
           add_assistant_message
             (add_tool_message (add_user_message (memory w) query) name payload)
             (stream_text (call_response c2))
       | Some _ =>
           add_tool_message (add_user_message (memory w) query) name payload
       end.
Proof.
  intros Hok Hcall Hwants Hlookup payload c2 w'. subst w'.
  rewrite (path_tool self query w d name tool Hok Hcall Hwants Hlookup). cbn [snd].
  fold payload. fold c2. destruct (stream_error (call_response c2)) as [e |].
  - split; [calls_of_path; reflexivity |].
    output_of_path. repeat split; reflexivity.
  - split; [calls_of_path; reflexivity |].
    output_of_path. rewrite app_nil_r. repeat split; reflexivity.
Qed.

(** C4. When [execute] of a registered tool raises, whatever the exception,
    the cycle goes on: the exception is caught at the call site, the payload
    with [error] and [details] built from it is appended as a tool entry, and
    the formatting call is made on it; its stream is passed on to the caller
    after the indicator, and when it completes the answer is appended as the
    assistant entry.  Nothing is raised to the caller. *)
Theorem tool_exception_contained `{Runtime} (self : QueryRouter) (query : string)
    (w : world) (d : list (string * pyval)) (name : string) (tool : BaseTool)
    (e : exn) :
  stream_error (call_response (routing_call self query w)) = None ->
  _extract_tool_call (stream_text (call_response (routing_call self query w)))
  = inr (Some d) ->
  wants_tool (Some d) = true ->
  lookup_tool (tool_map self) (dict_get d "tool_name" PNone)
  = inr (Some (name, tool)) ->
  invoke tool (dict_get d "tool_parameters" (PDict [])) = inl e ->
  let payload :=
    PDict [("error", PStr ("Error executing tool " +:+ name +:+ ": " +:+ exn_msg e));
           ("details", PStr (format_exc e))] in
  let c2 := second_call self (formatting_messages name payload query) w in
  let w' := snd (process_query self query w) in
  fst (process_query self query w) = inr tt
  /\ new_calls w w' = [routing_call self query w; c2]
  /\ match stream_error (call_response c2) with
     | None =>
         memory w'
         = add_assistant_message
             (add_tool_message (add_user_message (memory w) query) name payload)
             (stream_text (call_response c2))
         /\ new_output w w' = indicator_msg name :: stream_contents (call_response c2)
     | Some e2 =>
         memory w'
         = add_tool_message (add_user_message (memory w) query) name payload
         /\ new_output w w'
            = indicator_msg name :: stream_contents (call_response c2)
              ++ [routing_apology e2]
     end.
Proof.
  intros Hok Hcall Hwants Hlookup Hraise payload c2 w'.
  split; [apply process_query_returns |].
  destruct (tool_state self query w d name tool Hok Hcall Hwants Hlookup)
    as (Hcalls & Hout & Hmem).
  assert (Hpayload :
            tool_response_of name tool (dict_get d "tool_parameters" (PDict []))
            = payload).
  { unfold tool_response_of. rewrite Hraise. reflexivity. }
  rewrite Hpayload in Hcalls, Hout, Hmem.
  fold c2 in Hcalls, Hout, Hmem. fold w' in Hcalls, Hout, Hmem.
  split; [exact Hcalls |].
  destruct (stream_error (call_response c2)) as [e2 |].
  - split; assumption.
  - rewrite app_nil_r in Hout. split; assumption.
Qed.

(** ** The routing cycle: a failing model call *)

(** C2, as the code has it.  When a model call of the query fails, the last
    fragment the caller receives is an apology; the ledger then holds, beyond
    what it held, the user entry of the query and, when the failing call is
    the one that formats a tool result, the tool entry appended before that
    call, and nothing else; nothing is raised, and the next query runs
    from the state reached. *)
Theorem model_failure_contained `{Runtime} (self : QueryRouter) (query : string)
    (w : world) :
  let w' := snd (process_query self query w) in
  existsb call_failed (new_calls w w') = true ->
  fst (process_query self query w) = inr tt
  /\ (exists apology,
        last (yielded w') = Some apology
        /\ starts_with "I encountered an error" apology = true)
  /\ (memory w' = add_user_message (memory w) query
      \/ exists name payload,
           new_calls w w'
           = [routing_call self query w;
              second_call self (formatting_messages name payload query) w]
           /\ memory w'
              = add_tool_message (add_user_message (memory w) query) name payload)
  /\ forall next_query, fst (process_query self next_query w') = inr tt.
Proof.
  intros w' Hfailed.
  split; [apply process_query_returns |].
  split; [| split; [| intros next_query; apply process_query_returns]].
  - subst w'. destruct (process_query_path self query w) as (w' & Heq & Hpath).
    rewrite Heq in *. cbn [snd] in *.
    destruct Hpath as [e He | e Hok He | tc Hok Hcall Hwants | d e Hok Hcall Hwants Hl
                      | d Hok Hcall Hwants Hl c2 w2
                      | d name tool Hok Hcall Hwants Hl tp payload c2 w1 w2].
    + eexists. split; [apply last_say1 | apply starts_with_routing_apology].
    + eexists. split; [apply last_say1 | apply starts_with_routing_apology].
    + exfalso. revert Hfailed. calls_of_path. cbn [existsb]. unfold call_failed.
      rewrite Hok. discriminate.
    + eexists. split; [apply last_say1 | apply starts_with_routing_apology].
    + destruct (stream_error (call_response c2)) as [e |] eqn:Hc2.
      * eexists. split; [apply last_say1 | apply starts_with_fallback_apology].
      * exfalso. revert Hfailed. subst w2. calls_of_path. cbn [existsb].
        unfold call_failed. rewrite Hok, Hc2. discriminate.
    + destruct (stream_error (call_response c2)) as [e |] eqn:Hc2.
      * eexists. split; [apply last_say1 | apply starts_with_routing_apology].
      * exfalso. revert Hfailed. subst w2 w1. calls_of_path. cbn [existsb].
        unfold call_failed. rewrite Hok, Hc2. discriminate.
  - subst w'. destruct (process_query_path self query w) as (w' & Heq & Hpath).
    rewrite Heq in *. cbn [snd] in *.
    destruct Hpath as [e He | e Hok He | tc Hok Hcall Hwants | d e Hok Hcall Hwants Hl
                      | d Hok Hcall Hwants Hl c2 w2
                      | d name tool Hok Hcall Hwants Hl tp payload c2 w1 w2].
    + left. reflexivity.
    + left. reflexivity.
    + exfalso. revert Hfailed. calls_of_path. cbn [existsb]. unfold call_failed.
      rewrite Hok. discriminate.
    + left. reflexivity.
    + destruct (stream_error (call_response c2)) as [e |] eqn:Hc2.
      * left. reflexivity.
      * exfalso. revert Hfailed. subst w2. calls_of_path. cbn [existsb].
        unfold call_failed. rewrite Hok, Hc2. discriminate.
    + destruct (stream_error (call_response c2)) as [e |] eqn:Hc2.
      * right. exists name, payload. subst w2 w1. split; [| reflexivity].
        calls_of_path. reflexivity.
      * exfalso. revert Hfailed. subst w2 w1. calls_of_path. cbn [existsb].
        unfold call_failed. rewrite Hok, Hc2. discriminate.
Qed.

(** ** The capabilities: failure payloads *)

Section Capabilities.
Context `{Runtime} (api_key : option string) (session_get : http_get).

Lemma is_failure_error_payload (error details : string) :
  is_failure_payload (error_payload error details) = true.
Proof. reflexivity. Qed.

(** A payload that [weather_request] returns and that is no failure payload
    comes from a response with status 200 whose JSON could be read. *)
Lemma weather_request_returns (location units payload : pyval) :
  weather_request (key_text api_key) session_get location units = inr payload ->
  is_failure_payload payload = true
  \/ exists response data,
       session_get "https://api.openweathermap.org/data/2.5/weather"
         [("q", location); ("units", units); ("appid", PStr (key_text api_key))]
       = inr response
       /\ resp_status response = 200%Z
       /\ resp_json response = inr data.
Proof.
  unfold weather_request.
  destruct (session_get _ _) as [e | response]; [discriminate |].
  cbn [rbind]. destruct (Z.eqb_spec (resp_status response) 200) as [Heq | Hne].
  - cbn [negb].
    destruct (resp_json response) as [e | data] eqn:Hjson; [discriminate |].
    intros _. right. exists response, data.
    split; [reflexivity | split; assumption].
  - cbn [negb]. destruct (resp_text response) as [e | error_data]; [discriminate |].
    cbn [rbind]. intros [= <-]. left. reflexivity.
Qed.

Lemma weather_request_network (location units : pyval) :
  network_fails session_get ->
  exists e, weather_request (key_text api_key) session_get location units = inl e.
Proof.
  intros Hnet. unfold weather_request.
  destruct (Hnet "https://api.openweathermap.org/data/2.5/weather"
              [("q", location); ("units", units); ("appid", PStr (key_text api_key))])
    as [e He].
  exists e. rewrite He. reflexivity.
Qed.

(** A payload that [stock_request] returns is a failure payload or the
    formatted quote with its time stamp. *)
Lemma stock_request_returns (symbol : string) (payload : pyval) :
  stock_request (key_text api_key) session_get symbol = inr payload ->
  is_failure_payload payload = true
  \/ exists quote fields,
       stock_format quote symbol = inr fields
       /\ payload = PDict (fields ++ [("fetched_at", PStr isoformat_now)]).
Proof.
  unfold stock_request.
  destruct (session_get _ _) as [e | response]; [discriminate |].
  cbn [rbind]. destruct (negb (resp_status response =? 200)%Z).
  - destruct (resp_text response) as [e | error_data]; [discriminate |].
    cbn [rbind]. intros [= <-]. left. reflexivity.
  - destruct (resp_json response) as [e | data]; [discriminate |].
    cbn [rbind]. destruct (contains_str data "Global Quote") as [e | present];
      [discriminate |].
    cbn [rbind]. destruct present; cbn [negb].
    + destruct (getitem_str data "Global Quote") as [e | quote]; [discriminate |].
      cbn [rbind]. destruct (truthy quote); cbn [negb].
      * destruct (stock_format quote symbol) as [e | fields] eqn:Hformat.
        -- destruct (isinstance e ValueError || isinstance e TypeError);
             [| discriminate].
           intros [= <-]. left. reflexivity.
        -- intros [= <-]. right. exists quote, fields. split; [assumption | reflexivity].
      * intros [= <-]. left. reflexivity.
    + intros [= <-]. left. reflexivity.
Qed.

Lemma stock_request_network (symbol : string) :
  network_fails session_get ->
  exists e, stock_request (key_text api_key) session_get symbol = inl e.
Proof.
  intros Hnet. unfold stock_request.
  destruct (Hnet "https://www.alphavantage.co/query"
              [("function", PStr "GLOBAL_QUOTE"); ("symbol", PStr symbol);
               ("apikey", PStr (key_text api_key))])
    as [e He].
  exists e. rewrite He. reflexivity.
Qed.

(** C3, as the code has it.  With its required parameter present, [execute]
    of the weather and of the stock capability does not raise for missing
    credentials, for a network failure or for a malformed upstream
    response: it returns a payload with the keys [error] and [details]; a
    payload of another shape is returned only for a response with status
    200 that could be read and formatted.  With the required parameter
    missing, [execute] raises [ValueError]. *)
Theorem execute_failure_payloads (kwargs : list (string * pyval)) :
  let location := dict_get kwargs "location" PNone in
  let units := valid_units (dict_get kwargs "units" (PStr "metric")) in
  let symbol := dict_get kwargs "symbol" PNone in
  (truthy location = false ->
     weather_execute api_key session_get kwargs
     = inl (Exn ValueError "Location is required"))
  /\ (truthy location = true ->
      exists payload,
        weather_execute api_key session_get kwargs = inr payload
        /\ (key_missing api_key = true -> is_failure_payload payload = true)
        /\ (network_fails session_get -> is_failure_payload payload = true)
        /\ (forall e,
              weather_request (key_text api_key) session_get location units
              = inl e ->
              is_failure_payload payload = true)
        /\ (is_failure_payload payload = true
            \/ exists response data,
                 session_get "https://api.openweathermap.org/data/2.5/weather"
                   [("q", location); ("units", units);
                    ("appid", PStr (key_text api_key))]
                 = inr response
                 /\ resp_status response = 200%Z
                 /\ resp_json response = inr data))
  /\ (truthy symbol = false ->
      stock_execute api_key session_get kwargs
      = inl (Exn ValueError "Stock symbol is required"))
  /\ (forall s, symbol = PStr s -> s <> "" ->
      exists payload,
        stock_execute api_key session_get kwargs = inr payload
        /\ (key_missing api_key = true -> is_failure_payload payload = true)
        /\ (network_fails session_get -> is_failure_payload payload = true)
        /\ (forall e,
              stock_request (key_text api_key) session_get
                (str_upper (str_strip s))
              = inl e ->
              is_failure_payload payload = true)
        /\ (is_failure_payload payload = true
            \/ exists quote fields,
                 stock_format quote (str_upper (str_strip s)) = inr fields
                 /\ payload
                    = PDict (fields ++ [("fetched_at", PStr isoformat_now)]))).
Proof.
  intros location units symbol. repeat split.
  - intros Hloc. unfold weather_execute. fold location. rewrite Hloc. reflexivity.
  - intros Hloc. unfold weather_execute. fold location. rewrite Hloc.
    cbn [negb]. destruct (key_missing api_key) eqn:Hkey.
    { eexists. split; [reflexivity |]. repeat split; try reflexivity.
      left. reflexivity. }
    fold units.
    destruct (weather_request (key_text api_key) session_get location units)
      as [e | payload] eqn:Hrequest.
    + destruct (isinstance e ClientError); [| destruct (isinstance e KeyError)];
        (eexists; split; [reflexivity |]; repeat split; try reflexivity;
         left; reflexivity).
    + exists payload. split; [reflexivity |].
      pose proof (weather_request_returns _ _ _ Hrequest) as Hshape.
      repeat split.
      * discriminate.
      * intros Hnet. destruct (weather_request_network location units Hnet)
          as [e He]. congruence.
      * intros e He. congruence.
      * exact Hshape.
  - intros Hsym. unfold stock_execute. fold symbol. rewrite Hsym. reflexivity.
  - intros s Hs Hne. unfold stock_execute. fold symbol. rewrite Hs.
    assert (Htruthy : truthy (PStr s) = true).
    { cbn [truthy]. destruct (String.eqb_spec s ""); [contradiction | reflexivity]. }
    rewrite Htruthy. cbn [negb]. destruct (key_missing api_key) eqn:Hkey.
    { eexists. split; [reflexivity |]. repeat split; try reflexivity.
      left. reflexivity. }
    cbn [strip_upper rbind].
    destruct (stock_request (key_text api_key) session_get
                (str_upper (str_strip s)))
      as [e | payload] eqn:Hrequest.
    + destruct (isinstance e ClientError);
        (eexists; split; [reflexivity |]; repeat split; try reflexivity;
         left; reflexivity).
    + exists payload. split; [reflexivity |].
      pose proof (stock_request_returns _ _ Hrequest) as Hshape.
      repeat split.
      * discriminate.
      * intros Hnet.
        destruct (stock_request_network (str_upper (str_strip s)) Hnet)
          as [e He]. congruence.
      * intros e He. congruence.
      * exact Hshape.
Qed.
End Capabilities.

(** ** The snapshot and the ledger *)

Lemma mapM_entry_fields_ext (h h' : Heap.store) (msgs : list Heap.loc) :
  (forall l, Heap.entry_fields h' l = Heap.entry_fields h l) ->
  mapM (Heap.entry_fields h') msgs = mapM (Heap.entry_fields h) msgs.
Proof.
  intros Hext. induction msgs as [| l msgs IH]; [reflexivity |].
  cbn. rewrite Hext, IH. reflexivity.
Qed.

Lemma mutate_on_list_extends (h h' : Heap.store) (m : Heap.mutation) :
  Heap.on_list m = true ->
  extends_by_list h h' ->
  extends_by_list h (Heap.mutate (length h) h' m).
Proof.
  intros Hm (Hlen & Hold & items & Hsnap). unfold Heap.mutate. rewrite Hsnap.
  destruct m; try discriminate;
    (split; [rewrite length_insert; exact Hlen |];
     split; [intros l Hl; rewrite list_lookup_insert_ne by lia; apply Hold; exact Hl |];
     eexists; apply list_lookup_insert_eq; lia).
Qed.

Lemma mutations_on_list_extend (h h' : Heap.store) (ms : list Heap.mutation) :
  forallb Heap.on_list ms = true ->
  extends_by_list h h' ->
  extends_by_list h (foldl (Heap.mutate (length h)) h' ms).
Proof.
  revert h'. induction ms as [| m ms IH]; intros h' Hms Hext; [exact Hext |].
  cbn [forallb] in Hms. apply andb_true_iff in Hms as [Hm Hms].
  cbn [foldl]. apply IH; [exact Hms |]. apply mutate_on_list_extends; assumption.
Qed.

Lemma extends_entry_fields (h h' : Heap.store) (l : Heap.loc) :
  extends_by_list h h' -> Heap.entry_fields h' l = Heap.entry_fields h l.
Proof.
  intros (Hlen & Hold & items & Hsnap). unfold Heap.entry_fields.
  destruct (decide (l < length h)) as [Hlt | Hge].
  - rewrite Hold by exact Hlt. reflexivity.
  - rewrite (lookup_ge_None_2 h l) by lia.
    destruct (decide (l = length h)) as [-> | Hne].
    + rewrite Hsnap. reflexivity.
    + rewrite (lookup_ge_None_2 h' l) by lia. reflexivity.
Qed.

(** C7, as the code has it.  The list [get_messages] returns is a new object:
    whatever is done to that list (appending, replacing or deleting items,
    clearing it) leaves every object the ledger is made of as it was, and
    the ledger shows the same entries as before. *)
Theorem snapshot_list_isolated (h : Heap.store) (self : Heap.ConversationMemory)
    (snap : Heap.loc) (h1 : Heap.store) (mutations : list Heap.mutation) :
  Heap.get_messages h self = Some (snap, h1) ->
  forallb Heap.on_list mutations = true ->
  let h2 := foldl (Heap.mutate snap) h1 mutations in
  snap <> Heap.messages self
  /\ (forall l, l < length h -> h2 !! l = h !! l)
  /\ Heap.view h2 self = Heap.view h self.
Proof.
  intros Hget Hmutations h2. unfold Heap.get_messages in Hget.
  destruct (h !! Heap.messages self) as [[msgs | fields] |] eqn:Hlist;
    try discriminate.
  unfold Heap.alloc in Hget. injection Hget as <- <-.
  assert (Hself : Heap.messages self < length h).
  { apply lookup_lt_Some in Hlist. exact Hlist. }
  assert (Hext : extends_by_list h h2).
  { apply mutations_on_list_extend; [exact Hmutations |].
    split; [rewrite length_app; simpl; lia |].
    split; [intros l Hl; apply lookup_app_l; exact Hl |].
    exists msgs. rewrite lookup_app_r by lia. rewrite Nat.sub_diag. reflexivity. }
  split; [lia |]. split; [apply Hext |].
  unfold Heap.view. destruct Hext as (Hlen & Hold & Hsnap).
  rewrite (Hold _ Hself), Hlist.
  apply mapM_entry_fields_ext. intros l. apply extends_entry_fields.
  split; [exact Hlen | split; assumption].
Qed.

(** C7 as stated does not hold: the entries of the snapshot are the very
    dicts of the ledger, so an assignment to a key of one of them shows in
    the ledger. *)
Lemma snapshot_entries_shared :
  view_after_snapshot []
  = Some [[("role", PStr "user"); ("content", PStr "hello")]]
  /\ view_after_snapshot [Heap.EntrySetItem 0 "content" (PStr "tampered")]
     = Some [[("role", PStr "user"); ("content", PStr "tampered")]]
  /\ view_after_snapshot [Heap.EntrySetItem 0 "content" (PStr "tampered")]
     <> view_after_snapshot [].
Proof.
  split; [reflexivity |]. split; [reflexivity |]. discriminate.
Qed.

(** A list mutation of the same snapshot changes nothing in the ledger. *)
Lemma snapshot_list_isolated_witness :
  Heap.get_messages [Heap.ListObj [1]; Heap.DictObj [("role", PStr "user")]]
    {| Heap.max_turns := 10; Heap.messages := 0 |}
  = Some (2, [Heap.ListObj [1]; Heap.DictObj [("role", PStr "user")];
              Heap.ListObj [1]])
  /\ forallb Heap.on_list [Heap.ListClear; Heap.ListAppend 0] = true
  /\ Heap.view
       (foldl (Heap.mutate 2)
          [Heap.ListObj [1]; Heap.DictObj [("role", PStr "user")]; Heap.ListObj [1]]
          [Heap.ListClear; Heap.ListAppend 0])
       {| Heap.max_turns := 10; Heap.messages := 0 |}
     = Heap.view [Heap.ListObj [1]; Heap.DictObj [("role", PStr "user")]]
         {| Heap.max_turns := 10; Heap.messages := 0 |}.
Proof.
  split; [reflexivity |]. split; [reflexivity |].
  apply (snapshot_list_isolated
           [Heap.ListObj [1]; Heap.DictObj [("role", PStr "user")]]
           {| Heap.max_turns := 10; Heap.messages := 0 |} 2
           [Heap.ListObj [1]; Heap.DictObj [("role", PStr "user")]; Heap.ListObj [1]]
           [Heap.ListClear; Heap.ListAppend 0]); reflexivity.
Defined.

(** ** The theorems at concrete inputs *)

Example extraction_of_fenced_call :
  _extract_tool_call (H := test_runtime)
    ("```json" +:+ newline +:+ weather_call_text +:+ newline +:+ "```")
  = inr (Some weather_call).
Proof. vm_compute. reflexivity. Qed.

Example extraction_of_prose :
  _extract_tool_call (H := test_runtime) "The capital of France is Paris."
  = inr None.
Proof. vm_compute. reflexivity. Qed.

Example extraction_of_two_blocks :
  candidates two_blocks_text = [note_text; weather_call_text]
  /\ _extract_tool_call (H := test_runtime) two_blocks_text
     = inr (Some weather_call).
Proof. split; vm_compute; reflexivity. Qed.

Example extraction_of_bare_call :
  findall bare_call_text = []
  /\ _extract_tool_call (H := test_runtime) bare_call_text = inr None.
Proof. split; vm_compute; reflexivity. Qed.




Lemma retention_exactness_witness :
  (0 <= 1)%Z
  /\ messages
       (run_appends (H := test_runtime) {| max_turns := 1; messages := [] |}
          three_appends)
     = [assistant_message "b"; user_message "c"].
Proof.
  split; [lia |].
  destruct (retention_exactness (H := test_runtime) 1 [] three_appends 3)
    as (Hmessages & _ & _); [lia | left; reflexivity |].
  exact Hmessages.
Defined.

(** C2 as stated does not hold: when the call that formats the tool result
    fails, the ledger holds the tool entry beyond the user entry. *)
Lemma formatting_failure_keeps_tool_entry :
  existsb call_failed
    (new_calls (empty_world 10)
       (snd (process_query (H := test_runtime) formatting_fails weather_query
               (empty_world 10))))
  = true
  /\ map msg_role
       (messages
          (memory
             (snd (process_query (H := test_runtime) formatting_fails weather_query
                     (empty_world 10)))))
     = ["user"; "tool"]
  /\ memory
       (snd (process_query (H := test_runtime) formatting_fails weather_query
               (empty_world 10)))
     <> add_user_message (memory (empty_world 10)) weather_query.
Proof.
  split; [vm_compute; reflexivity |]. split; [vm_compute; reflexivity |].
  vm_compute. discriminate.
Qed.

Lemma model_failure_contained_witness :
  existsb call_failed
    (new_calls (empty_world 10)
       (snd (process_query (H := test_runtime) formatting_fails weather_query
               (empty_world 10))))
  = true
  /\ exists apology,
       last (yielded
               (snd (process_query (H := test_runtime) formatting_fails
                       weather_query (empty_world 10))))
       = Some apology
       /\ starts_with "I encountered an error" apology = true.
Proof.
  split; [vm_compute; reflexivity |].
  destruct (model_failure_contained (H := test_runtime) formatting_fails
              weather_query (empty_world 10))
    as (_ & Hapology & _); [vm_compute; reflexivity |].
  exact Hapology.
Defined.

(** C3 as stated does not hold: with the required parameter missing,
    [execute] of either capability raises. *)
Lemma missing_parameter_raises :
  execute (WeatherTool (H := test_runtime) (Some "secret") offline) []
  = inl (Exn ValueError "Location is required")
  /\ execute (StockTool (H := test_runtime) (Some "secret") offline) []
     = inl (Exn ValueError "Stock symbol is required")
  /\ ~ (exists payload,
          execute (WeatherTool (H := test_runtime) (Some "secret") offline) []
          = inr payload
          /\ is_failure_payload payload = true).
Proof.
  split; [reflexivity |]. split; [reflexivity |].
  intros (payload & Hreturned & _). discriminate.
Qed.

Lemma execute_failure_payloads_witness :
  truthy (dict_get [("location", PStr "Paris")] "location" PNone) = true
  /\ network_fails offline
  /\ exists payload,
       weather_execute (H := test_runtime) (Some "secret") offline
         [("location", PStr "Paris")]
       = inr payload
       /\ is_failure_payload payload = true.
Proof.
  assert (Hnetwork : network_fails offline).
  { intros url params. eexists. reflexivity. }
  split; [reflexivity |]. split; [exact Hnetwork |].
  destruct (execute_failure_payloads (H := test_runtime) (Some "secret") offline
              [("location", PStr "Paris")])
    as (_ & Hweather & _).
  destruct Hweather as (payload & Hreturned & _ & Hfailure & _); [reflexivity |].
  exists payload. split; [exact Hreturned | exact (Hfailure Hnetwork)].
Defined.

Lemma tool_exception_contained_witness :
  stream_error
    (call_response
       (routing_call (H := test_runtime) tool_raises weather_query (empty_world 10)))
  = None
  /\ _extract_tool_call (H := test_runtime)
       (stream_text
          (call_response
             (routing_call (H := test_runtime) tool_raises weather_query
                (empty_world 10))))
     = inr (Some weather_call)
  /\ wants_tool (Some weather_call) = true
  /\ lookup_tool (tool_map tool_raises) (dict_get weather_call "tool_name" PNone)
     = inr (Some ("get_weather", failing_tool))
  /\ invoke failing_tool (dict_get weather_call "tool_parameters" (PDict []))
     = inl (Exn ClientError "Connection reset by peer")
  /\ fst (process_query (H := test_runtime) tool_raises weather_query
            (empty_world 10))
     = inr tt
  /\ length
       (new_calls (empty_world 10)
          (snd (process_query (H := test_runtime) tool_raises weather_query
                  (empty_world 10))))
     = 2.
Proof.
  assert (Hlookup :
            lookup_tool (tool_map tool_raises)
              (dict_get weather_call "tool_name" PNone)
            = inr (Some ("get_weather", failing_tool))).
  { vm_compute. reflexivity. }
  assert (Hcall :
            _extract_tool_call (H := test_runtime)
              (stream_text
                 (call_response
                    (routing_call (H := test_runtime) tool_raises weather_query
                       (empty_world 10))))
            = inr (Some weather_call)).
  { vm_compute. reflexivity. }
  destruct (tool_exception_contained (H := test_runtime) tool_raises weather_query
              (empty_world 10) weather_call "get_weather" failing_tool
              (Exn ClientError "Connection reset by peer")
              eq_refl Hcall eq_refl Hlookup eq_refl)
    as (Hreturns & Hcalls & _).
  split; [reflexivity |]. split; [exact Hcall |]. split; [reflexivity |].
  split; [exact Hlookup |]. split; [reflexivity |]. split; [exact Hreturns |].
  rewrite Hcalls. reflexivity.
Defined.

Lemma unknown_tool_fallback_witness :
  stream_error
    (call_response
       (routing_call (H := test_runtime) asks_for_unicorn unicorn_query
          (empty_world 10)))
  = None
  /\ _extract_tool_call (H := test_runtime)
       (stream_text
          (call_response
             (routing_call (H := test_runtime) asks_for_unicorn unicorn_query
                (empty_world 10))))
     = inr (Some unicorn_call)
  /\ wants_tool (Some unicorn_call) = true
  /\ lookup_tool (tool_map asks_for_unicorn)
       (dict_get unicorn_call "tool_name" PNone)
     = inr None
  /\ new_tool_runs (empty_world 10)
       (snd (process_query (H := test_runtime) asks_for_unicorn unicorn_query
               (empty_world 10)))
     = []
  /\ new_output (empty_world 10)
       (snd (process_query (H := test_runtime) asks_for_unicorn unicorn_query
               (empty_world 10)))
     = ["I attempted to use a tool called 'get_unicorn_price', but it's not available. Let me answer based on what I know.";
        "Unicorns are "; "priceless."].
Proof.
  assert (Hlookup :
            lookup_tool (tool_map asks_for_unicorn)
              (dict_get unicorn_call "tool_name" PNone)
            = inr None).
  { vm_compute. reflexivity. }
  assert (Hcall :
            _extract_tool_call (H := test_runtime)
              (stream_text
                 (call_response
                    (routing_call (H := test_runtime) asks_for_unicorn
                       unicorn_query (empty_world 10))))
            = inr (Some unicorn_call)).
  { vm_compute. reflexivity. }
  destruct (unknown_tool_fallback (H := test_runtime) asks_for_unicorn
              unicorn_query (empty_world 10) unicorn_call
              eq_refl Hcall eq_refl Hlookup)
    as (_ & Hruns & Houtput).
  split; [reflexivity |]. split; [exact Hcall |]. split; [reflexivity |].
  split; [exact Hlookup |]. split; [exact Hruns |].
  rewrite Houtput. vm_compute. reflexivity.
Defined.

Lemma fallback_ledger_entry_witness :
  stream_error
    (call_response
       (routing_call (H := test_runtime) asks_for_unicorn unicorn_query
          (empty_world 10)))
  = None
  /\ _extract_tool_call (H := test_runtime)
       (stream_text
          (call_response
             (routing_call (H := test_runtime) asks_for_unicorn unicorn_query
                (empty_world 10))))
     = inr (Some unicorn_call)
  /\ wants_tool (Some unicorn_call) = true
  /\ lookup_tool (tool_map asks_for_unicorn)
       (dict_get unicorn_call "tool_name" PNone)
     = inr None
  /\ messages
       (memory
          (snd (process_query (H := test_runtime) asks_for_unicorn unicorn_query
                  (empty_world 10))))
     = [user_message unicorn_query; assistant_message "Unicorns are priceless."].
Proof.
  assert (Hlookup :
            lookup_tool (tool_map asks_for_unicorn)
              (dict_get unicorn_call "tool_name" PNone)
            = inr None).
  { vm_compute. reflexivity. }
  assert (Hcall :
            _extract_tool_call (H := test_runtime)
              (stream_text
                 (call_response
                    (routing_call (H := test_runtime) asks_for_unicorn
                       unicorn_query (empty_world 10))))
            = inr (Some unicorn_call)).
  { vm_compute. reflexivity. }
  pose proof (fallback_ledger_entry (H := test_runtime) asks_for_unicorn
                unicorn_query (empty_world 10) unicorn_call
                eq_refl Hcall eq_refl Hlookup) as Hentry.
  cbv zeta in Hentry.
  change (stream_error
            (call_response
               (second_call asks_for_unicorn (fallback_messages unicorn_query)
                  (empty_world 10))))
    with (@None exn) in Hentry.
  destruct Hentry as [Hmemory _].
  split; [reflexivity |]. split; [exact Hcall |]. split; [reflexivity |].
  split; [exact Hlookup |].
  rewrite Hmemory. vm_compute. reflexivity.
Defined.

(** ** The two models of the ledger agree *)

Lemma truncate_entries_Forall2 {A B : Type} (P : A -> B -> Prop)
    (f : A -> bool) (g : B -> bool) (cap : Z) (xs : list A) (ys : list B) :
  Forall2 P xs ys ->
  match xs with [] => false | x :: _ => f x end
  = match ys with [] => false | y :: _ => g y end ->
  Forall2 P (truncate_entries f cap xs) (truncate_entries g cap ys).
Proof.
  intros Hxy Hhead. unfold truncate_entries, slice_to, slice_from, py_len.
  rewrite Hhead, (Forall2_length _ _ _ Hxy).
  destruct (Z.of_nat (length ys) <=? cap * 2)%Z; [exact Hxy |].
  apply Forall2_app; [apply Forall2_take | apply Forall2_drop]; exact Hxy.
Qed.

Lemma message_fields_role (m : Message) :
  dict_lookup (message_fields m) "role" = Some (PStr (msg_role m)).
Proof. unfold message_fields. destruct (msg_tool_name m); reflexivity. Qed.

Lemma represents_entries (h : list Heap.object) (hself : Heap.ConversationMemory)
    (self : ConversationMemory) :
  represents h hself self <->
  Heap.max_turns hself = max_turns self
  /\ exists locs,
       h !! Heap.messages hself = Some (Heap.ListObj locs)
       /\ entries_are h locs (messages self).
Proof.
  unfold represents, Heap.view. split.
  - intros [Hcap Hview]. split; [exact Hcap |].
    destruct (h !! Heap.messages hself) as [[locs | fields] |]; try discriminate.
    exists locs. split; [reflexivity |].
    apply mapM_Some in Hview. apply Forall2_fmap_r in Hview. exact Hview.
  - intros [Hcap (locs & -> & Hentries)]. split; [exact Hcap |].
    apply mapM_Some, Forall2_fmap_r. exact Hentries.
Qed.

Lemma entries_are_grow (h : list Heap.object) (o : Heap.object)
    (locs : list nat) (msgs : list Message) :
  entries_are h locs msgs -> entries_are (h ++ [o]) locs msgs.
Proof.
  intros Hentries. eapply Forall2_impl; [exact Hentries |].
  intros x m Hx. unfold Heap.entry_fields in *.
  destruct (h !! x) as [obj |] eqn:Hhx; [| discriminate].
  rewrite (lookup_app_l_Some _ _ _ _ Hhx). exact Hx.
Qed.

(** Truncation in the store does what truncation does in the list model. *)
Lemma heap_truncate_refines (h : list Heap.object) (hself : Heap.ConversationMemory)
    (locs : list nat) (msgs : list Message) :
  h !! Heap.messages hself = Some (Heap.ListObj locs) ->
  entries_are h locs msgs ->
  exists hself' h' locs',
    Heap._truncate_history h hself = Some (hself', h')
    /\ Heap.max_turns hself' = Heap.max_turns hself
    /\ h' !! Heap.messages hself' = Some (Heap.ListObj locs')
    /\ entries_are h' locs'
         (truncate_entries is_system_message (Heap.max_turns hself) msgs)
    /\ forall l, l < length h -> h' !! l = h !! l.
Proof.
  intros Hlist Hentries. unfold Heap._truncate_history. rewrite Hlist.
  assert (Hlen : py_len locs = py_len msgs).
  { unfold py_len. f_equal. eapply Forall2_length. exact Hentries. }
  destruct (py_len locs <=? Heap.max_turns hself * 2)%Z eqn:Hfits.
  - exists hself, h, locs. split; [reflexivity |]. split; [reflexivity |].
    split; [exact Hlist |]. split; [| reflexivity].
    unfold truncate_entries. rewrite <- Hlen, Hfits. exact Hentries.
  - assert (Hhead :
              match locs with
              | [] => Some false
              | x :: _ => Heap.is_system h x
              end
              = Some match msgs with
                     | [] => false
                     | m :: _ => is_system_message m
                     end).
    { destruct Hentries as [| x m xs ms Hx _]; [reflexivity |].
      unfold Heap.is_system, Heap.entry_fields in *.
      destruct (h !! x) as [[items | d] |]; try discriminate.
      injection Hx as ->. rewrite message_fields_role. reflexivity. }
    rewrite Hhead. unfold Heap.alloc.
    eexists _, _, _. split; [reflexivity |]. split; [reflexivity |].
    cbn [Heap.messages]. split.
    { rewrite lookup_app_r by lia. rewrite Nat.sub_diag. reflexivity. }
    split; [| intros l Hl; apply lookup_app_l; exact Hl].
    apply entries_are_grow. apply truncate_entries_Forall2; [exact Hentries |].
    destruct Hentries; reflexivity.
Qed.

(** Appending an entry in the store does what appending does in the list
    model, and leaves the other objects of the store as they were. *)
Lemma heap_append_refines (h : list Heap.object) (hself : Heap.ConversationMemory)
    (self : ConversationMemory) (m : Message) :
  represents h hself self ->
  exists hself' h',
    Heap.append_entry h hself (message_fields m) = Some (hself', h')
    /\ represents h' hself' (append_and_truncate self m)
    /\ forall l, l < length h -> l <> Heap.messages hself -> h' !! l = h !! l.
Proof.
  intros Hrep. apply represents_entries in Hrep as [Hcap (locs & Hlist & Hentries)].
  assert (Hself : Heap.messages hself < length h).
  { apply lookup_lt_Some in Hlist. exact Hlist. }
  set (h1 := h ++ [Heap.DictObj (message_fields m)]).
  set (h2 := <[Heap.messages hself := Heap.ListObj (locs ++ [length h])]> h1).
  assert (Hlen1 : length h1 = S (length h)).
  { subst h1. rewrite length_app. simpl. lia. }
  assert (Hlist2 : h2 !! Heap.messages hself
                   = Some (Heap.ListObj (locs ++ [length h]))).
  { subst h2. apply list_lookup_insert_eq. lia. }
  assert (Hframe2 : forall x, x <> Heap.messages hself -> h2 !! x = h1 !! x).
  { intros x Hx. subst h2. apply list_lookup_insert_ne. congruence. }
  assert (Hentries2 : entries_are h2 (locs ++ [length h]) (messages self ++ [m])).
  { apply Forall2_app.
    - eapply Forall2_impl; [exact Hentries |]. intros x y Hx.
      unfold Heap.entry_fields in *.
      destruct (h !! x) as [[items | d] |] eqn:Hhx; try discriminate.
      rewrite Hframe2 by (intros ->; congruence).
      subst h1. rewrite (lookup_app_l_Some _ _ _ _ Hhx). exact Hx.
    - constructor; [| constructor]. unfold Heap.entry_fields.
      rewrite Hframe2 by lia. subst h1.
      rewrite lookup_app_r by lia. rewrite Nat.sub_diag. reflexivity. }
  destruct (heap_truncate_refines h2 hself _ _ Hlist2 Hentries2)
    as (hself' & h' & locs' & Htruncate & Hcap' & Hlist' & Hentries' & Hframe').
  exists hself', h'. split; [| split].
  - unfold Heap.append_entry, Heap.alloc. fold h1.
    replace (h1 !! Heap.messages hself) with (Some (Heap.ListObj locs))
      by (symmetry; subst h1; apply lookup_app_l_Some; exact Hlist).
    exact Htruncate.
  - apply represents_entries. unfold append_and_truncate, _truncate_history.
    cbn [max_turns messages]. split; [congruence |].
    exists locs'. split; [exact Hlist' |]. rewrite <- Hcap. exact Hentries'.
  - intros l Hl Hne. rewrite Hframe' by (subst h2; rewrite length_insert; lia).
    rewrite Hframe2 by exact Hne. subst h1. apply lookup_app_l. exact Hl.
Qed.

(** The three append methods and [get_messages], in the store and in the
    list model. *)
Lemma heap_ledger_refines `{Runtime} (h : list Heap.object)
    (hself : Heap.ConversationMemory) (self : ConversationMemory) :
  represents h hself self ->
  (forall content, exists hself' h',
      Heap.add_user_message h hself content = Some (hself', h')
      /\ represents h' hself' (add_user_message self content))
  /\ (forall content, exists hself' h',
        Heap.add_assistant_message h hself content = Some (hself', h')
        /\ represents h' hself' (add_assistant_message self content))
  /\ (forall tool_name content, exists hself' h',
        Heap.add_tool_message h hself tool_name content = Some (hself', h')
        /\ represents h' hself' (add_tool_message self tool_name content))
  /\ exists snap h',
       Heap.get_messages h hself = Some (snap, h')
       /\ represents h' hself self
       /\ represents h' {| Heap.max_turns := Heap.max_turns hself;
                           Heap.messages := snap |}
            {| max_turns := max_turns self; messages := get_messages self |}.
Proof.
  intros Hrep. repeat split.
  - intros content.
    destruct (heap_append_refines h hself self (user_message content) Hrep)
      as (hself' & h' & Happend & Hrep' & _).
    exists hself', h'. split; assumption.
  - intros content.
    destruct (heap_append_refines h hself self (assistant_message content) Hrep)
      as (hself' & h' & Happend & Hrep' & _).
    exists hself', h'. split; assumption.
  - intros tool_name content.
    destruct (heap_append_refines h hself self (tool_message tool_name content) Hrep)
      as (hself' & h' & Happend & Hrep' & _).
    exists hself', h'. split; assumption.
  - apply represents_entries in Hrep as [Hcap (locs & Hlist & Hentries)].
    unfold Heap.get_messages, Heap.alloc. rewrite Hlist.
    eexists _, _. split; [reflexivity |]. split.
    + apply represents_entries. split; [exact Hcap |]. exists locs.
      split; [apply lookup_app_l_Some; exact Hlist |].
      apply entries_are_grow. exact Hentries.
    + apply represents_entries. cbn [Heap.max_turns Heap.messages max_turns messages].
      split; [exact Hcap |]. exists locs. split.
      * rewrite lookup_app_r by lia. rewrite Nat.sub_diag. reflexivity.
      * apply entries_are_grow. exact Hentries.
Qed.

(** * Further properties *)

(** ** The ledger from any state *)

Lemma truncate_entries_cases {A : Type} (is_system : A -> bool) (cap : Z)
    (msgs : list A) :
  let pinned :=
    match msgs with
    | [] => false
    | m :: _ => is_system m
    end in
  truncate_entries is_system cap msgs
  = if (py_len msgs <=? cap * 2)%Z then msgs
    else take (if pinned then 1 else 0) msgs
         ++ drop (Z.to_nat (py_len msgs - cap * 2)) msgs.
Proof.
  intros pinned. unfold truncate_entries. fold pinned.
  destruct (Z.leb_spec (py_len msgs) (cap * 2)) as [Hfits | Hover]; [reflexivity |].
  unfold py_len in *. destruct pinned.
  - replace (1 + (Z.of_nat (length msgs) - cap * 2 - 1))%Z
      with (Z.of_nat (Z.to_nat (Z.of_nat (length msgs) - cap * 2))) by lia.
    change 1%Z with (Z.of_nat 1).
    rewrite slice_to_nonneg, slice_from_nonneg. reflexivity.
  - replace (0 + (Z.of_nat (length msgs) - cap * 2 - 0))%Z
      with (Z.of_nat (Z.to_nat (Z.of_nat (length msgs) - cap * 2))) by lia.
    change 0%Z with (Z.of_nat 0).
    rewrite slice_to_nonneg, slice_from_nonneg. reflexivity.
Qed.

Lemma leads_with_system_snoc `{Runtime} (msgs : list Message) (a : append_op) :
  leads_with_system (msgs ++ [turn_of a]) = leads_with_system msgs.
Proof. destruct msgs; [apply turn_of_not_system | reflexivity]. Qed.

(** What an append leaves in the ledger, whatever it held before. *)
Lemma apply_append_messages `{Runtime} (self : ConversationMemory) (a : append_op) :
  let all := messages self ++ [turn_of a] in
  messages (apply_append self a)
  = if (py_len all <=? max_turns self * 2)%Z then all
    else take (if leads_with_system (messages self) then 1 else 0) all
         ++ drop (Z.to_nat (py_len all - max_turns self * 2)) all.
Proof.
  intros all. subst all. rewrite apply_append_turn.
  unfold append_and_truncate, _truncate_history. cbn [messages max_turns].
  rewrite truncate_entries_cases.
  change (match messages self ++ [turn_of a] with
          | [] => false
          | m :: _ => is_system_message m
          end)
    with (leads_with_system (messages self ++ [turn_of a])).
  rewrite leads_with_system_snoc. reflexivity.
Qed.

Lemma apply_append_max_turns `{Runtime} (self : ConversationMemory) (a : append_op) :
  max_turns (apply_append self a) = max_turns self.
Proof. destruct a; reflexivity. Qed.

(** X1. Whatever the ledger holds (even more than the bound allows), after an
    append with [max_turns >= 0] it holds at most [2 * max_turns] entries,
    and one more when it starts with a system entry; what is left is that
    system entry, if any, followed by a tail of the entries in their order;
    with [max_turns >= 1] the entry just appended is the last one. *)
Theorem append_restores_bound `{Runtime} (self : ConversationMemory) (a : append_op) :
  (0 <= max_turns self)%Z ->
  let pinned := if leads_with_system (messages self) then 1 else 0 in
  let all := messages self ++ [turn_of a] in
  let after := apply_append self a in
  max_turns after = max_turns self
  /\ length (messages after) <= Z.to_nat (2 * max_turns self) + pinned
  /\ (exists k, pinned <= k /\ messages after = take pinned all ++ drop k all)
  /\ ((1 <= max_turns self)%Z -> exists kept, messages after = kept ++ [turn_of a]).
Proof.
  intros Hcap pinned all after.
  split; [apply apply_append_max_turns |].
  pose proof (apply_append_messages self a) as Hafter. cbv zeta in Hafter.
  fold all after pinned in Hafter.
  assert (Hall : length all = S (length (messages self))).
  { unfold all. rewrite length_app. simpl. lia. }
  assert (Hpinned : pinned <= length (messages self)).
  { unfold pinned. destruct (messages self); simpl; [lia |].
    destruct (is_system_message m); lia. }
  assert (Hone : pinned <= 1).
  { unfold pinned. destruct (leads_with_system (messages self)); lia. }
  unfold py_len in Hafter.
  destruct (Z.leb_spec (Z.of_nat (length all)) (max_turns self * 2)) as [Hfits | Hover].
  - rewrite Hafter. split; [lia |]. split.
    + exists pinned. split; [lia |]. rewrite take_drop. reflexivity.
    + intros _. exists (messages self). reflexivity.
  - rewrite Hafter. split.
    { rewrite length_app, length_take, length_drop. lia. }
    split.
    { exists (Z.to_nat (Z.of_nat (length all) - max_turns self * 2)).
      split; [lia | reflexivity]. }
    intros Hturn.
    replace (drop (Z.to_nat (Z.of_nat (length all) - max_turns self * 2)) all)
      with (drop (Z.to_nat (Z.of_nat (length all) - max_turns self * 2))
              (messages self) ++ [turn_of a])
      by (unfold all; rewrite drop_app_le;
          [reflexivity | rewrite length_app; simpl; lia]).
    rewrite app_assoc. eexists. reflexivity.
Qed.

(** X2. With [max_turns <= 0] the ledger remembers nothing: an append
    leaves only the leading system entry, if there was one, so a ledger
    that starts empty is empty after every append. *)
Theorem nonpositive_max_turns_forgets `{Runtime} (cap : Z) :
  (cap <= 0)%Z ->
  (forall self a,
      max_turns self = cap ->
      messages (apply_append self a)
      = take (if leads_with_system (messages self) then 1 else 0) (messages self))
  /\ forall ops, messages (run_appends (new_memory cap) ops) = [].
Proof.
  intros Hcap.
  assert (Hstep : forall self a,
            max_turns self = cap ->
            messages (apply_append self a)
            = take (if leads_with_system (messages self) then 1 else 0)
                (messages self)).
  { intros self a Hself. rewrite apply_append_messages. unfold py_len.
    rewrite length_app. cbn [length].
    destruct (Z.leb_spec (Z.of_nat (length (messages self) + 1)) (max_turns self * 2))
      as [Hfits | Hover]; [lia |].
    rewrite drop_ge by (rewrite length_app; simpl; lia).
    rewrite app_nil_r.
    destruct (messages self) as [| m rest]; [reflexivity |].
    cbn [leads_with_system]. destruct (is_system_message m); reflexivity. }
  split; [exact Hstep |].
  intros ops. induction ops as [| a ops IH] using rev_ind; [reflexivity |].
  unfold run_appends in *. rewrite foldl_app. cbn [foldl].
  rewrite Hstep by apply run_appends_max_turns. rewrite IH. reflexivity.
Qed.

Lemma append_restores_bound_witness :
  (0 <= 1)%Z
  /\ length
       (messages
          (apply_append (H := test_runtime)
             {| max_turns := 1;
                messages := [user_message "a"; assistant_message "b";
                             user_message "c"; assistant_message "d"] |}
             (AppendUser "e")))
     <= 2.
Proof.
  split; [lia |].
  destruct (append_restores_bound (H := test_runtime)
              {| max_turns := 1;
                 messages := [user_message "a"; assistant_message "b";
                              user_message "c"; assistant_message "d"] |}
              (AppendUser "e"))
    as (_ & Hbound & _); [cbn; lia |].
  exact Hbound.
Defined.

Lemma nonpositive_max_turns_forgets_witness :
  (0 <= 0)%Z
  /\ messages (run_appends (H := test_runtime) (new_memory 0) three_appends) = [].
Proof.
  split; [lia |].
  destruct (nonpositive_max_turns_forgets (H := test_runtime) 0) as [_ Hempty];
    [lia |].
  apply Hempty.
Defined.

(** ** Rendering the ledger *)

Lemma turn_of_renderable `{Runtime} (a : append_op) : renderable (turn_of a).
Proof.
  destruct a as [content | content | name content]; unfold renderable; cbn.
  - left. reflexivity.
  - right. left. reflexivity.
  - right. right. split; [reflexivity |]. exists content. reflexivity.
Qed.

Lemma run_appends_renderable `{Runtime} (cap : Z) (ops : list append_op) :
  Forall renderable (messages (run_appends (new_memory cap) ops)).
Proof.
  induction ops as [| a ops IH] using rev_ind; [constructor |].
  unfold run_appends in *. rewrite foldl_app. cbn [foldl].
  rewrite apply_append_messages.
  set (ledger := foldl apply_append (new_memory cap) ops) in *.
  assert (Hall : Forall renderable (messages ledger ++ [turn_of a])).
  { apply Forall_app. split; [exact IH |].
    constructor; [apply turn_of_renderable | constructor]. }
  destruct (_ <=? _)%Z; [exact Hall |].
  apply Forall_app. split; [apply Forall_take | apply Forall_drop]; exact Hall.
Qed.

Lemma formatted_blocks_renderable `{Runtime} (msgs : list Message) :
  dumps_loads ->
  Forall renderable msgs ->
  exists blocks,
    formatted_blocks msgs = inr blocks /\ length blocks = length msgs.
Proof.
  intros Hround Hmsgs. induction Hmsgs as [| m msgs Hm _ IH].
  - exists []. split; reflexivity.
  - destruct IH as (blocks & Hblocks & Hlen).
    assert (Hentry : exists b, format_entry m = inr (Some b)).
    { unfold format_entry.
      destruct Hm as [Hrole | [Hrole | (Hrole & v & Hcontent)]]; rewrite Hrole; cbn.
      - eexists. reflexivity.
      - eexists. reflexivity.
      - rewrite Hcontent. destruct (Hround v) as [v' ->]. cbn. eexists. reflexivity. }
    destruct Hentry as [b Hb]. exists (b :: blocks).
    cbn [formatted_blocks]. rewrite Hb, Hblocks. cbn. split; [reflexivity | lia].
Qed.

(** X3. On a ledger built from an empty one by the append methods,
    [get_formatted_history] does not raise (given that [json.loads] accepts
    what [json.dumps] writes) and renders one block per entry, joined by
    blank lines. *)
Theorem formatted_history_of_appends `{Runtime} (cap : Z) (ops : list append_op) :
  dumps_loads ->
  let ledger := run_appends (new_memory cap) ops in
  exists blocks,
    get_formatted_history ledger = inr (join (newline +:+ newline) blocks)
    /\ length blocks = length (messages ledger).
Proof.
  intros Hround ledger.
  destruct (formatted_blocks_renderable (messages ledger) Hround
              (run_appends_renderable cap ops))
    as (blocks & Hblocks & Hlen).
  exists blocks. split; [| exact Hlen].
  unfold get_formatted_history. rewrite Hblocks. reflexivity.
Qed.

Lemma formatted_blocks_app `{Runtime} (before after : list Message)
    (blocks : list string) :
  formatted_blocks before = inr blocks ->
  formatted_blocks (before ++ after)
  = let? rest := formatted_blocks after in inr (blocks ++ rest).
Proof.
  revert blocks. induction before as [| m before IH]; intros blocks Hblocks.
  - injection Hblocks as <-. cbn. destruct (formatted_blocks after); reflexivity.
  - cbn [formatted_blocks app] in *.
    destruct (format_entry m) as [e | block]; [discriminate |]. cbn [rbind] in *.
    destruct (formatted_blocks before) as [e | blocks0]; [discriminate |].
    cbn [rbind] in Hblocks. injection Hblocks as <-.
    rewrite (IH blocks0 eq_refl).
    destruct (formatted_blocks after) as [e | rest]; [reflexivity |].
    cbn. destruct block; reflexivity.
Qed.

(** X4. Rendering stops at the first tool entry whose content [json.loads]
    rejects and raises that exception, whatever follows; an entry whose role
    is none of user, assistant and tool adds nothing to the rendering. *)
Theorem formatted_history_errors `{Runtime} (cap : Z) (before after : list Message)
    (m : Message) :
  (forall blocks e,
      formatted_blocks before = inr blocks ->
      msg_role m = "tool" ->
      json_loads (msg_content m) = inl e ->
      get_formatted_history
        {| max_turns := cap; messages := before ++ m :: after |}
      = inl e)
  /\ (msg_role m <> "user" -> msg_role m <> "assistant" -> msg_role m <> "tool" ->
      get_formatted_history
        {| max_turns := cap; messages := before ++ m :: after |}
      = get_formatted_history
          {| max_turns := cap; messages := before ++ after |}).
Proof.
  split.
  - intros blocks e Hblocks Hrole Hload.
    unfold get_formatted_history. cbn [messages].
    rewrite (formatted_blocks_app before (m :: after) blocks Hblocks).
    cbn [formatted_blocks]. unfold format_entry. rewrite Hrole, Hload. reflexivity.
  - intros Huser Hassistant Htool.
    assert (Hskip : forall rest, formatted_blocks (m :: rest) = formatted_blocks rest).
    { intros rest. cbn [formatted_blocks]. unfold format_entry.
      destruct (String.eqb_spec (msg_role m) "user"); [contradiction |].
      destruct (String.eqb_spec (msg_role m) "assistant"); [contradiction |].
      destruct (String.eqb_spec (msg_role m) "tool"); [contradiction |].
      cbn. destruct (formatted_blocks rest); reflexivity. }
    unfold get_formatted_history. cbn [messages].
    destruct (formatted_blocks before) as [e | blocks] eqn:Hbefore.
    + assert (Hraise : forall rest, formatted_blocks (before ++ rest) = inl e).
      { clear Hskip. revert e Hbefore.
        induction before as [| m0 before IH]; intros e Hbefore rest; [discriminate |].
        cbn [formatted_blocks app] in *.
        destruct (format_entry m0) as [e0 | block]; [exact Hbefore |].
        cbn [rbind] in *.
        destruct (formatted_blocks before) as [e1 | blocks1] eqn:Hb; [| discriminate].
        rewrite (IH e1 eq_refl rest). exact Hbefore. }
      rewrite !Hraise. reflexivity.
    + rewrite !(formatted_blocks_app before _ blocks Hbefore), Hskip. reflexivity.
Qed.

Lemma formatted_history_errors_witness :
  json_loads (Runtime := test_runtime) (msg_content broken_tool_entry)
  = inl (Exn JSONDecodeError "Expecting value: line 1 column 1 (char 0)")
  /\ get_formatted_history (H := test_runtime)
       {| max_turns := 10;
          messages := [user_message "hi"] ++ broken_tool_entry
                        :: [assistant_message "Sorry."] |}
     = inl (Exn JSONDecodeError "Expecting value: line 1 column 1 (char 0)").
Proof.
  split; [reflexivity |].
  destruct (formatted_history_errors (H := test_runtime) 10 [user_message "hi"]
              [assistant_message "Sorry."] broken_tool_entry)
    as [Hraises _].
  apply (Hraises ["User: hi"]); reflexivity.
Defined.

Lemma canned_dumps_loads : dumps_loads (H := canned_runtime).
Proof. intros v. eexists. vm_compute. reflexivity. Qed.

Lemma formatted_history_of_appends_witness :
  dumps_loads (H := canned_runtime)
  /\ exists blocks,
       get_formatted_history (H := canned_runtime)
         (run_appends (H := canned_runtime) (new_memory 10) tool_conversation)
       = inr (join (newline +:+ newline) blocks)
       /\ length blocks = 3.
Proof.
  split; [exact canned_dumps_loads |].
  destruct (formatted_history_of_appends (H := canned_runtime) 10 tool_conversation
              canned_dumps_loads)
    as (blocks & Hrendered & Hlength).
  exists blocks. split; [exact Hrendered | exact Hlength].
Defined.

(** ** The routing cycle: the remaining paths *)

Lemma wants_tool_falsy (d : list (string * pyval)) :
  truthy (dict_get d "use_tool" (PBool false)) = false -> wants_tool (Some d) = false.
Proof. intros Hfalsy. unfold wants_tool. rewrite Hfalsy. apply andb_false_r. Qed.

(** X5. When the routing reply holds no tool call, or holds one whose
    [use_tool] is false (or any falsy value), the reply itself is the answer:
    it is yielded whole as the only fragment and appended as the assistant
    entry after the user entry; one model call is made and no tool is run,
    whatever tool the reply names. *)
Theorem direct_answer `{Runtime} (self : QueryRouter) (query : string) (w : world)
    (tool_call : option (list (string * pyval))) :
  stream_error (call_response (routing_call self query w)) = None ->
  _extract_tool_call (stream_text (call_response (routing_call self query w)))
  = inr tool_call ->
  (tool_call = None
   \/ exists d, tool_call = Some d
        /\ truthy (dict_get d "use_tool" (PBool false)) = false) ->
  let text := stream_text (call_response (routing_call self query w)) in
  let w' := snd (process_query self query w) in
  new_output w w' = [text]
  /\ memory w' = add_assistant_message (add_user_message (memory w) query) text
  /\ new_calls w w' = [routing_call self query w]
  /\ new_tool_runs w w' = [].
Proof.
  intros Hok Hcall Hplain text w'.
  assert (Hwants : wants_tool tool_call = false).
  { destruct Hplain as [-> | (d & -> & Hfalsy)];
      [reflexivity | apply wants_tool_falsy; exact Hfalsy]. }
  subst w'. rewrite (path_direct_answer self query w tool_call Hok Hcall Hwants).
  cbn [snd]. fold text. split; [| split; [| split]].
  - output_of_path. reflexivity.
  - reflexivity.
  - calls_of_path. reflexivity.
  - output_of_path. apply drop_all.
Qed.

Lemma direct_answer_witness :
  _extract_tool_call (H := test_runtime)
    (stream_text
       (call_response
          (routing_call (H := test_runtime) answers_plainly capital_query
             (empty_world 10))))
  = inr None
  /\ new_output (empty_world 10)
       (snd (process_query (H := test_runtime) answers_plainly capital_query
               (empty_world 10)))
     = ["The capital of France is Paris."]
  /\ new_tool_runs (empty_world 10)
       (snd (process_query (H := test_runtime) answers_plainly capital_query
               (empty_world 10)))
     = [].
Proof.
  assert (Hcall :
            _extract_tool_call (H := test_runtime)
              (stream_text
                 (call_response
                    (routing_call (H := test_runtime) answers_plainly capital_query
                       (empty_world 10))))
            = inr None).
  { vm_compute. reflexivity. }
  split; [exact Hcall |].
  destruct (direct_answer (H := test_runtime) answers_plainly capital_query
              (empty_world 10) None)
    as (Houtput & _ & _ & Hruns);
    [reflexivity | exact Hcall | left; reflexivity |].
  split; [exact Houtput | exact Hruns].
Defined.

(** The tool executions of a query that calls a registered tool. *)
Lemma tool_state_runs `{Runtime} (self : QueryRouter) (query : string) (w : world)
    (d : list (string * pyval)) (name : string) (tool : BaseTool) :
  stream_error (call_response (routing_call self query w)) = None ->
  _extract_tool_call (stream_text (call_response (routing_call self query w)))
  = inr (Some d) ->
  wants_tool (Some d) = true ->
  lookup_tool (tool_map self) (dict_get d "tool_name" PNone)
  = inr (Some (name, tool)) ->
  new_tool_runs w (snd (process_query self query w))
  = tool_runs_of tool (dict_get d "tool_parameters" (PDict [])).
Proof.
  intros Hok Hcall Hwants Hlookup.
  rewrite (path_tool self query w d name tool Hok Hcall Hwants Hlookup). cbn [snd].
  destruct (stream_error (call_response (second_call self _ w)));
    output_of_path; reflexivity.
Qed.

(** X6. When the reply asks for a registered tool and the tool returns a
    payload, the tool is run exactly once, on the parameters of the reply;
    the payload is appended serialized as the tool entry, the formatting call
    is made on it, and when that call completes the caller has received the
    indicator followed by its fragments, whose concatenation is appended as
    the assistant entry: three entries for the query.  The indicator is not
    stored. *)
Theorem tool_result_formatted `{Runtime} (self : QueryRouter) (query : string)
    (w : world) (d : list (string * pyval)) (name : string) (tool : BaseTool)
    (kwargs : list (string * pyval)) (payload : pyval) :
  stream_error (call_response (routing_call self query w)) = None ->
  _extract_tool_call (stream_text (call_response (routing_call self query w)))
  = inr (Some d) ->
  wants_tool (Some d) = true ->
  lookup_tool (tool_map self) (dict_get d "tool_name" PNone)
  = inr (Some (name, tool)) ->
  bind_kwargs tool (dict_get d "tool_parameters" (PDict [])) = inr kwargs ->
  execute tool kwargs = inr payload ->
  let c2 := second_call self (formatting_messages name payload query) w in
  let w' := snd (process_query self query w) in
  new_tool_runs w w' = [(tool_name tool, kwargs)]
  /\ new_calls w w' = [routing_call self query w; c2]
  /\ (stream_error (call_response c2) = None ->
      new_output w w' = indicator_msg name :: stream_contents (call_response c2)
      /\ memory w'
         = run_appends (memory w)
             [AppendUser query; AppendTool name payload;
              AppendAssistant (stream_text (call_response c2))]).
Proof.
  intros Hok Hcall Hwants Hlookup Hbind Hexecute c2 w'.
  assert (Hpayload :
            tool_response_of name tool (dict_get d "tool_parameters" (PDict []))
            = payload).
  { unfold tool_response_of, invoke. rewrite Hbind. cbn [rbind].
    rewrite Hexecute. reflexivity. }
  destruct (tool_state self query w d name tool Hok Hcall Hwants Hlookup)
    as (Hcalls & Hout & Hmem).
  rewrite Hpayload in Hcalls, Hout, Hmem.
  fold c2 in Hcalls, Hout, Hmem. fold w' in Hcalls, Hout, Hmem.
  split; [| split; [exact Hcalls |]].
  - unfold w'. rewrite (tool_state_runs self query w d name tool Hok Hcall Hwants Hlookup).
    unfold tool_runs_of. rewrite Hbind. reflexivity.
  - intros Hdone. rewrite Hdone in Hout, Hmem. rewrite app_nil_r in Hout.
    split; [exact Hout | exact Hmem].
Qed.

Lemma tool_result_formatted_witness :
  _extract_tool_call (H := test_runtime)
    (stream_text
       (call_response
          (routing_call (H := test_runtime) weather_answered weather_query
             (empty_world 10))))
  = inr (Some weather_call)
  /\ new_tool_runs (empty_world 10)
       (snd (process_query (H := test_runtime) weather_answered weather_query
               (empty_world 10)))
     = [("get_weather", [("location", PStr "Paris")])]
  /\ length
       (new_calls (empty_world 10)
          (snd (process_query (H := test_runtime) weather_answered weather_query
                  (empty_world 10))))
     = 2.
Proof.
  assert (Hcall :
            _extract_tool_call (H := test_runtime)
              (stream_text
                 (call_response
                    (routing_call (H := test_runtime) weather_answered weather_query
                       (empty_world 10))))
            = inr (Some weather_call)).
  { vm_compute. reflexivity. }
  split; [exact Hcall |].
  destruct (tool_result_formatted (H := test_runtime) weather_answered weather_query
              (empty_world 10) weather_call "get_weather"
              (WeatherTool (H := test_runtime) (Some "secret") offline)
              [("location", PStr "Paris")]
              (error_payload
                 "Network error connecting to weather API: Cannot connect to host"
                 "Traceback (most recent call last): Cannot connect to host"))
    as (Hruns & Hcalls & _);
    [reflexivity | exact Hcall | reflexivity | vm_compute; reflexivity
    | reflexivity | vm_compute; reflexivity |].
  split; [exact Hruns |]. rewrite Hcalls. reflexivity.
Defined.

(** X7. When the tool name of the reply is a list or an object, the lookup in
    the tool map raises; the caller receives the apology as the only
    fragment, nothing but the user entry is appended, no tool is run and no
    second model call is made. *)
Theorem unhashable_tool_name `{Runtime} (self : QueryRouter) (query : string)
    (w : world) (d : list (string * pyval)) :
  stream_error (call_response (routing_call self query w)) = None ->
  _extract_tool_call (stream_text (call_response (routing_call self query w)))
  = inr (Some d) ->
  wants_tool (Some d) = true ->
  ((exists items, dict_get d "tool_name" PNone = PList items)
   \/ exists fields, dict_get d "tool_name" PNone = PDict fields) ->
  let w' := snd (process_query self query w) in
  (exists kind,
      new_output w w' = ["I encountered an error: unhashable type: '" +:+ kind +:+ "'"])
  /\ memory w' = add_user_message (memory w) query
  /\ new_calls w w' = [routing_call self query w]
  /\ new_tool_runs w w' = [].
Proof.
  intros Hok Hcall Hwants Hname w'.
  assert (Hlookup : exists kind,
            lookup_tool (tool_map self) (dict_get d "tool_name" PNone)
            = inl (Exn TypeError ("unhashable type: '" +:+ kind +:+ "'"))).
  { destruct Hname as [[items ->] | [fields ->]];
      [exists "list" | exists "dict"]; reflexivity. }
  destruct Hlookup as [kind Hlookup]. subst w'.
  rewrite (path_lookup_raises self query w d _ Hok Hcall Hwants Hlookup). cbn [snd].
  split; [exists kind; output_of_path; reflexivity |].
  split; [reflexivity |]. split; [calls_of_path; reflexivity |].
  output_of_path. apply drop_all.
Qed.

Lemma unhashable_tool_name_witness :
  _extract_tool_call (H := wide_runtime)
    (stream_text
       (call_response
          (routing_call (H := wide_runtime) (wide_router [ok_stream [list_name_text]])
             weather_query (empty_world 10))))
  = inr (Some list_name_call)
  /\ dict_get list_name_call "tool_name" PNone = PList [PStr "get_weather"]
  /\ new_calls (empty_world 10)
       (snd (process_query (H := wide_runtime)
               (wide_router [ok_stream [list_name_text]]) weather_query
               (empty_world 10)))
     = [routing_call (H := wide_runtime) (wide_router [ok_stream [list_name_text]])
          weather_query (empty_world 10)]
  /\ new_tool_runs (empty_world 10)
       (snd (process_query (H := wide_runtime)
               (wide_router [ok_stream [list_name_text]]) weather_query
               (empty_world 10)))
     = [].
Proof.
  assert (Hcall :
            _extract_tool_call (H := wide_runtime)
              (stream_text
                 (call_response
                    (routing_call (H := wide_runtime)
                       (wide_router [ok_stream [list_name_text]])
                       weather_query (empty_world 10))))
            = inr (Some list_name_call)).
  { vm_compute. reflexivity. }
  split; [exact Hcall |]. split; [reflexivity |].
  destruct (unhashable_tool_name (H := wide_runtime)
              (wide_router [ok_stream [list_name_text]]) weather_query
              (empty_world 10) list_name_call)
    as (_ & _ & Hcalls & Hruns);
    [reflexivity | exact Hcall | reflexivity
    | left; exists [PStr "get_weather"]; reflexivity |].
  split; [exact Hcalls | exact Hruns].
Defined.

(** X8. When the parameters of the reply cannot be passed as keyword
    arguments (they are not an object, or have a key named [self]), the tool
    is not run at all; the [TypeError] of the call is turned into the error
    payload, which is appended as the tool entry and sent to the formatting
    call like any tool result. *)
Theorem malformed_parameters_not_executed `{Runtime} (self : QueryRouter)
    (query : string) (w : world) (d : list (string * pyval)) (name : string)
    (tool : BaseTool) :
  stream_error (call_response (routing_call self query w)) = None ->
  _extract_tool_call (stream_text (call_response (routing_call self query w)))
  = inr (Some d) ->
  wants_tool (Some d) = true ->
  lookup_tool (tool_map self) (dict_get d "tool_name" PNone)
  = inr (Some (name, tool)) ->
  ((forall kwargs, dict_get d "tool_parameters" (PDict []) <> PDict kwargs)
   \/ exists kwargs, dict_get d "tool_parameters" (PDict []) = PDict kwargs
        /\ dict_contains kwargs "self" = true) ->
  let w' := snd (process_query self query w) in
  exists message,
    let payload :=
      error_payload ("Error executing tool " +:+ name +:+ ": " +:+ message)
        (format_exc (Exn TypeError message)) in
    let c2 := second_call self (formatting_messages name payload query) w in
    new_tool_runs w w' = []
    /\ new_calls w w' = [routing_call self query w; c2]
    /\ memory w'
       = match stream_error (call_response c2) with
         | None =>
             add_assistant_message
               (add_tool_message (add_user_message (memory w) query) name payload)
               (stream_text (call_response c2))
         | Some _ =>
             add_tool_message (add_user_message (memory w) query) name payload
         end.
Proof.
  intros Hok Hcall Hwants Hlookup Hmalformed w'.
  assert (Hbind : exists message,
            bind_kwargs tool (dict_get d "tool_parameters" (PDict []))
            = inl (Exn TypeError message)).
  { destruct Hmalformed as [Hnot | (kwargs & Hdict & Hself)].
    - destruct (dict_get d "tool_parameters" (PDict [])) as [| | | | | | kwargs];
        try (eexists; reflexivity).
      exfalso. apply (Hnot kwargs). reflexivity.
    - rewrite Hdict. cbn [bind_kwargs]. rewrite Hself. eexists. reflexivity. }
  destruct Hbind as [message Hbind]. exists message. cbv zeta.
  assert (Hpayload :
            tool_response_of name tool (dict_get d "tool_parameters" (PDict []))
            = error_payload ("Error executing tool " +:+ name +:+ ": " +:+ message)
                (format_exc (Exn TypeError message))).
  { unfold tool_response_of, invoke. rewrite Hbind. reflexivity. }
  destruct (tool_state self query w d name tool Hok Hcall Hwants Hlookup)
    as (Hcalls & _ & Hmem).
  rewrite Hpayload in Hcalls, Hmem.
  split; [| split; [exact Hcalls | exact Hmem]].
  unfold w'. rewrite (tool_state_runs self query w d name tool Hok Hcall Hwants Hlookup).
  unfold tool_runs_of. rewrite Hbind. reflexivity.
Qed.

Lemma malformed_parameters_not_executed_witness :
  _extract_tool_call (H := wide_runtime)
    (stream_text
       (call_response
          (routing_call (H := wide_runtime)
             (wide_router [ok_stream [text_parameters_text]; ok_stream ["Sorry."]])
             weather_query (empty_world 10))))
  = inr (Some text_parameters_call)
  /\ new_tool_runs (empty_world 10)
       (snd (process_query (H := wide_runtime)
               (wide_router [ok_stream [text_parameters_text]; ok_stream ["Sorry."]])
               weather_query (empty_world 10)))
     = [].
Proof.
  assert (Hcall :
            _extract_tool_call (H := wide_runtime)
              (stream_text
                 (call_response
                    (routing_call (H := wide_runtime)
                       (wide_router
                          [ok_stream [text_parameters_text]; ok_stream ["Sorry."]])
                       weather_query (empty_world 10))))
            = inr (Some text_parameters_call)).
  { vm_compute. reflexivity. }
  split; [exact Hcall |].
  destruct (malformed_parameters_not_executed (H := wide_runtime)
              (wide_router [ok_stream [text_parameters_text]; ok_stream ["Sorry."]])
              weather_query (empty_world 10) text_parameters_call "get_weather"
              (WeatherTool (H := wide_runtime) (Some "secret") offline))
    as (message & Hruns & _);
    [reflexivity | exact Hcall | reflexivity | vm_compute; reflexivity
    | left; intros kwargs; discriminate |].
  exact Hruns.
Defined.

(** ** What the routing call is given *)

Lemma slice_to_all_but_last {A : Type} (kept : list A) (x : A) :
  slice_to (kept ++ [x]) (-1) = kept.
Proof.
  unfold slice_to, slice_bound, py_len. rewrite length_app. cbn [length].
  replace (Z.to_nat _) with (length kept) by (cbn; lia).
  apply take_app_length.
Qed.

Lemma history_messages_dialogue (kept : list Message) (last_entry : Message) :
  history_messages (kept ++ [last_entry])
  = map to_chat (List.filter is_dialogue kept).
Proof.
  unfold history_messages. rewrite slice_to_all_but_last.
  induction kept as [| m kept IH]; [reflexivity |].
  cbn [omap list_omap List.filter]. unfold is_dialogue at 1.
  destruct (String.eqb (msg_role m) "user" || String.eqb (msg_role m) "assistant");
    cbn; rewrite <- IH; reflexivity.
Qed.

Lemma add_user_message_last (self : ConversationMemory) (query : string) :
  (1 <= max_turns self)%Z ->
  exists kept, messages (add_user_message self query) = kept ++ [user_message query].
Proof.
  intros Hcap. unfold add_user_message, append_and_truncate, _truncate_history.
  cbn [messages max_turns]. rewrite truncate_entries_cases. unfold py_len.
  rewrite length_app. cbn [length].
  destruct (_ <=? _)%Z; [exists (messages self); reflexivity |].
  rewrite drop_app_le by lia. rewrite app_assoc. eexists. reflexivity.
Qed.

(** X9. With [max_turns >= 1], the messages of the routing call are the
    system prompt, then the user and assistant entries the ledger keeps from
    before the query, in their order, then the query, once: the user entry
    appended for the query is the last of the ledger and is the one entry
    left out.  No tool entry is sent. *)
Theorem routing_context `{Runtime} (self : QueryRouter) (query : string) (w : world) :
  (1 <= max_turns (memory w))%Z ->
  exists kept,
    messages (add_user_message (memory w) query) = kept ++ [user_message query]
    /\ call_messages (routing_call self query w)
       = system_message (get_system_prompt (map to_dict (tools self)))
         :: map to_chat (List.filter is_dialogue kept) ++ [user_chat query]
    /\ Forall (fun c => chat_role c <> "tool") (call_messages (routing_call self query w)).
Proof.
  intros Hcap. destruct (add_user_message_last (memory w) query Hcap) as [kept Hkept].
  exists kept. split; [exact Hkept |].
  assert (Hmessages :
            call_messages (routing_call self query w)
            = system_message (get_system_prompt (map to_dict (tools self)))
              :: map to_chat (List.filter is_dialogue kept) ++ [user_chat query]).
  { unfold routing_call, routing_messages, get_messages. cbn [call_messages].
    rewrite Hkept, history_messages_dialogue. reflexivity. }
  split; [exact Hmessages |]. rewrite Hmessages.
  constructor; [discriminate |]. apply Forall_app. split.
  - apply Forall_forall. intros c Hc.
    apply list_elem_of_fmap in Hc as (m & -> & Hm).
    apply list_elem_of_In, filter_In in Hm as [_ Hm].
    unfold is_dialogue in Hm. cbn [to_chat chat_role].
    destruct (String.eqb_spec (msg_role m) "user") as [-> | _]; [discriminate |].
    destruct (String.eqb_spec (msg_role m) "assistant") as [-> | _];
      [discriminate | discriminate].
  - constructor; [discriminate | constructor].
Qed.

Lemma routing_context_witness :
  (1 <= max_turns (memory (empty_world 10)))%Z
  /\ Forall (fun c => chat_role c <> "tool")
       (call_messages
          (routing_call (H := test_runtime) answers_plainly capital_query
             (empty_world 10))).
Proof.
  assert (Hcap : (1 <= max_turns (memory (empty_world 10)))%Z) by (cbn; lia).
  split; [exact Hcap |].
  destruct (routing_context (H := test_runtime) answers_plainly capital_query
              (empty_world 10) Hcap)
    as (kept & _ & _ & Hroles).
  exact Hroles.
Defined.

(** ** A query as a sequence of appends *)

Lemma process_query_appends `{Runtime} (self : QueryRouter) (query : string)
    (w : world) :
  exists rest,
    query_appends rest
    /\ memory (snd (process_query self query w))
       = run_appends (memory w) (AppendUser query :: rest).
Proof.
  destruct (process_query_path self query w) as (w' & Heq & Hpath).
  rewrite Heq. cbn [snd].
  destruct Hpath as [e He | e Hok He | tc Hok Hcall Hwants | d e Hok Hcall Hwants Hl
                    | d Hok Hcall Hwants Hl c2 w2
                    | d name tool Hok Hcall Hwants Hl tp payload c2 w1 w2].
  - exists []. split; [constructor | reflexivity].
  - exists []. split; [constructor | reflexivity].
  - eexists [AppendAssistant _]. split; [constructor | reflexivity].
  - exists []. split; [constructor | reflexivity].
  - destruct (stream_error (call_response c2)).
    + exists []. split; [constructor | reflexivity].
    + eexists [AppendAssistant _]. split; [constructor | reflexivity].
  - destruct (stream_error (call_response c2)).
    + eexists [AppendTool _ _]. split; [constructor | reflexivity].
    + eexists [AppendTool _ _; AppendAssistant _]. split; [constructor | reflexivity].
Qed.

(** X10. A query changes the ledger by appends only: the user entry first,
    then nothing, an assistant entry, a tool entry, or a tool entry followed
    by an assistant entry.  The bound of the ledger stays as it is. *)
Theorem query_only_appends `{Runtime} (self : QueryRouter) (query : string)
    (w : world) :
  let w' := snd (process_query self query w) in
  max_turns (memory w') = max_turns (memory w)
  /\ exists rest,
       query_appends rest
       /\ memory w' = run_appends (memory w) (AppendUser query :: rest).
Proof.
  intros w'. destruct (process_query_appends self query w) as (rest & Hshape & Hmem).
  fold w' in Hmem. split.
  - rewrite Hmem. apply run_appends_max_turns.
  - exists rest. split; assumption.
Qed.

Lemma process_query_effects `{Runtime} (self : QueryRouter) (query : string)
    (w : world) :
  let w' := snd (process_query self query w) in
  (exists fragments, fragments <> [] /\ yielded w' = yielded w ++ fragments)
  /\ (exists calls, 1 <= length calls <= 2 /\ llm_calls w' = llm_calls w ++ calls)
  /\ (exists runs, length runs <= 1 /\ tool_runs w' = tool_runs w ++ runs).
Proof.
  destruct (process_query_path self query w) as (w' & Heq & Hpath).
  rewrite Heq. cbn [snd].
  assert (Hruns : forall tool tp, length (tool_runs_of tool tp) <= 1).
  { intros tool tp. unfold tool_runs_of. destruct (bind_kwargs tool tp); simpl; lia. }
  destruct Hpath as [e He | e Hok He | tc Hok Hcall Hwants | d e Hok Hcall Hwants Hl
                    | d Hok Hcall Hwants Hl c2 w2
                    | d name tool Hok Hcall Hwants Hl tp payload c2 w1 w2];
    try subst w2; try subst w1;
    try destruct (stream_error (call_response c2));
    unfold after_routing; cbn [yielded llm_calls tool_runs say remember log_call];
    rewrite <- ?app_assoc;
    (split; [eexists; split; [| reflexivity]; cbn; discriminate |]);
    (split; [eexists; split; [| reflexivity]; cbn; lia |]);
    first [ exists []; split; [simpl; lia | rewrite app_nil_r; reflexivity]
          | eexists; split; [apply Hruns | reflexivity] ].
Qed.

(** X11. Whatever the model and the tools do, a query returns without
    raising, hands the caller at least one fragment, makes one or two model
    calls and runs at most one tool; what was yielded, called and run before
    the query stays as it was. *)
Theorem query_always_answers `{Runtime} (self : QueryRouter) (query : string)
    (w : world) :
  let w' := snd (process_query self query w) in
  fst (process_query self query w) = inr tt
  /\ new_output w w' <> []
  /\ 1 <= length (new_calls w w') <= 2
  /\ length (new_tool_runs w w') <= 1
  /\ yielded w' = yielded w ++ new_output w w'
  /\ llm_calls w' = llm_calls w ++ new_calls w w'
  /\ tool_runs w' = tool_runs w ++ new_tool_runs w w'.
Proof.
  intros w'. split; [apply process_query_returns |].
  destruct (process_query_effects self query w)
    as ((fragments & Hsome & Hout) & (calls & Hcalls & Hlog) & (runs & Hruns & Hrun)).
  fold w' in Hout, Hlog, Hrun.
  unfold new_output, new_calls, new_tool_runs.
  rewrite Hout, Hlog, Hrun, !drop_app_length. repeat split; try assumption; lia.
Qed.

(** ** A session *)

Lemma run_queries_snoc `{Runtime} (self : QueryRouter) (queries : list string)
    (query : string) (w : world) :
  run_queries self (queries ++ [query]) w
  = snd (process_query self query (run_queries self queries w)).
Proof. unfold run_queries. rewrite foldl_app. reflexivity. Qed.

(** The ledger after a query is the ledger before it with the appends of
    the branch taken. *)
Lemma process_query_ops `{Runtime} (self : QueryRouter) (query : string)
    (w : world) :
  memory (snd (process_query self query w))
  = run_appends (memory w) (query_ops self query w).
Proof.
  destruct (process_query_path self query w) as (w' & Heq & Hpath).
  rewrite Heq. cbn [snd]. unfold query_ops.
  destruct Hpath as [e He | e Hok He | tc Hok Hcall Hwants | d e Hok Hcall Hwants Hl
                    | d Hok Hcall Hwants Hl c2 w2
                    | d name tool Hok Hcall Hwants Hl tp payload c2 w1 w2].
  - rewrite He. reflexivity.
  - rewrite Hok, He. reflexivity.
  - rewrite Hok, Hcall, Hwants. reflexivity.
  - rewrite Hok, Hcall, Hwants, Hl. reflexivity.
  - rewrite Hok, Hcall, Hwants, Hl. fold c2.
    destruct (stream_error (call_response c2)); reflexivity.
  - rewrite Hok, Hcall, Hwants, Hl. fold tp. fold payload. fold c2.
    destruct (stream_error (call_response c2)); reflexivity.
Qed.

(** The user append of a query is the first and the only one. *)
Lemma query_ops_asked `{Runtime} (self : QueryRouter) (query : string) (w : world) :
  omap asked (query_ops self query w) = [query].
Proof.
  unfold query_ops.
  destruct (stream_error (call_response (routing_call self query w)));
    [reflexivity |].
  destruct (_extract_tool_call _) as [e | tool_call]; [reflexivity |].
  destruct (wants_tool tool_call); [| reflexivity].
  destruct tool_call as [d |]; [| reflexivity].
  destruct (lookup_tool _ _) as [e | [[name tool] |]]; [reflexivity | |].
  - cbn [omap list_omap asked].
    destruct (stream_error (call_response (second_call _ _ _))); reflexivity.
  - destruct (stream_error (call_response (second_call _ _ _))); reflexivity.
Qed.

Lemma run_queries_cons `{Runtime} (self : QueryRouter) (query : string)
    (queries : list string) (w : world) :
  run_queries self (query :: queries) w
  = run_queries self queries (snd (process_query self query w)).
Proof. reflexivity. Qed.

Lemma run_queries_ops `{Runtime} (self : QueryRouter) (queries : list string) :
  forall w,
    memory (run_queries self queries w)
    = run_appends (memory w) (session_ops self queries w)
    /\ omap asked (session_ops self queries w) = queries.
Proof.
  induction queries as [| query queries IH]; intros w; [split; reflexivity |].
  rewrite run_queries_cons. cbn [session_ops].
  destruct (IH (snd (process_query self query w))) as [Hmem Hasked]. split.
  - rewrite Hmem, process_query_ops. unfold run_appends. rewrite foldl_app.
    reflexivity.
  - rewrite omap_app, query_ops_asked, Hasked. reflexivity.
Qed.

(** X12. In a session that starts with an empty ledger and [max_turns >= 0],
    after any number of queries the ledger holds at most [2 * max_turns]
    entries: they are the last entries of the sequence the queries appended,
    query after query, each query appending its user entry first and then
    the entries of the branch it took; none of them is a system entry.  The
    session has made at most two model calls per query and handed the
    caller at least one fragment per query. *)
Theorem session_ledger_bounded `{Runtime} (self : QueryRouter) (cap : Z)
    (queries : list string) :
  (0 <= cap)%Z ->
  let w' := run_queries self queries (empty_world cap) in
  let ops := session_ops self queries (empty_world cap) in
  max_turns (memory w') = cap
  /\ length (messages (memory w')) <= Z.to_nat (2 * cap)
  /\ messages (memory w') = last_n (Z.to_nat (2 * cap)) (map turn_of ops)
  /\ omap asked ops = queries
  /\ Forall (fun m => msg_role m <> "system") (messages (memory w'))
  /\ length (llm_calls w') <= 2 * length queries
  /\ length queries <= length (yielded w').
Proof.
  intros Hcap w' ops.
  destruct (run_queries_ops self queries (empty_world cap)) as [Hops Hasked].
  fold w' in Hops. fold ops in Hops, Hasked.
  assert (Hmessages :
            messages (memory w') = last_n (Z.to_nat (2 * cap)) (map turn_of ops)).
  { rewrite Hops. apply (run_appends_messages cap [] ops Hcap). left. reflexivity. }
  split; [rewrite Hops; apply run_appends_max_turns |].
  split; [rewrite Hmessages, last_n_length; lia |].
  split; [exact Hmessages |].
  split; [exact Hasked |].
  split.
  { rewrite Hmessages. apply Forall_last_n, Forall_forall. intros m Hm.
    apply list_elem_of_fmap in Hm as (a & -> & _). destruct a; discriminate. }
  subst w'. clear Hops Hmessages Hasked ops.
  induction queries as [| query queries IH] using rev_ind; [cbn; lia |].
  rewrite run_queries_snoc, length_app. cbn [length].
  destruct (process_query_effects self query
              (run_queries self queries (empty_world cap)))
    as ((fragments & Hsome & Hout) & (calls & Hcalls & Hlog) & _).
  rewrite Hout, Hlog, !length_app.
  destruct fragments; [contradiction |]. cbn [length]. lia.
Qed.

Lemma session_ledger_bounded_witness :
  (0 <= 1)%Z
  /\ messages
       (memory
          (run_queries (H := test_runtime) answers_plainly
             [capital_query; weather_query] (empty_world 1)))
     = [user_message weather_query; assistant_message ""].
Proof.
  split; [lia |].
  destruct (session_ledger_bounded (H := test_runtime) answers_plainly 1
              [capital_query; weather_query])
    as (_ & _ & Hrecent & _); [lia |].
  rewrite Hrecent. vm_compute. reflexivity.
Defined.

(** ** The tool map *)

Lemma make_tool_map_snoc (tools : list BaseTool) (tool : BaseTool) :
  make_tool_map (tools ++ [tool]) = <[tool_name tool := tool]> (make_tool_map tools).
Proof. unfold make_tool_map. rewrite foldl_app. reflexivity. Qed.

(** X13. The tool map of a router resolves a name to a tool of the list that
    has that name, and resolves the name of every tool of the list; of tools
    that share a name the last one is the one found, so with pairwise
    different names every tool is found under its own name. *)
Theorem tool_map_resolves (tools : list BaseTool) :
  (forall name tool,
      make_tool_map tools !! name = Some tool ->
      tool ∈ tools /\ tool_name tool = name)
  /\ (forall tool, tool ∈ tools -> is_Some (make_tool_map tools !! tool_name tool))
  /\ (forall before tool after,
        tools = before ++ tool :: after ->
        Forall (fun other => tool_name other <> tool_name tool) after ->
        make_tool_map tools !! tool_name tool = Some tool)
  /\ (NoDup (map tool_name tools) ->
      forall tool, tool ∈ tools -> make_tool_map tools !! tool_name tool = Some tool).
Proof.
  assert (Hfound : forall ts name tool,
            make_tool_map ts !! name = Some tool ->
            tool ∈ ts /\ tool_name tool = name).
  { induction ts as [| t ts IH] using rev_ind; intros name tool Hlookup.
    - unfold make_tool_map in Hlookup. cbn in Hlookup.
      rewrite lookup_empty in Hlookup. discriminate.
    - rewrite make_tool_map_snoc in Hlookup.
      destruct (decide (tool_name t = name)) as [<- | Hne].
      + rewrite lookup_insert_eq in Hlookup. injection Hlookup as <-.
        split; [| reflexivity]. apply elem_of_app. right. constructor.
      + rewrite lookup_insert_ne in Hlookup by exact Hne.
        destruct (IH name tool Hlookup) as [Hin Hname].
        split; [| exact Hname]. apply elem_of_app. left. exact Hin. }
  assert (Hlast : forall before tool after,
            Forall (fun other => tool_name other <> tool_name tool) after ->
            make_tool_map (before ++ tool :: after) !! tool_name tool = Some tool).
  { intros before tool after. induction after as [| t after IH] using rev_ind;
      intros Hafter.
    - rewrite make_tool_map_snoc. apply lookup_insert_eq.
    - apply Forall_app in Hafter as [Hafter Ht]. inversion Ht as [| ? ? Hne _]; subst.
      change (before ++ tool :: after ++ [t]) with (before ++ (tool :: after) ++ [t]).
      rewrite app_assoc, make_tool_map_snoc, lookup_insert_ne by exact Hne.
      apply IH. exact Hafter. }
  split; [apply Hfound |]. split; [| split].
  - induction tools as [| t ts IH] using rev_ind; intros tool Hin.
    + inversion Hin.
    + rewrite make_tool_map_snoc.
      destruct (decide (tool_name t = tool_name tool)) as [Heq | Hne].
      * rewrite Heq, lookup_insert_eq. eexists. reflexivity.
      * rewrite lookup_insert_ne by exact Hne. apply IH.
        apply elem_of_app in Hin as [Hin | Hin]; [exact Hin |].
        apply list_elem_of_singleton in Hin. subst. contradiction.
  - intros before tool after ->. apply Hlast.
  - intros Hnodup tool Hin.
    apply list_elem_of_split in Hin as (before & after & ->).
    apply Hlast. rewrite map_app in Hnodup. cbn [map] in Hnodup.
    apply NoDup_app in Hnodup as (_ & _ & Hnodup).
    apply NoDup_cons in Hnodup as [Hnotin _].
    apply Forall_forall. intros other Hother Heq. apply Hnotin.
    rewrite <- Heq. apply list_elem_of_fmap. exists other. split; [reflexivity | exact Hother].
Qed.

Lemma tool_map_resolves_witness :
  NoDup (map tool_name test_tools)
  /\ make_tool_map test_tools !! "get_stock_price"
     = Some (StockTool (H := test_runtime) None offline).
Proof.
  assert (Hnames : NoDup (map tool_name test_tools)).
  { cbn. apply NoDup_cons. split; [| apply NoDup_singleton].
    intros Hin. apply list_elem_of_singleton in Hin. discriminate Hin. }
  split; [exact Hnames |].
  destruct (tool_map_resolves test_tools) as (_ & _ & _ & Hfound).
  apply (Hfound Hnames (StockTool (H := test_runtime) None offline)).
  unfold test_tools. apply list_elem_of_further, list_elem_of_here.
Defined.

(** ** Fenced blocks: detection and round trip *)

Lemma backticks_app (a b : string) : backticks (a +:+ b) = backticks a + backticks b.
Proof.
  induction a as [| c a IH]; [reflexivity |].
  change (String c a +:+ b) with (String c (a +:+ b)). cbn [backticks].
  rewrite IH. lia.
Qed.

Lemma string_length_app (a b : string) :
  String.length (a +:+ b) = String.length a + String.length b.
Proof.
  induction a as [| c a IH]; [reflexivity |].
  change (String c a +:+ b) with (String c (a +:+ b)). cbn [String.length].
  rewrite IH. reflexivity.
Qed.

Lemma has_fenced_block_backticks (text : string) :
  has_fenced_block text -> 6 <= backticks text.
Proof.
  intros (before & body & rest & ->). rewrite !backticks_app.
  change (backticks fence) with 3. lia.
Qed.

(** X14. The pattern finds a block exactly in the texts that have a fence and,
    after it, a second fence.  So a text without backticks, or with an
    opening fence that is never closed, has no block, and the whole text,
    fence included, is the only candidate. *)
Theorem fenced_block_detection (text : string) :
  (findall text <> [] <-> has_fenced_block text)
  /\ (backticks text < 6 -> candidates text = [text])
  /\ (forall before after,
        backticks before = 0 -> backticks after = 0 ->
        candidates (before +:+ fence +:+ after) = [before +:+ fence +:+ after]).
Proof.
  assert (Hfew : forall t, backticks t < 6 -> candidates t = [t]).
  { intros t Ht. unfold candidates.
    destruct (findall t) as [| c cs] eqn:Hfind; [reflexivity |].
    assert (Hblock : has_fenced_block t).
    { apply findall_nonempty_iff. rewrite Hfind. discriminate. }
    apply has_fenced_block_backticks in Hblock. lia. }
  split; [apply findall_nonempty_iff |]. split; [apply Hfew |].
  intros before after Hbefore Hafter. apply Hfew.
  rewrite !backticks_app, Hbefore, Hafter. change (backticks fence) with 3. lia.
Qed.

Lemma fenced_block_detection_witness :
  backticks "Paris is the capital." < 6
  /\ candidates "Paris is the capital." = ["Paris is the capital."].
Proof.
  assert (Hfew : backticks "Paris is the capital." < 6) by (cbn; lia).
  split; [exact Hfew |].
  destruct (fenced_block_detection "Paris is the capital.") as (_ & Hplain & _).
  exact (Hplain Hfew).
Defined.

Lemma is_space_not_backtick (c : ascii) : is_space c = true -> Ascii.eqb c backtick = false.
Proof.
  intros Hc. destruct (Ascii.eqb_spec c backtick) as [-> | _]; [| reflexivity].
  discriminate.
Qed.

Lemma strip_prefix_fence_other (c : ascii) (s : string) :
  Ascii.eqb c backtick = false -> strip_prefix fence (String c s) = None.
Proof.
  intros Hc. unfold fence. cbn [strip_prefix].
  rewrite Ascii.eqb_sym. fold backtick. rewrite Hc. reflexivity.
Qed.

Section FencedRoundTrip.
Context {R : Type}.

(** White space before a text that does not start with white space is
    passed over in one go. *)
Lemma re_spaces_skip (k : string -> option R) (ws s : string) (r : R) :
  all_spaces ws = true -> starts_with_space s = false ->
  k s = Some r -> re_spaces k (ws +:+ s) = Some r.
Proof.
  intros Hws Hs Hk. induction ws as [| c ws IH].
  - change ("" +:+ s) with s. destruct s as [| c s]; [exact Hk |].
    cbn [re_spaces]. cbn [starts_with_space] in Hs. rewrite Hs. exact Hk.
  - cbn [all_spaces] in Hws. apply andb_true_iff in Hws as [Hc Hws].
    change (String c ws +:+ s) with (String c (ws +:+ s)).
    cbn [re_spaces]. rewrite Hc, (IH Hws). reflexivity.
Qed.

(** The closing part of the pattern does not match inside a text without
    backticks that does not end with white space. *)
Lemma closing_fails_inside (k : string -> option R) (body tail : string) :
  body <> "" -> backticks body = 0 -> ends_with_space body = false ->
  re_spaces (re_lit fence k) (body +:+ tail) = None.
Proof.
  induction body as [| c body IH]; intros Hnonempty Hticks Hend; [contradiction |].
  cbn [backticks] in Hticks.
  assert (Hc : Ascii.eqb c backtick = false).
  { destruct (Ascii.eqb c backtick); [discriminate | reflexivity]. }
  rewrite Hc in Hticks. cbn in Hticks.
  change (String c body +:+ tail) with (String c (body +:+ tail)).
  assert (Hhere : re_lit fence k (String c (body +:+ tail)) = None).
  { unfold re_lit. rewrite strip_prefix_fence_other by exact Hc. reflexivity. }
  cbn [re_spaces]. destruct (is_space c) eqn:Hspace; [| exact Hhere].
  destruct body as [| c' body]; [cbn in Hend; congruence |].
  rewrite IH; [exact Hhere | discriminate | exact Hticks | exact Hend].
Qed.
End FencedRoundTrip.

(** The lazy group takes the whole body, and the match ends at the fence
    that follows it. *)
Lemma re_lazy_any_body (captured body ws after : string) :
  body <> "" -> backticks body = 0 -> ends_with_space body = false ->
  all_spaces ws = true ->
  re_lazy_any
    (fun captured => re_spaces (re_lit fence (fun rest => Some (captured, rest))))
    captured (body +:+ ws +:+ fence +:+ after)
  = Some (captured +:+ body, after).
Proof.
  revert captured. induction body as [| c body IH];
    intros captured Hnonempty Hticks Hend Hws; [contradiction |].
  change (String c body +:+ ws +:+ fence +:+ after)
    with (String c (body +:+ ws +:+ fence +:+ after)).
  cbn [re_lazy_any].
  change (String c (body +:+ ws +:+ fence +:+ after))
    with (String c body +:+ ws +:+ fence +:+ after).
  rewrite (closing_fails_inside _ (String c body) (ws +:+ fence +:+ after))
    by assumption.
  destruct body as [| c' body].
  - change ("" +:+ ws +:+ fence +:+ after) with (ws +:+ fence +:+ after).
    assert (Hclose :
              re_spaces
                (re_lit fence (fun rest => Some (captured +:+ String c "", rest)))
                (ws +:+ fence +:+ after)
              = Some (captured +:+ String c "", after)).
    { apply re_spaces_skip; [exact Hws | reflexivity |].
      unfold re_lit. rewrite strip_prefix_app. reflexivity. }
    destruct (ws +:+ fence +:+ after) as [| c0 s0] eqn:Hs;
      cbn [re_lazy_any]; rewrite Hclose; reflexivity.
  - cbn [backticks] in Hticks.
    rewrite (IH (captured +:+ String c "")); try assumption; try discriminate.
    + f_equal. f_equal.
      exact (string_app_assoc captured (String c "") (String c' body)).
    + destruct (Ascii.eqb c backtick); [discriminate | exact Hticks].
Qed.

(** A block written as [```json], white space, body, white space, [```] is
    matched as a whole, and its group is the body. *)
Lemma fence_match_tagged (ws1 body ws2 after : string) :
  body <> "" -> backticks body = 0 ->
  starts_with_space body = false -> ends_with_space body = false ->
  all_spaces ws1 = true -> all_spaces ws2 = true ->
  fence_match (fence +:+ "json" +:+ ws1 +:+ body +:+ ws2 +:+ fence +:+ after)
  = Some (body, after).
Proof.
  intros Hnonempty Hticks Hstart Hend Hws1 Hws2.
  unfold fence_match, re_lit at 1. rewrite strip_prefix_app.
  unfold re_opt, re_lit at 1. rewrite strip_prefix_app.
  rewrite (re_spaces_skip _ ws1 (body +:+ ws2 +:+ fence +:+ after) (body, after));
    [reflexivity | exact Hws1 | |].
  - destruct body; [contradiction | exact Hstart].
  - apply (re_lazy_any_body "" body ws2 after); assumption.
Qed.

Lemma findall_from_skip (u v : string) :
  findall_from (String.length u) (u +:+ v) = findall_from 0 v.
Proof.
  induction u as [| c u IH]; [reflexivity |].
  change (String c u +:+ v) with (String c (u +:+ v)). exact IH.
Qed.

Lemma findall_before_fence (before s : string) :
  backticks before = 0 -> findall_from 0 (before +:+ s) = findall_from 0 s.
Proof.
  induction before as [| c before IH]; intros Hticks; [reflexivity |].
  cbn [backticks] in Hticks.
  assert (Hc : Ascii.eqb c backtick = false).
  { destruct (Ascii.eqb c backtick); [discriminate | reflexivity]. }
  rewrite Hc in Hticks.
  change (String c before +:+ s) with (String c (before +:+ s)).
  cbn [findall_from]. unfold fence_match, re_lit at 1.
  rewrite strip_prefix_fence_other by exact Hc. apply IH. exact Hticks.
Qed.

(** A match at the start of a text gives the first item found, and the
    search goes on after the match. *)
Lemma findall_at_match (consumed captured after : string) :
  consumed <> "" ->
  fence_match (consumed +:+ after) = Some (captured, after) ->
  findall_from 0 (consumed +:+ after) = captured :: findall_from 0 after.
Proof.
  intros Hnonempty Hmatch. destruct consumed as [| c u]; [contradiction |].
  change (String c u +:+ after) with (String c (u +:+ after)) in *.
  cbn [findall_from]. rewrite Hmatch. f_equal.
  cbn [String.length]. rewrite string_length_app.
  replace (S (String.length u + String.length after) - String.length after - 1)
    with (String.length u) by lia.
  apply findall_from_skip.
Qed.

(** X15. Round trip of the documented wire shape: when a text without
    backticks that neither starts nor ends with white space is wrapped as
    [```json], white space, the text, white space, [```], after any prose
    without backticks, the first candidate found is exactly that text, and
    the search goes on after the closing fence; so when the text is a tool
    call, extraction returns it, whatever follows the block. *)
Theorem fenced_json_round_trip `{Runtime} (before ws1 body ws2 after : string) :
  backticks before = 0 ->
  body <> "" -> backticks body = 0 ->
  starts_with_space body = false -> ends_with_space body = false ->
  all_spaces ws1 = true -> all_spaces ws2 = true ->
  let text :=
    before +:+ fence +:+ "json" +:+ ws1 +:+ body +:+ ws2 +:+ fence +:+ after in
  findall text = body :: findall after
  /\ forall d, is_intent body d -> _extract_tool_call text = inr (Some d).
Proof.
  intros Hbefore Hnonempty Hticks Hstart Hend Hws1 Hws2 text.
  assert (Hfound : findall text = body :: findall after).
  { unfold findall, text. rewrite findall_before_fence by exact Hbefore.
    pose proof (fence_match_tagged ws1 body ws2 after Hnonempty Hticks Hstart Hend
                  Hws1 Hws2) as Hmatch.
    assert (Hshape : fence +:+ "json" +:+ ws1 +:+ body +:+ ws2 +:+ fence +:+ after
                     = (fence +:+ "json" +:+ ws1 +:+ body +:+ ws2 +:+ fence)
                       +:+ after).
    { rewrite !string_app_assoc. reflexivity. }
    rewrite Hshape in *. apply findall_at_match; [discriminate | exact Hmatch]. }
  split; [exact Hfound |].
  intros d [Hload Hkey]. unfold _extract_tool_call, candidates. rewrite Hfound.
  cbn [first_tool_call]. rewrite Hload, Hkey. reflexivity.
Qed.

Lemma fenced_json_round_trip_witness :
  is_intent (H := test_runtime) weather_call_text weather_call
  /\ _extract_tool_call (H := test_runtime)
       (("Let me check." +:+ newline) +:+ fence +:+ "json" +:+ newline
          +:+ weather_call_text +:+ newline +:+ fence
          +:+ (newline +:+ "One moment."))
     = inr (Some weather_call).
Proof.
  assert (Hintent : is_intent (H := test_runtime) weather_call_text weather_call).
  { split; reflexivity. }
  split; [exact Hintent |].
  destruct (fenced_json_round_trip (H := test_runtime) ("Let me check." +:+ newline)
              newline weather_call_text newline (newline +:+ "One moment."))
    as [_ Hextracted];
    [reflexivity | vm_compute; discriminate | reflexivity | reflexivity
    | reflexivity | reflexivity | reflexivity |].
  exact (Hextracted weather_call Hintent).
Defined.

(** ** The capabilities: what they report *)

Section CapabilityReports.
Context `{Runtime} (api_key : option string).

(** X16. Without an API key ([None] or the empty string) [execute] does not
    depend on the network: with the required parameter present it returns
    the payload that says the key is missing, whatever the network would
    answer (for stock also when the symbol is not a string). *)
Theorem no_key_no_network (kwargs : list (string * pyval)) :
  key_missing api_key = true ->
  (forall session_get session_get',
      weather_execute api_key session_get kwargs
      = weather_execute api_key session_get' kwargs
      /\ stock_execute api_key session_get kwargs
         = stock_execute api_key session_get' kwargs)
  /\ (forall session_get,
        truthy (dict_get kwargs "location" PNone) = true ->
        weather_execute api_key session_get kwargs
        = inr (error_payload "Weather API key is missing"
                 "Please provide a valid OpenWeatherMap API key in the configuration"))
  /\ (forall session_get,
        truthy (dict_get kwargs "symbol" PNone) = true ->
        stock_execute api_key session_get kwargs
        = inr (error_payload "Alpha Vantage API key is missing"
                 "Please provide a valid Alpha Vantage API key in the configuration")).
Proof.
  intros Hkey. unfold weather_execute, stock_execute. rewrite Hkey.
  split; [| split].
  - intros session_get session_get'.
    destruct (truthy (dict_get kwargs "location" PNone)),
      (truthy (dict_get kwargs "symbol" PNone)); split; reflexivity.
  - intros session_get ->. reflexivity.
  - intros session_get ->. reflexivity.
Qed.

Lemma valid_units_cases (units : pyval) :
  valid_units units = PStr "metric" \/ valid_units units = PStr "imperial"
  \/ valid_units units = PStr "standard".
Proof.
  unfold valid_units. destruct units as [| | | | s | |]; cbn; auto.
  destruct (String.eqb_spec s "metric") as [-> | _]; cbn; [auto |].
  destruct (String.eqb_spec s "imperial") as [-> | _]; cbn; [auto |].
  destruct (String.eqb_spec s "standard") as [-> | _]; cbn; auto.
Qed.

Lemma valid_units_idempotent (units : pyval) :
  valid_units (valid_units units) = valid_units units.
Proof.
  destruct (valid_units_cases units) as [-> | [-> | ->]]; reflexivity.
Qed.

(** X17. The weather capability looks at two of its arguments only, the
    location and the units, and the units count only after validation: the
    value used is always one of [metric], [imperial] and [standard], a value
    that is none of them (or no string) being replaced by [metric]; any
    other argument is ignored. *)
Theorem weather_units_fallback (session_get : http_get)
    (kwargs : list (string * pyval)) :
  let location := dict_get kwargs "location" PNone in
  let units := dict_get kwargs "units" (PStr "metric") in
  (valid_units units = PStr "metric" \/ valid_units units = PStr "imperial"
   \/ valid_units units = PStr "standard")
  /\ (eq_str units "imperial" = false -> eq_str units "standard" = false ->
      valid_units units = PStr "metric")
  /\ weather_execute api_key session_get kwargs
     = weather_execute api_key session_get
         [("location", location); ("units", valid_units units)].
Proof.
  intros location units. split; [apply valid_units_cases |]. split.
  - intros Himperial Hstandard. unfold valid_units.
    rewrite Himperial, Hstandard.
    destruct units as [| | | | s | |]; try reflexivity. cbn.
    destruct (String.eqb_spec s "metric") as [-> | _]; reflexivity.
  - unfold weather_execute.
    change (dict_get [("location", location); ("units", valid_units units)]
              "location" PNone) with location.
    change (dict_get [("location", location); ("units", valid_units units)]
              "units" (PStr "metric")) with (valid_units units).
    fold location. fold units. rewrite valid_units_idempotent. reflexivity.
Qed.
End CapabilityReports.

Lemma no_key_no_network_witness :
  key_missing None = true
  /\ weather_execute (H := test_runtime) None offline [("location", PStr "Paris")]
     = inr (error_payload "Weather API key is missing"
              "Please provide a valid OpenWeatherMap API key in the configuration").
Proof.
  split; [reflexivity |].
  destruct (no_key_no_network (H := test_runtime) None [("location", PStr "Paris")])
    as (_ & Hweather & _); [reflexivity |].
  apply Hweather. reflexivity.
Defined.

Lemma weather_units_fallback_witness :
  eq_str (PStr "kelvin") "imperial" = false
  /\ valid_units
       (dict_get [("location", PStr "Paris"); ("units", PStr "kelvin")] "units"
          (PStr "metric"))
     = PStr "metric".
Proof.
  split; [reflexivity |].
  destruct (weather_units_fallback (H := test_runtime) (Some "secret") offline
              [("location", PStr "Paris"); ("units", PStr "kelvin")])
    as (_ & Hfallback & _).
  apply Hfallback; reflexivity.
Defined.

Section UpstreamAnswers.
Context `{Runtime} (api_key : option string) (session_get : http_get).

(** X18. With a key and the required parameter, one request is made: for
    weather with the location, the validated units and the key, for stock
    with the function [GLOBAL_QUOTE], the symbol stripped and in upper case,
    and the key.  When the response has a status other than 200 and its
    body can be read, [execute] returns the payload that carries the status
    in [error] and the body in [details]. *)
Theorem upstream_status_reported (kwargs : list (string * pyval))
    (response : http_response) (body : string) :
  key_missing api_key = false ->
  resp_status response <> 200%Z ->
  resp_text response = inr body ->
  let location := dict_get kwargs "location" PNone in
  let units := valid_units (dict_get kwargs "units" (PStr "metric")) in
  (truthy location = true ->
   session_get "https://api.openweathermap.org/data/2.5/weather"
     [("q", location); ("units", units); ("appid", PStr (key_text api_key))]
   = inr response ->
   weather_execute api_key session_get kwargs
   = inr (error_payload ("Weather API error: " +:+ pretty (resp_status response))
            body))
  /\ (forall s,
        dict_get kwargs "symbol" PNone = PStr s -> s <> "" ->
        session_get "https://www.alphavantage.co/query"
          [("function", PStr "GLOBAL_QUOTE");
           ("symbol", PStr (str_upper (str_strip s)));
           ("apikey", PStr (key_text api_key))]
        = inr response ->
        stock_execute api_key session_get kwargs
        = inr (error_payload ("Stock API error: " +:+ pretty (resp_status response))
                 body)).
Proof.
  intros Hkey Hstatus Hbody location units.
  assert (Hnot200 : negb (resp_status response =? 200)%Z = true).
  { destruct (Z.eqb_spec (resp_status response) 200); [contradiction | reflexivity]. }
  split.
  - intros Hlocation Hget. unfold weather_execute. fold location.
    rewrite Hlocation, Hkey. cbn [negb]. fold units.
    unfold weather_request. rewrite Hget. cbn [rbind].
    rewrite Hnot200, Hbody. reflexivity.
  - intros s Hsymbol Hnonempty Hget. unfold stock_execute. rewrite Hsymbol.
    assert (Htruthy : truthy (PStr s) = true).
    { cbn [truthy]. destruct (String.eqb_spec s ""); [contradiction | reflexivity]. }
    rewrite Htruthy, Hkey. cbn [negb strip_upper rbind].
    unfold stock_request. rewrite Hget. cbn [rbind].
    rewrite Hnot200, Hbody. reflexivity.
Qed.

(** X19. When the stock service answers 200 with an object that has no
    [Global Quote], or an empty one, [execute] returns the payload that says
    no data was found, naming the symbol as it was sent: stripped and in
    upper case. *)
Theorem stock_no_data (kwargs : list (string * pyval)) (s : string)
    (response : http_response) (d : list (string * pyval)) :
  key_missing api_key = false ->
  dict_get kwargs "symbol" PNone = PStr s -> s <> "" ->
  session_get "https://www.alphavantage.co/query"
    [("function", PStr "GLOBAL_QUOTE");
     ("symbol", PStr (str_upper (str_strip s)));
     ("apikey", PStr (key_text api_key))]
  = inr response ->
  resp_status response = 200%Z ->
  resp_json response = inr (PDict d) ->
  (dict_lookup d "Global Quote" = None
   \/ exists quote, dict_lookup d "Global Quote" = Some quote /\ truthy quote = false) ->
  stock_execute api_key session_get kwargs
  = inr (error_payload ("No data found for symbol: " +:+ str_upper (str_strip s))
           "The requested stock symbol may be invalid or not available").
Proof.
  intros Hkey Hsymbol Hnonempty Hget Hstatus Hjson Hquote.
  unfold stock_execute. rewrite Hsymbol.
  assert (Htruthy : truthy (PStr s) = true).
  { cbn [truthy]. destruct (String.eqb_spec s ""); [contradiction | reflexivity]. }
  rewrite Htruthy, Hkey. cbn [negb strip_upper rbind].
  unfold stock_request. rewrite Hget. cbn [rbind].
  rewrite Hstatus, Hjson. cbn [Z.eqb Pos.eqb negb rbind contains_str].
  unfold dict_contains, getitem_str.
  destruct Hquote as [Hnone | (quote & Hsome & Hfalsy)].
  - rewrite Hnone. reflexivity.
  - rewrite Hsome. cbn [negb rbind]. rewrite Hfalsy. reflexivity.
Qed.

(** X20. A symbol that is present but is not a string (a number, a list)
    makes the stock [execute] raise [AttributeError] when a key is
    configured: the symbol is stripped before the [try] block is entered,
    so the exception is not turned into a payload, and no request is made. *)
Theorem stock_symbol_not_a_string (kwargs : list (string * pyval)) :
  key_missing api_key = false ->
  truthy (dict_get kwargs "symbol" PNone) = true ->
  (forall s, dict_get kwargs "symbol" PNone <> PStr s) ->
  stock_execute api_key session_get kwargs
  = inl (Exn AttributeError
           ("'" +:+ type_name (dict_get kwargs "symbol" PNone)
              +:+ "' object has no attribute 'strip'")).
Proof.
  intros Hkey Htruthy Hnot. unfold stock_execute. rewrite Htruthy, Hkey.
  cbn [negb]. destruct (dict_get kwargs "symbol" PNone) as [| | | | s | |];
    try reflexivity.
  exfalso. apply (Hnot s). reflexivity.
Qed.

(** X21. When the weather service answers 200 with an object that lacks
    [name], the first field read, [execute] returns the payload that reports
    an unexpected data format and names the missing key; when it answers 200
    with JSON that is no object, the payload reports an error fetching the
    data.  Neither raises. *)
Theorem weather_malformed_data (kwargs : list (string * pyval))
    (response : http_response) (data : pyval) :
  key_missing api_key = false ->
  truthy (dict_get kwargs "location" PNone) = true ->
  session_get "https://api.openweathermap.org/data/2.5/weather"
    [("q", dict_get kwargs "location" PNone);
     ("units", valid_units (dict_get kwargs "units" (PStr "metric")));
     ("appid", PStr (key_text api_key))]
  = inr response ->
  resp_status response = 200%Z ->
  resp_json response = inr data ->
  (forall d, data = PDict d -> dict_lookup d "name" = None ->
     weather_execute api_key session_get kwargs
     = inr (error_payload
              "Unexpected data format from weather API (missing key: 'name')"
              (format_exc (Exn KeyError "'name'"))))
  /\ ((forall d, data <> PDict d) ->
      exists message,
        weather_execute api_key session_get kwargs
        = inr (error_payload ("Error fetching weather data: " +:+ message)
                 (format_exc (Exn TypeError message)))).
Proof.
  intros Hkey Hlocation Hget Hstatus Hjson.
  unfold weather_execute. rewrite Hlocation, Hkey. cbn [negb].
  unfold weather_request. rewrite Hget. cbn [rbind].
  rewrite Hstatus, Hjson. cbn [Z.eqb Pos.eqb negb rbind]. split.
  - intros d -> Hname. unfold getitem_str. rewrite Hname. reflexivity.
  - intros Hnot. destruct data as [| | | | s | items | d];
      try (eexists; reflexivity).
    exfalso. apply (Hnot d). reflexivity.
Qed.
End UpstreamAnswers.

Lemma upstream_status_reported_witness :
  key_missing (Some "secret") = false
  /\ weather_execute (H := test_runtime) (Some "secret") not_found
       [("location", PStr "Atlantis")]
     = inr (error_payload ("Weather API error: " +:+ pretty 404%Z) "city not found").
Proof.
  split; [reflexivity |].
  destruct (upstream_status_reported (H := test_runtime) (Some "secret") not_found
              [("location", PStr "Atlantis")]
              {| resp_status := 404;
                 resp_text := inr "city not found";
                 resp_json := inl (Exn Exception "not JSON") |}
              "city not found")
    as [Hweather _]; [reflexivity | discriminate | reflexivity |].
  apply Hweather; reflexivity.
Defined.

Lemma stock_no_data_witness :
  dict_lookup [] "Global Quote" = None
  /\ stock_execute (H := test_runtime) (Some "secret") empty_object
       [("symbol", PStr "XYZ")]
     = inr (error_payload ("No data found for symbol: " +:+ "XYZ")
              "The requested stock symbol may be invalid or not available").
Proof.
  split; [reflexivity |].
  apply (stock_no_data (H := test_runtime) (Some "secret") empty_object
           [("symbol", PStr "XYZ")] "XYZ"
           {| resp_status := 200; resp_text := inr "{}"; resp_json := inr (PDict []) |}
           []);
    [reflexivity | reflexivity | discriminate | reflexivity | reflexivity
    | reflexivity | left; reflexivity].
Defined.

Lemma stock_symbol_not_a_string_witness :
  truthy (dict_get [("symbol", PInt 7)] "symbol" PNone) = true
  /\ stock_execute (H := test_runtime) (Some "secret") offline [("symbol", PInt 7)]
     = inl (Exn AttributeError "'int' object has no attribute 'strip'").
Proof.
  split; [reflexivity |].
  apply (stock_symbol_not_a_string (H := test_runtime) (Some "secret") offline
           [("symbol", PInt 7)]);
    [reflexivity | reflexivity | intros s; discriminate].
Defined.

Lemma weather_malformed_data_witness :
  dict_lookup [] "name" = None
  /\ weather_execute (H := test_runtime) (Some "secret") empty_object
       [("location", PStr "Paris")]
     = inr (error_payload
              "Unexpected data format from weather API (missing key: 'name')"
              (format_exc (Runtime := test_runtime) (Exn KeyError "'name'"))).
Proof.
  split; [reflexivity |].
  destruct (weather_malformed_data (H := test_runtime) (Some "secret") empty_object
              [("location", PStr "Paris")]
              {| resp_status := 200; resp_text := inr "{}"; resp_json := inr (PDict []) |}
              (PDict []))
    as [Hmissing _];
    [reflexivity | reflexivity | reflexivity | reflexivity | reflexivity |].
  apply (Hmissing []); reflexivity.
Defined.

(** ** Router and weather capability together *)

(** X22. When the reply asks for the weather tool without a location, the
    tool is run, raises, and the router carries on: the tool entry and the
    formatting call get the payload whose error reads
    [Error executing tool get_weather: Location is required]. *)
Theorem weather_without_location `{Runtime} (self : QueryRouter) (query : string)
    (w : world) (d kwargs : list (string * pyval)) (api_key : option string)
    (session_get : http_get) :
  stream_error (call_response (routing_call self query w)) = None ->
  _extract_tool_call (stream_text (call_response (routing_call self query w)))
  = inr (Some d) ->
  wants_tool (Some d) = true ->
  dict_get d "tool_name" PNone = PStr "get_weather" ->
  tool_map self !! "get_weather" = Some (WeatherTool api_key session_get) ->
  dict_get d "tool_parameters" (PDict []) = PDict kwargs ->
  dict_contains kwargs "self" = false ->
  truthy (dict_get kwargs "location" PNone) = false ->
  let payload :=
    error_payload "Error executing tool get_weather: Location is required"
      (format_exc (Exn ValueError "Location is required")) in
  let c2 := second_call self (formatting_messages "get_weather" payload query) w in
  let w' := snd (process_query self query w) in
  new_tool_runs w w' = [("get_weather", kwargs)]
  /\ new_calls w w' = [routing_call self query w; c2]
  /\ memory w'
     = match stream_error (call_response c2) with
       | None =>
           add_assistant_message
             (add_tool_message (add_user_message (memory w) query)
                "get_weather" payload)
             (stream_text (call_response c2))
       | Some _ =>
           add_tool_message (add_user_message (memory w) query) "get_weather" payload
       end.
Proof.
  intros Hok Hcall Hwants Hname Hregistered Hparams Hself Hlocation payload c2 w'.
  assert (Hlookup :
            lookup_tool (tool_map self) (dict_get d "tool_name" PNone)
            = inr (Some ("get_weather", WeatherTool api_key session_get))).
  { rewrite Hname. unfold lookup_tool. rewrite Hregistered. reflexivity. }
  assert (Hbind :
            bind_kwargs (WeatherTool api_key session_get)
              (dict_get d "tool_parameters" (PDict []))
            = inr kwargs).
  { rewrite Hparams. cbn [bind_kwargs]. rewrite Hself. reflexivity. }
  assert (Hpayload :
            tool_response_of "get_weather" (WeatherTool api_key session_get)
              (dict_get d "tool_parameters" (PDict []))
            = payload).
  { unfold tool_response_of, invoke. rewrite Hbind. cbn [rbind execute WeatherTool].
    unfold weather_execute. rewrite Hlocation. reflexivity. }
  destruct (tool_state self query w d _ _ Hok Hcall Hwants Hlookup)
    as (Hcalls & _ & Hmem).
  rewrite Hpayload in Hcalls, Hmem.
  split; [| split; [exact Hcalls | exact Hmem]].
  unfold w'. rewrite (tool_state_runs self query w d _ _ Hok Hcall Hwants Hlookup).
  unfold tool_runs_of. rewrite Hbind. reflexivity.
Qed.

Lemma weather_without_location_witness :
  _extract_tool_call (H := wide_runtime)
    (stream_text
       (call_response
          (routing_call (H := wide_runtime)
             (wide_router [ok_stream [no_location_text]; ok_stream ["Which city?"]])
             weather_query (empty_world 10))))
  = inr (Some no_location_call)
  /\ truthy (dict_get [] "location" PNone) = false
  /\ new_tool_runs (empty_world 10)
       (snd (process_query (H := wide_runtime)
               (wide_router [ok_stream [no_location_text]; ok_stream ["Which city?"]])
               weather_query (empty_world 10)))
     = [("get_weather", [])].
Proof.
  assert (Hcall :
            _extract_tool_call (H := wide_runtime)
              (stream_text
                 (call_response
                    (routing_call (H := wide_runtime)
                       (wide_router
                          [ok_stream [no_location_text]; ok_stream ["Which city?"]])
                       weather_query (empty_world 10))))
            = inr (Some no_location_call)).
  { vm_compute. reflexivity. }
  split; [exact Hcall |]. split; [reflexivity |].
  destruct (weather_without_location (H := wide_runtime)
              (wide_router [ok_stream [no_location_text]; ok_stream ["Which city?"]])
              weather_query (empty_world 10) no_location_call [] (Some "secret")
              offline)
    as (Hruns & _);
    [reflexivity | exact Hcall | reflexivity | reflexivity | vm_compute; reflexivity
    | reflexivity | reflexivity | reflexivity |].
  exact Hruns.
Defined.

(** ** The command loop *)

Lemma py_lstrip_blank (s : string) : all_spaces s = true -> py_lstrip s = "".
Proof.
  induction s as [| c s IH]; [reflexivity |]. cbn [all_spaces py_lstrip].
  intros [Hc Hs]%andb_prop. rewrite Hc. exact (IH Hs).
Qed.

Lemma py_lstrip_not_blank (s : string) :
  all_spaces s = false ->
  exists c rest, py_lstrip s = String c rest /\ is_space c = false.
Proof.
  induction s as [| c s IH]; [discriminate |]. cbn [all_spaces py_lstrip].
  destruct (is_space c) eqn:Hc.
  - intros Hs. exact (IH Hs).
  - intros _. exists c, s. split; [reflexivity | exact Hc].
Qed.

Lemma py_rstrip_head (c : ascii) (s : string) :
  is_space c = false -> py_rstrip (String c s) <> "".
Proof.
  intros Hc. cbn [py_rstrip]. destruct (py_rstrip s); [rewrite Hc |]; discriminate.
Qed.

(** [s.strip()] is empty exactly for the strings of white space. *)
Lemma py_strip_blank (s : string) :
  truthy (PStr (py_strip s)) = negb (all_spaces s).
Proof.
  unfold py_strip. cbn [truthy]. destruct (all_spaces s) eqn:Hs.
  - rewrite (py_lstrip_blank s Hs). reflexivity.
  - destruct (py_lstrip_not_blank s Hs) as (c & rest & -> & Hc).
    pose proof (py_rstrip_head c rest Hc) as Hne.
    destruct (py_rstrip (String c rest)); [contradiction | reflexivity].
Qed.

Lemma lower_char_space (c : ascii) : is_space c = true -> lower_char c = c.
Proof.
  revert c.
  assert (Hall : forallb (fun n =>
                    let c := ascii_of_nat n in
                    implb (is_space c) (Ascii.eqb (lower_char c) c)) (seq 0 256)
                 = true) by (vm_compute; reflexivity).
  intros c Hc. rewrite forallb_forall in Hall.
  specialize (Hall (nat_of_ascii c)). rewrite ascii_nat_embedding in Hall.
  cbn zeta in Hall. rewrite Hc in Hall. apply Ascii.eqb_eq, Hall.
  apply in_seq. pose proof (nat_ascii_bounded c). lia.
Qed.

Lemma py_lower_blank (s : string) : all_spaces s = true -> py_lower s = s.
Proof.
  induction s as [| c s IH]; [reflexivity |]. cbn [all_spaces py_lower].
  intros [Hc Hs]%andb_prop. rewrite (lower_char_space c Hc), (IH Hs). reflexivity.
Qed.

Lemma in_words_elem (word : string) (words : list string) :
  in_words word words = true <-> In word words.
Proof.
  unfold in_words. rewrite existsb_exists. split.
  - intros (x & Hx & ->%String.eqb_eq). exact Hx.
  - intros Hw. exists word. split; [exact Hw | apply String.eqb_refl].
Qed.

Lemma blank_not_command (s : string) :
  all_spaces s = true -> is_exit_command s = false /\ is_clear_command s = false.
Proof.
  intros Hs. unfold is_exit_command, is_clear_command.
  rewrite (py_lower_blank s Hs).
  split; apply not_true_is_false; intros Hin%in_words_elem; cbn [In] in Hin;
    repeat (destruct Hin as [<- | Hin]; [discriminate Hs |]); exact Hin.
Qed.

Lemma clear_not_exit (s : string) :
  is_clear_command s = true -> is_exit_command s = false.
Proof.
  unfold is_exit_command, is_clear_command.
  intros Hin%in_words_elem. cbn [In] in Hin.
  repeat (destruct Hin as [<- | Hin]; [reflexivity |]). contradiction.
Qed.

Lemma clear_not_blank (s : string) :
  is_clear_command s = true -> all_spaces s = false.
Proof.
  intros Hclear. destruct (all_spaces s) eqn:Hs; [| reflexivity].
  destruct (blank_not_command s Hs) as [_ Hno]. congruence.
Qed.

Lemma main_turn_running `{Runtime} (router : QueryRouter) (st : session)
    (line : string) :
  running (main_turn router st line) = negb (is_exit_command line).
Proof.
  unfold main_turn. destruct (is_exit_command line); [reflexivity |].
  destruct (is_clear_command line); [reflexivity |].
  destruct (negb _); [reflexivity |].
  destruct (process_query router line (session_world st)). reflexivity.
Qed.

Lemma main_turn_query `{Runtime} (router : QueryRouter) (st : session)
    (line : string) :
  is_exit_command line = false ->
  is_clear_command line = false ->
  all_spaces line = false ->
  session_world (main_turn router st line)
  = snd (process_query router line (session_world st)).
Proof.
  intros Hexit Hclear Hblank. unfold main_turn.
  rewrite Hexit, Hclear, py_strip_blank, Hblank. cbn [negb].
  destruct (process_query router line (session_world st)). reflexivity.
Qed.

Lemma main_loop_app `{Runtime} (router : QueryRouter) (lines rest : list string) :
  forall st,
    Forall (fun line => is_exit_command line = false) lines ->
    main_loop router st (lines ++ rest)
    = main_loop router (main_loop router st lines) rest.
Proof.
  induction lines as [| line lines IH]; intros st Hlines; [reflexivity |].
  apply Forall_cons in Hlines as [Hline Hlines].
  cbn [main_loop app]. rewrite main_turn_running, Hline. cbn [negb].
  apply IH. exact Hlines.
Qed.

(** The world and the running flag after the loop do not depend on what was
    printed before. *)
Lemma main_loop_printed `{Runtime} (router : QueryRouter) (lines : list string) :
  forall st st',
    session_world st = session_world st' ->
    running st = running st' ->
    session_world (main_loop router st lines)
    = session_world (main_loop router st' lines)
    /\ running (main_loop router st lines) = running (main_loop router st' lines).
Proof.
  induction lines as [| line lines IH]; intros st st' Hw Hr; [split; assumption |].
  cbn [main_loop]. rewrite !main_turn_running.
  assert (Hturn : session_world (main_turn router st line)
                  = session_world (main_turn router st' line)).
  { unfold main_turn. rewrite Hw. destruct (is_exit_command line); [reflexivity |].
    destruct (is_clear_command line); [reflexivity |].
    destruct (negb _); [reflexivity |].
    destruct (process_query router line (session_world st')). reflexivity. }
  destruct (is_exit_command line) eqn:Hexit; cbn [negb].
  - split; [exact Hturn |]. rewrite !main_turn_running, Hexit. reflexivity.
  - apply IH; [exact Hturn |]. rewrite !main_turn_running. reflexivity.
Qed.

Lemma process_query_first_call `{Runtime} (self : QueryRouter) (query : string)
    (w : world) :
  exists rest,
    new_calls w (snd (process_query self query w))
    = routing_call self query w :: rest.
Proof.
  destruct (process_query_path self query w) as (w' & Heq & Hpath).
  rewrite Heq. cbn [snd]. unfold new_calls.
  destruct Hpath as [e He | e Hok He | tc Hok Hcall Hwants | d e Hok Hcall Hwants Hl
                    | d Hok Hcall Hwants Hl c2 w2
                    | d name tool Hok Hcall Hwants Hl tp payload c2 w1 w2];
    try subst w2; try subst w1;
    try destruct (stream_error (call_response c2));
    unfold after_routing; cbn [yielded llm_calls tool_runs say remember log_call];
    rewrite <- ?app_assoc; rewrite drop_app_length; eexists; reflexivity.
Qed.

(** X23. The loop ends at the first exit command, in any letter case: the
    lines typed after it have no effect, and the exit line itself reaches
    neither the model nor the ledger. *)
Theorem session_ends_at_exit `{Runtime} (router : QueryRouter) (st : session)
    (before after : list string) (command : string) :
  Forall (fun line => is_exit_command line = false) before ->
  is_exit_command command = true ->
  let reached := main_loop router st before in
  main_loop router st (before ++ command :: after)
  = {| session_world := session_world reached;
       printed := printed reached ++ [Goodbye];
       running := false |}.
Proof.
  intros Hbefore Hexit reached. rewrite (main_loop_app router before _ st Hbefore).
  fold reached. cbn [main_loop]. rewrite main_turn_running, Hexit. cbn [negb].
  unfold main_turn. rewrite Hexit. reflexivity.
Qed.

Lemma session_ends_at_exit_witness :
  is_exit_command capital_query = false
  /\ is_exit_command "Bye" = true
  /\ running
       (main_loop (H := test_runtime) answers_plainly (start_session (empty_world 10))
          ([capital_query] ++ "Bye" :: [weather_query]))
     = false
  /\ session_world
       (main_loop (H := test_runtime) answers_plainly (start_session (empty_world 10))
          ([capital_query] ++ "Bye" :: [weather_query]))
     = session_world
         (main_loop (H := test_runtime) answers_plainly
            (start_session (empty_world 10)) [capital_query]).
Proof.
  assert (Hquery : is_exit_command capital_query = false) by reflexivity.
  assert (Hbye : is_exit_command "Bye" = true) by reflexivity.
  split; [exact Hquery |]. split; [exact Hbye |].
  rewrite (session_ends_at_exit (H := test_runtime) answers_plainly
             (start_session (empty_world 10)) [capital_query] [weather_query] "Bye"
             (Forall_cons_2 _ _ _ Hquery (Forall_nil_2 _)) Hbye).
  split; reflexivity.
Defined.

(** X24. A clear command empties the ledger without a model call, and the
    question typed next is routed with no history: its routing call carries
    the system prompt and the question only, whatever was said before. *)
Theorem clear_starts_afresh `{Runtime} (router : QueryRouter) (st : session)
    (command question : string) :
  is_clear_command command = true ->
  is_exit_command question = false ->
  is_clear_command question = false ->
  all_spaces question = false ->
  let w := session_world st in
  let cleared := session_world (main_loop router st [command]) in
  let w' := session_world (main_loop router st [command; question]) in
  messages (memory cleared) = []
  /\ new_calls w cleared = []
  /\ w' = snd (process_query router question cleared)
  /\ exists rest,
       new_calls w w'
       = {| call_messages :=
              [system_message (get_system_prompt (map to_dict (tools router)));
               user_chat question];
            call_response :=
              client router (length (llm_calls w))
                [system_message (get_system_prompt (map to_dict (tools router)));
                 user_chat question] |} :: rest.
Proof.
  intros Hclear Hexit Hnoclear Hblank w cleared w'.
  pose proof (clear_not_exit command Hclear) as Hcmd.
  assert (Hcleared : cleared = remember w clear).
  { unfold cleared. cbn [main_loop]. rewrite main_turn_running, Hcmd. cbn [negb].
    unfold main_turn. rewrite Hcmd, Hclear. reflexivity. }
  assert (Hw' : w' = snd (process_query router question cleared)).
  { unfold w', cleared. cbn [main_loop]. rewrite !main_turn_running, Hcmd, Hexit.
    cbn [negb]. apply main_turn_query; assumption. }
  split; [rewrite Hcleared; reflexivity |].
  split; [rewrite Hcleared; unfold new_calls; cbn [remember llm_calls];
          apply drop_all |].
  split; [exact Hw' |].
  destruct (process_query_first_call router question cleared) as [rest Hrest].
  exists rest. rewrite Hw'.
  assert (Hcalls : llm_calls cleared = llm_calls w) by (rewrite Hcleared; reflexivity).
  unfold new_calls in *. rewrite <- Hcalls, Hrest.
  f_equal. rewrite Hcleared. unfold routing_call, routing_messages. cbn zeta.
  assert (Hhistory :
            history_messages
              (get_messages (add_user_message (memory (remember w clear)) question))
            = []).
  { unfold get_messages, add_user_message, append_and_truncate, _truncate_history.
    cbn [remember memory clear messages max_turns app].
    rewrite truncate_entries_cases. unfold py_len. cbn [length].
    destruct (_ <=? _)%Z; [reflexivity |].
    change (is_system_message (user_message question)) with false. cbn [take app].
    destruct (Z.to_nat _) as [| n]; [reflexivity |].
    cbn [drop]. rewrite drop_nil. reflexivity. }
  rewrite Hhistory. reflexivity.
Qed.

Lemma clear_starts_afresh_witness :
  is_clear_command "RESET" = true
  /\ messages
       (memory
          (session_world
             (main_loop (H := test_runtime) answers_plainly
                (start_session
                   (run_queries (H := test_runtime) answers_plainly [capital_query]
                      (empty_world 10)))
                ["RESET"])))
     = [].
Proof.
  split; [reflexivity |].
  destruct (clear_starts_afresh (H := test_runtime) answers_plainly
              (start_session
                 (run_queries (H := test_runtime) answers_plainly [capital_query]
                    (empty_world 10)))
              "RESET" weather_query)
    as (Hempty & _); [reflexivity | reflexivity | reflexivity | reflexivity |].
  exact Hempty.
Defined.

(** X25. Blank lines, empty or of white space only, change nothing but the
    screen: from a running session, the state and the running flag after the
    lines typed are those of the same lines with the blank ones left out. *)
Theorem blank_lines_ignored `{Runtime} (router : QueryRouter) (lines : list string) :
  forall st,
    running st = true ->
    let typed := List.filter (fun line => negb (all_spaces line)) lines in
    session_world (main_loop router st lines)
    = session_world (main_loop router st typed)
    /\ running (main_loop router st lines) = running (main_loop router st typed).
Proof.
  induction lines as [| line lines IH]; intros st Hrun typed; [split; reflexivity |].
  unfold typed. cbn [List.filter]. destruct (all_spaces line) eqn:Hblank; cbn [negb].
  - destruct (blank_not_command line Hblank) as [Hexit Hclear].
    cbn [main_loop]. rewrite main_turn_running, Hexit. cbn [negb].
    destruct (IH st Hrun) as [Hw Hr]. cbn zeta in Hw, Hr. rewrite <- Hw, <- Hr.
    apply main_loop_printed.
    + unfold main_turn. rewrite Hexit, Hclear, py_strip_blank, Hblank. reflexivity.
    + rewrite main_turn_running, Hexit. symmetry. exact Hrun.
  - cbn [main_loop]. destruct (running (main_turn router st line)) eqn:Hturn.
    + apply IH. exact Hturn.
    + split; reflexivity.
Qed.

Lemma blank_lines_ignored_witness :
  running (start_session (empty_world 10)) = true
  /\ session_world
       (main_loop (H := test_runtime) answers_plainly (start_session (empty_world 10))
          ["  "; capital_query; ""])
     = session_world
         (main_loop (H := test_runtime) answers_plainly
            (start_session (empty_world 10)) [capital_query]).
Proof.
  split; [reflexivity |].
  destruct (blank_lines_ignored (H := test_runtime) answers_plainly
              ["  "; capital_query; ""] (start_session (empty_world 10)))
    as [Hworld _]; [reflexivity |].
  exact Hworld.
Defined.

(** ** Snapshots and later operations *)

Lemma heap_append_target (h h' : list Heap.object)
    (hself hself' : Heap.ConversationMemory) (entry : list (string * pyval)) :
  Heap.append_entry h hself entry = Some (hself', h') ->
  Heap.messages hself' = Heap.messages hself \/ length h <= Heap.messages hself'.
Proof.
  unfold Heap.append_entry, Heap.alloc, Heap._truncate_history.
  destruct ((h ++ [Heap.DictObj entry]) !! Heap.messages hself) as [[msgs | d] |];
    try discriminate.
  destruct (_ !! Heap.messages hself) as [[msgs' | d] |]; try discriminate.
  destruct (_ <=? _)%Z.
  - intros [= <- <-]. left. reflexivity.
  - destruct (match msgs' with [] => _ | _ => _ end); [| discriminate].
    intros [= <- <-]. right. cbn [Heap.messages].
    rewrite length_insert, length_app. lia.
Qed.

(** What a ledger object shows is not changed by a step that leaves alone
    the dicts and every list but one, another than the ledger's. *)
Lemma view_frame (h h' : list Heap.object) (target : nat)
    (obj : Heap.ConversationMemory) (v : list (list (string * pyval))) :
  (forall l, l < length h -> l <> target -> h' !! l = h !! l) ->
  (forall d, h !! target <> Some (Heap.DictObj d)) ->
  Heap.messages obj <> target ->
  Heap.view h obj = Some v ->
  Heap.view h' obj = Some v.
Proof.
  intros Hframe Htarget Hobj. unfold Heap.view.
  destruct (h !! Heap.messages obj) as [[locs | d] |] eqn:Hlist; try discriminate.
  rewrite Hframe; [| apply lookup_lt_Some in Hlist; exact Hlist | exact Hobj].
  rewrite Hlist. rewrite !mapM_Some. intros Hv.
  eapply Forall2_impl; [exact Hv |]. intros x d Hx. unfold Heap.entry_fields in *.
  destruct (h !! x) as [[items | d'] |] eqn:Hhx; try discriminate.
  rewrite Hframe; [rewrite Hhx; exact Hx | apply lookup_lt_Some in Hhx; exact Hhx |].
  intros ->. exact (Htarget _ Hhx).
Qed.

Lemma heap_op_refines `{Runtime} (h : list Heap.object)
    (hself snapshot : Heap.ConversationMemory) (self : ConversationMemory)
    (op : ledger_op) (v : list (list (string * pyval))) :
  represents h hself self ->
  Heap.view h snapshot = Some v ->
  Heap.messages snapshot <> Heap.messages hself ->
  exists hself' h',
    heap_op h hself op = Some (hself', h')
    /\ represents h' hself' (apply_op self op)
    /\ Heap.view h' snapshot = Some v
    /\ Heap.messages snapshot <> Heap.messages hself'.
Proof.
  intros Hrep Hview Hne.
  assert (Hsnap : Heap.messages snapshot < length h).
  { unfold Heap.view in Hview.
    destruct (h !! Heap.messages snapshot) eqn:Hl; [| discriminate].
    apply lookup_lt_Some in Hl. exact Hl. }
  destruct op as [a |].
  - destruct (heap_append_refines h hself self (turn_of a) Hrep)
      as (hself' & h' & Happend & Hrep' & Hframe).
    exists hself', h'.
    assert (Hop : heap_op h hself (Append a) = Some (hself', h')).
    { destruct a; exact Happend. }
    split; [exact Hop |].
    split; [cbn [apply_op]; rewrite apply_append_turn; exact Hrep' |].
    split.
    + apply (view_frame h h' (Heap.messages hself)); try assumption.
      apply represents_entries in Hrep as [_ (locs & Hlist & _)].
      intros d. rewrite Hlist. discriminate.
    + destruct (heap_append_target _ _ _ _ _ Happend) as [-> | Hnew];
        [exact Hne | lia].
  - eexists _, _. split; [reflexivity |].
    split; [| split].
    + destruct Hrep as [Hcap _]. split; [exact Hcap |].
      unfold Heap.view. cbn [Heap.messages]. rewrite lookup_app_r by lia.
      rewrite Nat.sub_diag. reflexivity.
    + apply (view_frame h _ (length h)); try assumption.
      * intros l Hl _. apply lookup_app_l. exact Hl.
      * intros d. rewrite lookup_ge_None_2 by lia. discriminate.
      * lia.
    + cbn [Heap.messages]. lia.
Qed.

Lemma heap_ops_refine `{Runtime} (ops : list ledger_op) :
  forall (h : list Heap.object) (hself snapshot : Heap.ConversationMemory)
         (self : ConversationMemory) (v : list (list (string * pyval))),
    represents h hself self ->
    Heap.view h snapshot = Some v ->
    Heap.messages snapshot <> Heap.messages hself ->
    exists hself' h',
      heap_ops h hself ops = Some (hself', h')
      /\ represents h' hself' (run_ops self ops)
      /\ Heap.view h' snapshot = Some v.
Proof.
  induction ops as [| op ops IH]; intros h hself snapshot self v Hrep Hview Hne.
  - exists hself, h. repeat split; assumption || apply Hrep.
  - destruct (heap_op_refines h hself snapshot self op v Hrep Hview Hne)
      as (hself1 & h1 & Hop & Hrep1 & Hview1 & Hne1).
    destruct (IH h1 hself1 snapshot (apply_op self op) v Hrep1 Hview1 Hne1)
      as (hself' & h' & Hops & Hrep' & Hview').
    exists hself', h'. cbn [heap_ops]. rewrite Hop.
    split; [exact Hops |]. split; assumption.
Qed.

(** X26. A snapshot keeps what it was given: whatever is appended to the
    ledger or cleared from it after [get_messages] returned, in the store
    the ledger goes on as the list model says, and the list returned still
    shows the entries of the moment it was taken. *)
Theorem snapshot_survives_ledger_changes `{Runtime} (h : list Heap.object)
    (hself : Heap.ConversationMemory) (self : ConversationMemory)
    (ops : list ledger_op) :
  represents h hself self ->
  exists snap h1 hself' h2,
    Heap.get_messages h hself = Some (snap, h1)
    /\ heap_ops h1 hself ops = Some (hself', h2)
    /\ represents h2 hself' (run_ops self ops)
    /\ Heap.view h2 {| Heap.max_turns := Heap.max_turns hself;
                       Heap.messages := snap |}
       = Some (map message_fields (get_messages self)).
Proof.
  intros Hrep.
  destruct (heap_ledger_refines h hself self Hrep)
    as (_ & _ & _ & snap & h1 & Hget & Hrep1 & [_ Hsnap]).
  assert (Hne : snap <> Heap.messages hself).
  { unfold Heap.get_messages, Heap.alloc in Hget.
    destruct (h !! Heap.messages hself) as [[msgs | d] |] eqn:Hlist;
      try discriminate.
    injection Hget as <- _. apply lookup_lt_Some in Hlist. lia. }
  destruct (heap_ops_refine ops h1 hself
              {| Heap.max_turns := Heap.max_turns hself; Heap.messages := snap |}
              self _ Hrep1 Hsnap Hne)
    as (hself' & h2 & Hops & Hrep2 & Hview).
  exists snap, h1, hself', h2. repeat split; try assumption; apply Hrep2.
Qed.

Lemma snapshot_survives_ledger_changes_witness :
  represents [Heap.ListObj []] {| Heap.max_turns := 1; Heap.messages := 0 |}
    (new_memory 1)
  /\ exists snap h1 hself' h2,
       Heap.get_messages [Heap.ListObj []]
         {| Heap.max_turns := 1; Heap.messages := 0 |}
       = Some (snap, h1)
       /\ heap_ops (H := test_runtime) h1
            {| Heap.max_turns := 1; Heap.messages := 0 |}
            [Append (AppendUser "a"); Clear; Append (AppendAssistant "b")]
          = Some (hself', h2)
       /\ Heap.view h2 {| Heap.max_turns := 1; Heap.messages := snap |} = Some [].
Proof.
  assert (Hrep : represents [Heap.ListObj []]
                   {| Heap.max_turns := 1; Heap.messages := 0 |} (new_memory 1)).
  { split; reflexivity. }
  split; [exact Hrep |].
  destruct (snapshot_survives_ledger_changes (H := test_runtime) [Heap.ListObj []]
              {| Heap.max_turns := 1; Heap.messages := 0 |} (new_memory 1)
              [Append (AppendUser "a"); Clear; Append (AppendAssistant "b")] Hrep)
    as (snap & h1 & hself' & h2 & Hget & Hops & _ & Hview).
  exists snap, h1, hself', h2. split; [exact Hget |]. split; [exact Hops | exact Hview].
Defined.
